(** * Reconciliation engine of bolt-api: a shallow embedding

    Source: [src/routes/reconciliation.js] (the four routes, the three
    detectors and [calculateExpectedGrossPay]) and the methods of the
    [Database] model these call ([query], [createReconciliationLog],
    [getReconciliationLogs], [getSystemSettings], [updateSystemSetting],
    [logAction], [clockIn], [clockOut]).

    Numbers.  The store keeps decimals: a column value is an [option Q],
    [None] for SQL [NULL], and the arithmetic of SQL ([SUM], [AVG], [ABS],
    [LEAST], ...) is the exact arithmetic of [Q]; the rounding of a result
    to the scale of its column is not modelled.  The JavaScript of the
    detectors computes with numbers, IEEE 754 binary64 values: these are
    the primitive floats of Rocq ([Js.number]), with their correctly rounded
    operations, [NaN], the infinities and the signed zeros.  A row that a
    query hands to the detectors holds, for each decimal of the store, the
    number nearest to it ([Js.of_decimal]).  What the store keeps of a
    number that the runner writes depends on the definition of the column,
    which is not among the sources: it is the parameter [stored].  The sum
    of the summary of the results route is taken over the stored decimals,
    exactly; its rounding is not modelled.

    Identifiers and instants are integers ([Z]); a date is the instant at
    which its day begins, in seconds.

    The store is a record of tables, each a list of rows in insertion
    order.  SQL statements are functions on that record: joins are nested
    loops over the tables, [GROUP BY] keeps the groups in the order of their
    first row, and [ORDER BY] is a stable sort.  Columns that the engine
    does not read are left out of the rows. *)

From Stdlib Require Import ZArith QArith Qabs List Bool Lia Lqa Sorted Permutation Floats.
From stdpp Require Import gmap strings.

#[local] Set Warnings "-inexact-float".
#[local] Arguments PrimFloat.abs _%_float.

Import ListNotations.
Local Open Scope string_scope.
Local Open Scope Q_scope.
Local Open Scope list_scope.

(** ** JavaScript values the code computes with *)

Module Js.

(** A number: an IEEE 754 binary64 value. *)
Definition number : Type := float.

(** The number nearest to an integer. *)
Definition of_Z (z : Z) : number := SF2Prim (binary_normalize prec emax z 0 false).

(** The number a decimal of the store converts to: the quotient of its
    numerator and its denominator, correctly rounded.  Both are below 2^53
    for every decimal of fifteen digits or less, and then the quotient is
    the number nearest to the decimal. *)
Definition of_decimal (q : Q) : number :=
  PrimFloat.div (of_Z (Qnum q)) (of_Z (Zpos (Qden q))).

(** A column value as a query delivers it: a number, or [null]. *)
Definition delivered (v : option Q) : option number := option_map of_decimal v.

(** Truthiness of a number: [0], [-0] and [NaN] are falsy. *)
Definition truthy (x : number) : bool := negb (PrimFloat.is_nan x || PrimFloat.is_zero x).

(** [ToNumber] of a delivered value, which the arithmetic operators apply
    to their operands: [null] converts to [0]. *)
Definition num (v : option number) : number :=
  match v with
  | Some x => x
  | None => PrimFloat.zero
  end.

(** [v || 0] for a delivered value [v]. *)
Definition num_or_zero (v : option number) : number :=
  match v with
  | Some x => if truthy x then x else PrimFloat.zero
  | None => PrimFloat.zero
  end.

(** [x > y]; false when either is [NaN]. *)
Definition gt (x y : number) : bool := PrimFloat.ltb y x.
Arguments gt (x y)%_float.

(** [m[key] || dflt] for an object [m] whose values are numbers: a missing
    key reads [undefined], which is falsy. *)
Definition or_default (v : option number) (dflt : number) : number :=
  match v with
  | Some x => if truthy x then x else dflt
  | None => dflt
  end.
Arguments or_default v dflt%_float.

(** The rational that a finite number is; [NaN] and the infinities are
    none. *)
Definition exact (x : number) : option Q :=
  match Prim2SF x with
  | S754_zero _ => Some 0
  | S754_finite s m e =>
      let magnitude :=
        match e with
        | Zneg p => Zpos m # (2 ^ p)
        | _ => inject_Z (Zpos m * 2 ^ e)
        end in
      Some (if s then - magnitude else magnitude)
  | _ => None
  end.

(** The value of a stored decimal, [NULL] counting as [0]. *)
Definition toNumber (v : option Q) : Q :=
  match v with
  | Some q => q
  | None => 0
  end.

(** [v || 0] on a stored decimal. *)
Definition or_zero (v : option Q) : Q :=
  match v with
  | Some q => if Qeq_bool q 0 then 0 else q
  | None => 0
  end.

End Js.

(** ** Tables of the store *)

Module Period.
Record t : Type := mk {
  id : Z;
  period_name : string;
  start_date : Z;
  end_date : Z
}.
End Period.

Module Employee.
Record t : Type := mk {
  id : Z;
  employee_number : string;
  first_name : string;
  last_name : string;
  department : string;
  hourly_rate : option Q;
  salary : option Q;
  pay_type : string;
  is_active : bool
}.
End Employee.

Module PayrollEntry.
Record t : Type := mk {
  employee_id : Z;
  payroll_period_id : Z;
  hours_worked : option Q;
  overtime_hours : option Q;
  basic_pay : option Q;
  gross_pay : option Q;
  sss_deduction : option Q;
  philhealth_deduction : option Q;
  pagibig_deduction : option Q;
  total_deductions : option Q;
  net_pay : option Q
}.
End PayrollEntry.

Module TimeEntry.
Record t : Type := mk {
  employee_id : Z;
  date : Z;
  regular_hours : option Q;
  overtime_hours : option Q;
  status : string
}.
End TimeEntry.

Module Setting.
Record t : Type := mk {
  setting_key : string;
  setting_value : string
}.
End Setting.

(** A row of [reconciliation_logs]. *)
Module Log.
Record t : Type := mk {
  id : Z;
  payroll_period_id : Z;
  reconciliation_type : string;
  employee_id : Z;
  discrepancy_type : string;
  expected_value : option Q;
  actual_value : option Q;
  variance : option Q;
  description : string;
  status : string;
  resolved_by : option Z;
  resolved_at : option Z;
  resolution_notes : option string
}.
End Log.

(** A row of [audit_logs], as [Database.logAction] writes it. *)
Module Audit.
(** The object passed as [newValues], before [JSON.stringify]. *)
Inductive values : Type :=
| RunValues (reconciliationType : string) (discrepanciesFound : nat)
| ResolveValues (status : string) (resolutionNotes : option string).

Record t : Type := mk {
  user_id : Z;
  action : string;
  table_name : string;
  record_id : Z;
  new_values : values
}.
End Audit.

Record db : Type := mkDb {
  payroll_periods : list Period.t;
  employees : list Employee.t;
  payroll_entries : list PayrollEntry.t;
  time_entries : list TimeEntry.t;
  system_settings : list Setting.t;
  reconciliation_logs : list Log.t;
  audit_logs : list Audit.t
}.

(** ** Rows and objects the detectors handle *)

(** The row [entry] of the two payroll queries: [pe.*] joined with the
    employee's columns, as the query delivers them. *)
Module Entry.
Record t : Type := mk {
  employee_id : Z;
  employee_number : string;
  first_name : string;
  last_name : string;
  hourly_rate : option Js.number;
  salary : option Js.number;
  pay_type : string;
  hours_worked : option Js.number;
  overtime_hours : option Js.number;
  basic_pay : option Js.number;
  gross_pay : option Js.number;
  sss_deduction : option Js.number;
  philhealth_deduction : option Js.number;
  pagibig_deduction : option Js.number;
  total_deductions : option Js.number;
  net_pay : option Js.number
}.
End Entry.

(** The object a detector pushes onto [discrepancies]. *)
Module Discrepancy.
Record t : Type := mk {
  type : string;
  employee_id : Z;
  discrepancy_type : string;
  expected_value : option Js.number;
  actual_value : option Js.number;
  variance : option Js.number;
  description : string
}.
End Discrepancy.

(** [`${label} for ${first_name} ${last_name} (${employee_number})`] *)
Definition describe (label first_name last_name employee_number : string) : string :=
  label +:+ " for " +:+ first_name +:+ " " +:+ last_name +:+ " (" +:+ employee_number +:+ ")".

(** [discrepancies.push(x)] *)
Definition push {A : Type} (l : list A) (x : A) : list A := l ++ [x].

(** The records of one discrepancy kind, in the order of the list. *)
Definition of_kind (kind : string) (l : list Discrepancy.t) : list Discrepancy.t :=
  List.filter (fun x => String.eqb (Discrepancy.discrepancy_type x) kind) l.

(** ** The pay-consistency detector *)

(** The join of [runPayrollReconciliation] and [runDeductionReconciliation]:
    [payroll_entries pe JOIN employees e ON pe.employee_id = e.id
     WHERE pe.payroll_period_id = ?].  The second query does not select
    [e.pay_type], which its loop never reads. *)
Definition join_entry (pe : PayrollEntry.t) (e : Employee.t) : Entry.t :=
  {| Entry.employee_id := PayrollEntry.employee_id pe;
     Entry.employee_number := Employee.employee_number e;
     Entry.first_name := Employee.first_name e;
     Entry.last_name := Employee.last_name e;
     Entry.hourly_rate := Js.delivered (Employee.hourly_rate e);
     Entry.salary := Js.delivered (Employee.salary e);
     Entry.pay_type := Employee.pay_type e;
     Entry.hours_worked := Js.delivered (PayrollEntry.hours_worked pe);
     Entry.overtime_hours := Js.delivered (PayrollEntry.overtime_hours pe);
     Entry.basic_pay := Js.delivered (PayrollEntry.basic_pay pe);
     Entry.gross_pay := Js.delivered (PayrollEntry.gross_pay pe);
     Entry.sss_deduction := Js.delivered (PayrollEntry.sss_deduction pe);
     Entry.philhealth_deduction := Js.delivered (PayrollEntry.philhealth_deduction pe);
     Entry.pagibig_deduction := Js.delivered (PayrollEntry.pagibig_deduction pe);
     Entry.total_deductions := Js.delivered (PayrollEntry.total_deductions pe);
     Entry.net_pay := Js.delivered (PayrollEntry.net_pay pe) |}.

Definition select_payroll_entries (d : db) (periodId : Z) : list Entry.t :=
  flat_map
    (fun pe =>
       if Z.eqb (PayrollEntry.payroll_period_id pe) periodId
       then map (join_entry pe)
                (List.filter (fun e => Z.eqb (PayrollEntry.employee_id pe) (Employee.id e))
                             (employees d))
       else [])
    (payroll_entries d).

Definition calculateExpectedGrossPay (entry : Entry.t) : Js.number :=
  if String.eqb (Entry.pay_type entry) "salary"
  then (Js.num (Entry.salary entry) / 26)%float
  else
    let regularPay :=
      (Js.num_or_zero (Entry.hours_worked entry)
       * Js.num_or_zero (Entry.hourly_rate entry))%float in
    let overtimePay :=
      (Js.num_or_zero (Entry.overtime_hours entry)
       * Js.num_or_zero (Entry.hourly_rate entry) * 1.5)%float in
    (regularPay + overtimePay)%float.

(** The two object literals of [runPayrollReconciliation]. *)
Definition gross_pay_mismatch (entry : Entry.t) (expectedGrossPay : Js.number)
  : Discrepancy.t :=
  {| Discrepancy.type := "payroll";
     Discrepancy.employee_id := Entry.employee_id entry;
     Discrepancy.discrepancy_type := "gross_pay_mismatch";
     Discrepancy.expected_value := Some expectedGrossPay;
     Discrepancy.actual_value := Entry.gross_pay entry;
     Discrepancy.variance := Some (Js.num (Entry.gross_pay entry) - expectedGrossPay)%float;
     Discrepancy.description :=
       describe "Gross pay mismatch" (Entry.first_name entry)
                (Entry.last_name entry) (Entry.employee_number entry) |}.
Arguments gross_pay_mismatch entry expectedGrossPay%_float.

Definition net_pay_mismatch (entry : Entry.t) (expectedNetPay : Js.number) : Discrepancy.t :=
  {| Discrepancy.type := "payroll";
     Discrepancy.employee_id := Entry.employee_id entry;
     Discrepancy.discrepancy_type := "net_pay_mismatch";
     Discrepancy.expected_value := Some expectedNetPay;
     Discrepancy.actual_value := Entry.net_pay entry;
     Discrepancy.variance := Some (Js.num (Entry.net_pay entry) - expectedNetPay)%float;
     Discrepancy.description :=
       describe "Net pay calculation error" (Entry.first_name entry)
                (Entry.last_name entry) (Entry.employee_number entry) |}.
Arguments net_pay_mismatch entry expectedNetPay%_float.

(** The body of the loop of [runPayrollReconciliation]. *)
Definition payroll_check (discrepancies : list Discrepancy.t) (entry : Entry.t)
  : list Discrepancy.t :=
  let expectedGrossPay := calculateExpectedGrossPay entry in
  let grossPayVariance :=
    PrimFloat.abs (Js.num (Entry.gross_pay entry) - expectedGrossPay)%float in
  let discrepancies :=
    if Js.gt grossPayVariance 0.01%float
    then push discrepancies (gross_pay_mismatch entry expectedGrossPay)
    else discrepancies in
  let expectedNetPay :=
    (Js.num (Entry.gross_pay entry) - Js.num (Entry.total_deductions entry))%float in
  let netPayVariance :=
    PrimFloat.abs (Js.num (Entry.net_pay entry) - expectedNetPay)%float in
  if Js.gt netPayVariance 0.01%float
  then push discrepancies (net_pay_mismatch entry expectedNetPay)
  else discrepancies.

Definition payroll_loop (payrollEntries : list Entry.t) : list Discrepancy.t :=
  fold_left payroll_check payrollEntries [].

Definition runPayrollReconciliation (d : db) (periodId : Z) : list Discrepancy.t :=
  payroll_loop (select_payroll_entries d periodId).

(** ** SQL building blocks *)

(** The nullable side of a left join for one row of the other side: the
    matching rows, or one [NULL] row when none matches. *)
Definition or_null {B : Type} (matches : list B) : list (option B) :=
  match matches with
  | [] => [None]
  | _ :: _ => map Some matches
  end.

(** [l LEFT JOIN r ON on] *)
Definition left_join {A B : Type} (on : A -> B -> bool) (l : list A) (r : list B)
  : list (A * option B) :=
  flat_map (fun a => map (fun b => (a, b)) (or_null (List.filter (on a) r))) l.

(** A column of the nullable side of a left join. *)
Definition column {A : Type} (f : A -> option Q) (row : option A) : option Q :=
  match row with
  | Some a => f a
  | None => None
  end.

(** [SUM]: [NULL] values are skipped; the sum of no value is [NULL]. *)
Definition sql_add (acc v : option Q) : option Q :=
  match v with
  | None => acc
  | Some x =>
      match acc with
      | None => Some x
      | Some a => Some (a + x)
      end
  end.

Definition sql_sum (values : list (option Q)) : option Q :=
  fold_left sql_add values None.

(** [GROUP BY key]: one group per distinct key, in the order in which the
    keys are first met; a group holds the rows of its key, in their order. *)
Fixpoint distinct (keys : list Z) : list Z :=
  match keys with
  | [] => []
  | k :: rest => k :: List.filter (fun k' => negb (Z.eqb k' k)) (distinct rest)
  end.

Definition group_by {A : Type} (key : A -> Z) (rows : list A) : list (Z * list A) :=
  map (fun k => (k, List.filter (fun row => Z.eqb (key row) k) rows))
      (distinct (map key rows)).

(** ** The attendance-consistency detector *)

(** The row [data] of the attendance query, as the query delivers it. *)
Module AttData.
Record t : Type := mk {
  employee_id : Z;
  employee_number : string;
  first_name : string;
  last_name : string;
  total_regular_hours : option Js.number;
  total_overtime_hours : option Js.number;
  payroll_hours : option Js.number;
  payroll_overtime : option Js.number
}.
End AttData.

Definition attendance_joined (d : db) (start_date end_date periodId : Z)
  : list (Employee.t * option TimeEntry.t * option PayrollEntry.t) :=
  List.filter
    (fun row => Employee.is_active (fst (fst row)))
    (left_join
       (fun (ete : Employee.t * option TimeEntry.t) pe =>
          Z.eqb (Employee.id (fst ete)) (PayrollEntry.employee_id pe)
          && Z.eqb (PayrollEntry.payroll_period_id pe) periodId)
       (left_join
          (fun e te =>
             Z.eqb (Employee.id e) (TimeEntry.employee_id te)
             && (Z.leb start_date (TimeEntry.date te) && Z.leb (TimeEntry.date te) end_date)
             && String.eqb (TimeEntry.status te) "completed")
          (employees d) (time_entries d))
       (payroll_entries d)).

(** One output row per group: the aggregates run over the group; the
    columns outside the [GROUP BY] are read from its first row. *)
Definition attendance_aggregate
    (group : list (Employee.t * option TimeEntry.t * option PayrollEntry.t))
  : list AttData.t :=
  match group with
  | [] => []
  | (e, _, pe) :: _ =>
      [ {| AttData.employee_id := Employee.id e;
           AttData.employee_number := Employee.employee_number e;
           AttData.first_name := Employee.first_name e;
           AttData.last_name := Employee.last_name e;
           AttData.total_regular_hours :=
             Js.delivered
               (sql_sum (map (fun row => column TimeEntry.regular_hours (snd (fst row))) group));
           AttData.total_overtime_hours :=
             Js.delivered
               (sql_sum (map (fun row => column TimeEntry.overtime_hours (snd (fst row))) group));
           AttData.payroll_hours := Js.delivered (column PayrollEntry.hours_worked pe);
           AttData.payroll_overtime := Js.delivered (column PayrollEntry.overtime_hours pe) |} ]
  end.

Definition select_attendance (d : db) (start_date end_date periodId : Z) : list AttData.t :=
  flat_map
    (fun g => attendance_aggregate (snd g))
    (group_by (fun row => Employee.id (fst (fst row)))
              (attendance_joined d start_date end_date periodId)).

(** The two object literals of [runAttendanceReconciliation]. *)
Definition regular_hours_mismatch (data : AttData.t) : Discrepancy.t :=
  {| Discrepancy.type := "attendance";
     Discrepancy.employee_id := AttData.employee_id data;
     Discrepancy.discrepancy_type := "regular_hours_mismatch";
     Discrepancy.expected_value := Some (Js.num_or_zero (AttData.total_regular_hours data));
     Discrepancy.actual_value := Some (Js.num_or_zero (AttData.payroll_hours data));
     Discrepancy.variance :=
       Some (Js.num_or_zero (AttData.payroll_hours data)
             - Js.num_or_zero (AttData.total_regular_hours data))%float;
     Discrepancy.description :=
       describe "Regular hours mismatch" (AttData.first_name data)
                (AttData.last_name data) (AttData.employee_number data) |}.

Definition overtime_hours_mismatch (data : AttData.t) : Discrepancy.t :=
  {| Discrepancy.type := "attendance";
     Discrepancy.employee_id := AttData.employee_id data;
     Discrepancy.discrepancy_type := "overtime_hours_mismatch";
     Discrepancy.expected_value := Some (Js.num_or_zero (AttData.total_overtime_hours data));
     Discrepancy.actual_value := Some (Js.num_or_zero (AttData.payroll_overtime data));
     Discrepancy.variance :=
       Some (Js.num_or_zero (AttData.payroll_overtime data)
             - Js.num_or_zero (AttData.total_overtime_hours data))%float;
     Discrepancy.description :=
       describe "Overtime hours mismatch" (AttData.first_name data)
                (AttData.last_name data) (AttData.employee_number data) |}.

(** The body of the loop of [runAttendanceReconciliation]. *)
Definition attendance_check (discrepancies : list Discrepancy.t) (data : AttData.t)
  : list Discrepancy.t :=
  let regularHoursVariance :=
    PrimFloat.abs (Js.num_or_zero (AttData.total_regular_hours data)
                   - Js.num_or_zero (AttData.payroll_hours data))%float in
  let discrepancies :=
    if Js.gt regularHoursVariance 0.25%float
    then push discrepancies (regular_hours_mismatch data)
    else discrepancies in
  let overtimeVariance :=
    PrimFloat.abs (Js.num_or_zero (AttData.total_overtime_hours data)
                   - Js.num_or_zero (AttData.payroll_overtime data))%float in
  if Js.gt overtimeVariance 0.25%float
  then push discrepancies (overtime_hours_mismatch data)
  else discrepancies.

Definition attendance_loop (attendanceData : list AttData.t) : list Discrepancy.t :=
  fold_left attendance_check attendanceData [].

(** [SELECT ... FROM payroll_periods WHERE id = ?] *)
Definition select_period (d : db) (periodId : Z) : list Period.t :=
  List.filter (fun p => Z.eqb (Period.id p) periodId) (payroll_periods d).

Definition runAttendanceReconciliation (d : db) (periodId : Z) : list Discrepancy.t :=
  match select_period d periodId with
  | [] => []
  | period :: _ =>
      attendance_loop
        (select_attendance d (Period.start_date period) (Period.end_date period) periodId)
  end.

(** ** The deduction-consistency detector *)

(** The three object literals of [runDeductionReconciliation] differ in the
    kind, the label of the description, and the deduction they report. *)
Definition deduction_mismatch (entry : Entry.t) (kind label : string)
    (expected : Js.number) (actual : option Js.number) : Discrepancy.t :=
  {| Discrepancy.type := "deductions";
     Discrepancy.employee_id := Entry.employee_id entry;
     Discrepancy.discrepancy_type := kind;
     Discrepancy.expected_value := Some expected;
     Discrepancy.actual_value := actual;
     Discrepancy.variance := Some (Js.num actual - expected)%float;
     Discrepancy.description :=
       describe label (Entry.first_name entry)
                (Entry.last_name entry) (Entry.employee_number entry) |}.
Arguments deduction_mismatch entry kind label expected%_float actual.

Section Deductions.

(** [parseFloat], the built-in, on the stored text of a setting: a number,
    which may be [NaN] or infinite. *)
Variable parseFloat : string -> Js.number.

(** [settings.reduce((acc, setting) => { acc[key] = parseFloat(value); return acc }, {})] *)
Definition settingsMap (settings : list Setting.t) : gmap string Js.number :=
  fold_left
    (fun acc setting =>
       <[Setting.setting_key setting := parseFloat (Setting.setting_value setting)]> acc)
    settings ∅.

(** The body of the loop of [runDeductionReconciliation]. *)
Definition deduction_check (settingsMap : gmap string Js.number)
    (discrepancies : list Discrepancy.t) (entry : Entry.t) : list Discrepancy.t :=
  let expectedSSS :=
    (Js.num (Entry.basic_pay entry) * Js.or_default (settingsMap !! "sss_rate") 0.045)%float in
  let sssVariance :=
    PrimFloat.abs (Js.num (Entry.sss_deduction entry) - expectedSSS)%float in
  let discrepancies :=
    if Js.gt sssVariance 0.01%float
    then push discrepancies
           (deduction_mismatch entry "sss_deduction_mismatch" "SSS deduction mismatch"
                               expectedSSS (Entry.sss_deduction entry))
    else discrepancies in
  let expectedPhilHealth :=
    (Js.num (Entry.basic_pay entry)
     * Js.or_default (settingsMap !! "philhealth_rate") 0.0275)%float in
  let philHealthVariance :=
    PrimFloat.abs (Js.num (Entry.philhealth_deduction entry) - expectedPhilHealth)%float in
  let discrepancies :=
    if Js.gt philHealthVariance 0.01%float
    then push discrepancies
           (deduction_mismatch entry "philhealth_deduction_mismatch"
                               "PhilHealth deduction mismatch"
                               expectedPhilHealth (Entry.philhealth_deduction entry))
    else discrepancies in
  let expectedPagIbig :=
    (Js.num (Entry.basic_pay entry)
     * Js.or_default (settingsMap !! "pagibig_rate") 0.02)%float in
  let pagIbigVariance :=
    PrimFloat.abs (Js.num (Entry.pagibig_deduction entry) - expectedPagIbig)%float in
  if Js.gt pagIbigVariance 0.01%float
  then push discrepancies
         (deduction_mismatch entry "pagibig_deduction_mismatch" "Pag-IBIG deduction mismatch"
                             expectedPagIbig (Entry.pagibig_deduction entry))
  else discrepancies.

Definition deduction_loop (settings : list Setting.t) (payrollEntries : list Entry.t)
  : list Discrepancy.t :=
  fold_left (deduction_check (settingsMap settings)) payrollEntries [].

(** [Database.getSystemSettings] returns the rows of [system_settings]
    ordered by key; the table is kept in that order. *)
Definition getSystemSettings (d : db) : list Setting.t := system_settings d.

Definition runDeductionReconciliation (d : db) (periodId : Z) : list Discrepancy.t :=
  deduction_loop (getSystemSettings d) (select_payroll_entries d periodId).

End Deductions.

(** ** The store's writes *)

(** Modelled from the spec: the table definition of [reconciliation_logs] is
    not among the sources; the column [status] of a new row is ['pending']
    ("a DiscrepancyRecord's status starts at pending"), and the resolution
    columns are [NULL]. *)
Definition default_status : string := "pending".

(** The argument of [Database.createReconciliationLog]. *)
Module LogData.
Record t : Type := mk {
  payroll_period_id : Z;
  reconciliation_type : string;
  employee_id : Z;
  discrepancy_type : string;
  expected_value : option Js.number;
  actual_value : option Js.number;
  variance : option Js.number;
  description : string
}.
End LogData.

Definition with_reconciliation_logs (d : db) (logs : list Log.t) : db :=
  {| payroll_periods := payroll_periods d;
     employees := employees d;
     payroll_entries := payroll_entries d;
     time_entries := time_entries d;
     system_settings := system_settings d;
     reconciliation_logs := logs;
     audit_logs := audit_logs d |}.

Definition with_audit_logs (d : db) (audit : list Audit.t) : db :=
  {| payroll_periods := payroll_periods d;
     employees := employees d;
     payroll_entries := payroll_entries d;
     time_entries := time_entries d;
     system_settings := system_settings d;
     reconciliation_logs := reconciliation_logs d;
     audit_logs := audit |}.

(** The auto-increment key: one more than every key in the table. *)
Definition next_log_id (d : db) : Z :=
  1 + fold_right Z.max 0%Z (map Log.id (reconciliation_logs d)).

(** [Database.logAction]: one more row of [audit_logs]. *)
Definition logAction (d : db) (userId : Z) (action tableName : string) (recordId : Z)
    (newValues : Audit.values) : db :=
  with_audit_logs d
    (audit_logs d ++
     [ {| Audit.user_id := userId;
          Audit.action := action;
          Audit.table_name := tableName;
          Audit.record_id := recordId;
          Audit.new_values := newValues |} ]).

(** ** Requests and responses *)

Inductive response : Type :=
| RunCompleted (discrepanciesFound : nat) (results : list Discrepancy.t)
| ResolveCompleted
| Failure (code : Z) (error : string).

(** The HTTP status of a response: [res.json] answers 200. *)
Definition http_status (r : response) : Z :=
  match r with
  | RunCompleted _ _ => 200
  | ResolveCompleted => 200
  | Failure code _ => code
  end.

Definition is_failure (r : response) : bool :=
  match r with
  | Failure _ _ => true
  | _ => false
  end.

Module RunRequest.
(** [reconciliationType] is [None] when the body does not carry it. *)
Record t : Type := mk {
  periodId : Z;
  reconciliationType : option string;
  user_id : Z
}.
End RunRequest.

Module ResolveRequest.
(** [resolutionNotes] is [None] for [null]. *)
Record t : Type := mk {
  logId : Z;
  status : string;
  resolutionNotes : option string;
  user_id : Z
}.
End ResolveRequest.

(** ** The reconciliation runner *)

Section Runner.

Variable parseFloat : string -> Js.number.

(** Whether the store performs the [INSERT] of a row into
    [reconciliation_logs]; when it does not, [Database.query] throws.
    All other statements of the routes are taken to succeed. *)
Variable store_accepts : Log.t -> bool.

(** What the store keeps of a number that is written to a decimal column
    of [reconciliation_logs]; the definition of the columns is not among
    the sources. *)
Variable stored : Js.number -> option Q.

(** The column value of a JavaScript value: [null] is [NULL]. *)
Definition column_value (v : option Js.number) : option Q :=
  match v with
  | Some x => stored x
  | None => None
  end.

(** The row that the [INSERT] of [Database.createReconciliationLog] adds. *)
Definition new_log (d : db) (logData : LogData.t) : Log.t :=
  {| Log.id := next_log_id d;
     Log.payroll_period_id := LogData.payroll_period_id logData;
     Log.reconciliation_type := LogData.reconciliation_type logData;
     Log.employee_id := LogData.employee_id logData;
     Log.discrepancy_type := LogData.discrepancy_type logData;
     Log.expected_value := column_value (LogData.expected_value logData);
     Log.actual_value := column_value (LogData.actual_value logData);
     Log.variance := column_value (LogData.variance logData);
     Log.description := LogData.description logData;
     Log.status := default_status;
     Log.resolved_by := None;
     Log.resolved_at := None;
     Log.resolution_notes := None |}.

(** [None]: the query threw. *)
Definition createReconciliationLog (d : db) (logData : LogData.t) : option (db * Z) :=
  let row := new_log d logData in
  if store_accepts row
  then Some (with_reconciliation_logs d (reconciliation_logs d ++ [row]), Log.id row)
  else None.

Definition logData_of (periodId : Z) (discrepancy : Discrepancy.t) : LogData.t :=
  {| LogData.payroll_period_id := periodId;
     LogData.reconciliation_type := Discrepancy.type discrepancy;
     LogData.employee_id := Discrepancy.employee_id discrepancy;
     LogData.discrepancy_type := Discrepancy.discrepancy_type discrepancy;
     LogData.expected_value := Discrepancy.expected_value discrepancy;
     LogData.actual_value := Discrepancy.actual_value discrepancy;
     LogData.variance := Discrepancy.variance discrepancy;
     LogData.description := Discrepancy.description discrepancy |}.

(** [for (const discrepancy of reconciliationResults) await createReconciliationLog(...)]:
    the store after the loop, and whether the loop ran to its end. *)
Fixpoint save_results (d : db) (periodId : Z) (reconciliationResults : list Discrepancy.t)
  : db * bool :=
  match reconciliationResults with
  | [] => (d, true)
  | discrepancy :: rest =>
      match createReconciliationLog d (logData_of periodId discrepancy) with
      | Some (d', _) => save_results d' periodId rest
      | None => (d, false)
      end
  end.

(** [const { reconciliationType = 'all' } = req.body] *)
Definition reconciliationType_of (req : RunRequest.t) : string :=
  match RunRequest.reconciliationType req with
  | Some t => t
  | None => "all"
  end.

(** The list [reconciliationResults] after the three conditionals. *)
Definition collect_results (d : db) (periodId : Z) (reconciliationType : string)
  : list Discrepancy.t :=
  let reconciliationResults : list Discrepancy.t := [] in
  let reconciliationResults :=
    if String.eqb reconciliationType "all" || String.eqb reconciliationType "payroll"
    then reconciliationResults ++ runPayrollReconciliation d periodId
    else reconciliationResults in
  let reconciliationResults :=
    if String.eqb reconciliationType "all" || String.eqb reconciliationType "attendance"
    then reconciliationResults ++ runAttendanceReconciliation d periodId
    else reconciliationResults in
  if String.eqb reconciliationType "all" || String.eqb reconciliationType "deductions"
  then reconciliationResults ++ runDeductionReconciliation parseFloat d periodId
  else reconciliationResults.

(** [router.post('/run/:periodId')] *)
Definition run (d : db) (req : RunRequest.t) : db * response :=
  let periodId := RunRequest.periodId req in
  let reconciliationType := reconciliationType_of req in
  match select_period d periodId with
  | [] => (d, Failure 404 "Payroll period not found")
  | _ :: _ =>
      let reconciliationResults := collect_results d periodId reconciliationType in
      match save_results d periodId reconciliationResults with
      | (d', false) => (d', Failure 500 "Failed to run reconciliation")
      | (d', true) =>
          (logAction d' (RunRequest.user_id req) "RUN_RECONCILIATION" "reconciliation_logs"
                     periodId
                     (Audit.RunValues reconciliationType (length reconciliationResults)),
           RunCompleted (length reconciliationResults) reconciliationResults)
      end
  end.

End Runner.

(** ** The resolution route *)

Definition dquote : string := String (Ascii.ascii_of_nat 34) EmptyString.

(** [UPDATE reconciliation_logs SET status = ?, resolved_by = ?,
     resolved_at = NOW(), resolution_notes = ? WHERE id = ?] *)
Definition update_log (status : string) (userId now : Z) (resolutionNotes : option string)
    (row : Log.t) : Log.t :=
  {| Log.id := Log.id row;
     Log.payroll_period_id := Log.payroll_period_id row;
     Log.reconciliation_type := Log.reconciliation_type row;
     Log.employee_id := Log.employee_id row;
     Log.discrepancy_type := Log.discrepancy_type row;
     Log.expected_value := Log.expected_value row;
     Log.actual_value := Log.actual_value row;
     Log.variance := Log.variance row;
     Log.description := Log.description row;
     Log.status := status;
     Log.resolved_by := Some userId;
     Log.resolved_at := Some now;
     Log.resolution_notes := resolutionNotes |}.

Definition update_logs (status : string) (userId now : Z) (resolutionNotes : option string)
    (logId : Z) (logs : list Log.t) : list Log.t :=
  map (fun row =>
         if Z.eqb (Log.id row) logId
         then update_log status userId now resolutionNotes row
         else row)
      logs.

(** [router.patch('/resolve/:logId')]; [now] is the store's [NOW()]. *)
Definition resolve (now : Z) (d : db) (req : ResolveRequest.t) : db * response :=
  let logId := ResolveRequest.logId req in
  let status := ResolveRequest.status req in
  let resolutionNotes := ResolveRequest.resolutionNotes req in
  if negb (existsb (String.eqb status) ["resolved"; "ignored"])
  then (d, Failure 400
             ("Invalid status. Must be " +:+ dquote +:+ "resolved" +:+ dquote
              +:+ " or " +:+ dquote +:+ "ignored" +:+ dquote))
  else
    let d' :=
      with_reconciliation_logs d
        (update_logs status (ResolveRequest.user_id req) now resolutionNotes logId
                     (reconciliation_logs d)) in
    (logAction d' (ResolveRequest.user_id req) "RESOLVE_RECONCILIATION" "reconciliation_logs"
               logId (Audit.ResolveValues status resolutionNotes),
     ResolveCompleted).

(** ** The dashboard: top employees with discrepancies *)

Module Top.
Record t : Type := mk {
  employee_number : string;
  first_name : string;
  last_name : string;
  department : string;
  discrepancy_count : nat;
  total_variance : option Q
}.
End Top.

(** [l JOIN r ON on] *)
Definition inner_join {A B : Type} (on : A -> B -> bool) (l : list A) (r : list B)
  : list (A * B) :=
  flat_map (fun a => map (fun b => (a, b)) (List.filter (on a) r)) l.

Definition seconds_per_day : Z := 86400.

(** [pp.start_date >= DATE_SUB(NOW(), INTERVAL ? DAY)] *)
Definition in_window (now dateRange : Z) (pp : Period.t) : bool :=
  Z.leb (now - dateRange * seconds_per_day) (Period.start_date pp).

Definition top_joined (d : db) (now dateRange : Z) : list (Log.t * Employee.t * Period.t) :=
  List.filter
    (fun row =>
       in_window now dateRange (snd row)
       && String.eqb (Log.status (fst (fst row))) "pending")
    (inner_join
       (fun (rle : Log.t * Employee.t) pp =>
          Z.eqb (Log.payroll_period_id (fst rle)) (Period.id pp))
       (inner_join (fun rl e => Z.eqb (Log.employee_id rl) (Employee.id e))
                   (reconciliation_logs d) (employees d))
       (payroll_periods d)).

Definition top_aggregate (group : list (Log.t * Employee.t * Period.t)) : list Top.t :=
  match group with
  | [] => []
  | (_, e, _) :: _ =>
      [ {| Top.employee_number := Employee.employee_number e;
           Top.first_name := Employee.first_name e;
           Top.last_name := Employee.last_name e;
           Top.department := Employee.department e;
           Top.discrepancy_count := length group;
           Top.total_variance :=
             sql_sum (map (fun row => option_map Qabs (Log.variance (fst (fst row)))) group) |} ]
  end.

(** [ORDER BY discrepancy_count DESC, total_variance DESC]: whether [a] may
    stand before [b]; in descending order [NULL] comes last. *)
Definition variance_geb (a b : option Q) : bool :=
  match a, b with
  | _, None => true
  | None, Some _ => false
  | Some x, Some y => Qle_bool y x
  end.

Definition ranks_before (a b : Top.t) : bool :=
  Nat.ltb (Top.discrepancy_count b) (Top.discrepancy_count a)
  || (Nat.eqb (Top.discrepancy_count a) (Top.discrepancy_count b)
      && variance_geb (Top.total_variance a) (Top.total_variance b)).

(** [ORDER BY], as a stable sort. *)
Fixpoint insert_by {A : Type} (before : A -> A -> bool) (x : A) (sorted : list A) : list A :=
  match sorted with
  | [] => [x]
  | y :: rest => if before x y then x :: sorted else y :: insert_by before x rest
  end.

Definition order_by {A : Type} (before : A -> A -> bool) (rows : list A) : list A :=
  fold_right (insert_by before) [] rows.

(** The third query of [router.get('/dashboard')], before [LIMIT]. *)
Definition rankedEmployees (d : db) (now dateRange : Z) : list Top.t :=
  order_by ranks_before
    (flat_map (fun g => top_aggregate (snd g))
       (group_by (fun row => Employee.id (snd (fst row))) (top_joined d now dateRange))).

Definition topEmployees (d : db) (now dateRange : Z) : list Top.t :=
  firstn 10 (rankedEmployees d now dateRange).

(** ** The checks in the words of the specification *)

(** A discrepancy record with the given category, kind, employee, expected
    value and actual value, whose variance is actual minus expected. *)
Definition reports (r : Discrepancy.t) (category kind : string) (employee : Z)
    (expected : Js.number) (actual : option Js.number) : Prop :=
  Discrepancy.type r = category /\
  Discrepancy.discrepancy_type r = kind /\
  Discrepancy.employee_id r = employee /\
  Discrepancy.actual_value r = actual /\
  Discrepancy.expected_value r = Some expected /\
  Discrepancy.variance r = Some (Js.num actual - expected)%float.
Arguments reports r category kind employee expected%_float actual.

(** Whether the results hold a record of the kind for the employee. *)
Definition reported (kind : string) (employee : Z) (results : list Discrepancy.t) : Prop :=
  exists r, In r results /\
            Discrepancy.discrepancy_type r = kind /\
            Discrepancy.employee_id r = employee.

(** Expected gross pay in the words of C3, on the decimals of the store:
    salary over 26 for a salaried employee, otherwise hours times rate plus
    overtime hours times rate times 1.5. *)
Definition expected_gross (pe : PayrollEntry.t) (e : Employee.t) : Q :=
  if String.eqb (Employee.pay_type e) "salary"
  then Js.toNumber (Employee.salary e) / 26
  else Js.toNumber (PayrollEntry.hours_worked pe) * Js.toNumber (Employee.hourly_rate e)
       + Js.toNumber (PayrollEntry.overtime_hours pe) * Js.toNumber (Employee.hourly_rate e)
         * 1.5.

(** Expected net pay in the words of C8: the entry's own gross pay minus its
    total deductions. *)
Definition expected_net (pe : PayrollEntry.t) : Q :=
  Js.toNumber (PayrollEntry.gross_pay pe) - Js.toNumber (PayrollEntry.total_deductions pe).

(** The payroll entries of the period, each with its employee. *)
Definition entry_of (d : db) (periodId : Z) (pe : PayrollEntry.t) (e : Employee.t) : Prop :=
  In pe (payroll_entries d) /\ PayrollEntry.payroll_period_id pe = periodId /\
  In e (employees d) /\ PayrollEntry.employee_id pe = Employee.id e.

(** C3 as it is worded, on one run: a gross-pay mismatch is reported for an
    entry exactly when the stored gross pay and the expected one differ by
    more than 0.01. *)
Definition gross_pay_as_worded (d : db) (periodId : Z) : Prop :=
  forall pe e,
    entry_of d periodId pe e ->
    (reported "gross_pay_mismatch" (PayrollEntry.employee_id pe)
              (runPayrollReconciliation d periodId)
     <-> 0.01 < Qabs (Js.toNumber (PayrollEntry.gross_pay pe) - expected_gross pe e)).

(** C8 as it is worded, on one run. *)
Definition net_pay_as_worded (d : db) (periodId : Z) : Prop :=
  forall pe e,
    entry_of d periodId pe e ->
    (reported "net_pay_mismatch" (PayrollEntry.employee_id pe)
              (runPayrollReconciliation d periodId)
     <-> 0.01 < Qabs (Js.toNumber (PayrollEntry.net_pay pe) - expected_net pe)).

(** The three deduction checks: discrepancy kind, setting key, built-in
    default rate, and the stored deduction that is compared. *)
Definition deduction_checks
  : list (string * string * Js.number * (Entry.t -> option Js.number)) :=
  [ ("sss_deduction_mismatch", "sss_rate", 0.045%float, Entry.sss_deduction);
    ("philhealth_deduction_mismatch", "philhealth_rate", 0.0275%float,
     Entry.philhealth_deduction);
    ("pagibig_deduction_mismatch", "pagibig_rate", 0.02%float, Entry.pagibig_deduction) ].

(** The rate the detector multiplies the basic pay with. *)
Definition applied_rate (parseFloat : string -> Js.number) (settings : list Setting.t)
    (key : string) (dflt : Js.number) : Js.number :=
  Js.or_default (settingsMap parseFloat settings !! key) dflt.

(** The three checks in the words of C6, on the decimals of the store. *)
Definition deduction_checks_worded
  : list (string * string * Q * (PayrollEntry.t -> option Q)) :=
  [ ("sss_deduction_mismatch", "sss_rate", 0.045, PayrollEntry.sss_deduction);
    ("philhealth_deduction_mismatch", "philhealth_rate", 0.0275,
     PayrollEntry.philhealth_deduction);
    ("pagibig_deduction_mismatch", "pagibig_rate", 0.02, PayrollEntry.pagibig_deduction) ].

(** The rate in the words of C6: the configured value of the key, the
    default when the key is absent. *)
Definition configured_rate (parseFloat : string -> Js.number) (settings : list Setting.t)
    (key : string) (dflt : Q) : option Q :=
  match settingsMap parseFloat settings !! key with
  | Some v => Js.exact v
  | None => Some dflt
  end.

(** C6 as it is worded, on one run: each check reports an entry exactly
    when its stored deduction differs from basic pay times the configured
    rate by more than 0.01. *)
Definition deductions_as_worded (parseFloat : string -> Js.number) (d : db) (periodId : Z)
  : Prop :=
  Forall
    (fun check : string * string * Q * (PayrollEntry.t -> option Q) =>
       let '(kind, key, dflt, actual) := check in
       forall rate pe e,
         configured_rate parseFloat (getSystemSettings d) key dflt = Some rate ->
         entry_of d periodId pe e ->
         (reported kind (PayrollEntry.employee_id pe)
                   (runDeductionReconciliation parseFloat d periodId)
          <-> 0.01 < Qabs (Js.toNumber (actual pe)
                           - Js.toNumber (PayrollEntry.basic_pay pe) * rate)))
    deduction_checks_worded.

(** The store without the rows of one setting key. *)
Definition without_setting (key : string) (d : db) : db :=
  {| payroll_periods := payroll_periods d;
     employees := employees d;
     payroll_entries := payroll_entries d;
     time_entries := time_entries d;
     system_settings :=
       List.filter (fun s => negb (String.eqb (Setting.setting_key s) key)) (system_settings d);
     reconciliation_logs := reconciliation_logs d;
     audit_logs := audit_logs d |}.

(** ** The workflow and the runner in the words of the specification *)

(** C1 as it is worded, on one request: when the named record is not
    pending, the request fails and the table of records is unchanged. *)
Definition transition_rejected (now : Z) (d : db) (req : ResolveRequest.t) : Prop :=
  forall row : Log.t,
    In row (reconciliation_logs d) ->
    Log.id row = ResolveRequest.logId req ->
    Log.status row <> "pending" ->
    is_failure (snd (resolve now d req)) = true /\
    reconciliation_logs (fst (resolve now d req)) = reconciliation_logs d.

(** C5 as it is worded, on one request: when no record has the named id,
    the request fails (with [NotFound]) and no record is modified. *)
Definition missing_record_rejected (now : Z) (d : db) (req : ResolveRequest.t) : Prop :=
  (forall row : Log.t,
      In row (reconciliation_logs d) -> Log.id row <> ResolveRequest.logId req) ->
  is_failure (snd (resolve now d req)) = true /\
  reconciliation_logs (fst (resolve now d req)) = reconciliation_logs d.

Definition scopes : list string := ["all"; "payroll"; "attendance"; "deductions"].

(** C4 as it is worded, on one request: a scope outside the four fails. *)
Definition unknown_scope_rejected (parseFloat : string -> Js.number)
    (store_accepts : Log.t -> bool) (stored : Js.number -> option Q)
    (d : db) (req : RunRequest.t) : Prop :=
  ~ In (reconciliationType_of req) scopes ->
  is_failure (snd (run parseFloat store_accepts stored d req)) = true.

(** C2 as it is worded, on one request: a run that fails leaves the table
    of records as it was. *)
Definition persistence_atomic (parseFloat : string -> Js.number)
    (store_accepts : Log.t -> bool) (stored : Js.number -> option Q)
    (d : db) (req : RunRequest.t) : Prop :=
  is_failure (snd (run parseFloat store_accepts stored d req)) = true ->
  reconciliation_logs (fst (run parseFloat store_accepts stored d req))
  = reconciliation_logs d.

(** A row of [reconciliation_logs] that records a candidate: the eight
    inserted columns are the candidate's (the three numbers as the store
    keeps them), the row is pending and carries no resolution. *)
Definition records (stored : Js.number -> option Q) (periodId : Z) (x : Discrepancy.t)
    (row : Log.t) : Prop :=
  Log.payroll_period_id row = periodId /\
  Log.reconciliation_type row = Discrepancy.type x /\
  Log.employee_id row = Discrepancy.employee_id x /\
  Log.discrepancy_type row = Discrepancy.discrepancy_type x /\
  Log.expected_value row = column_value stored (Discrepancy.expected_value x) /\
  Log.actual_value row = column_value stored (Discrepancy.actual_value x) /\
  Log.variance row = column_value stored (Discrepancy.variance x) /\
  Log.description row = Discrepancy.description x /\
  Log.status row = "pending" /\
  Log.resolved_by row = None /\
  Log.resolved_at row = None /\
  Log.resolution_notes row = None.

(** ** The attendance check in the words of the specification *)




(** The payroll entries of the employee for the period. *)
Definition payroll_of (d : db) (periodId : Z) (e : Employee.t) : list PayrollEntry.t :=
  List.filter
    (fun pe =>
       Z.eqb (Employee.id e) (PayrollEntry.employee_id pe)
       && Z.eqb (PayrollEntry.payroll_period_id pe) periodId)
    (payroll_entries d).

(** The hours of the employee's payroll entry for the period; [NULL] when
    there is no entry. *)
Definition recorded_hours (d : db) (periodId : Z) (e : Employee.t)
    (hours : PayrollEntry.t -> option Q) : option Q :=
  column hours (hd_error (payroll_of d periodId e)).

(** The hours the payroll recorded, as a decimal; a missing entry counts
    as 0. *)
Definition recorded (d : db) (periodId : Z) (e : Employee.t)
    (hours : PayrollEntry.t -> option Q) : Q :=
  match payroll_of d periodId e with
  | [] => 0
  | pe :: _ => Js.toNumber (hours pe)
  end.



(** The records of one row: those of the regular hours, then those of the
    overtime hours. *)
Definition regular_records (data : AttData.t) : list Discrepancy.t :=
  if Js.gt (PrimFloat.abs (Js.num_or_zero (AttData.total_regular_hours data)
                           - Js.num_or_zero (AttData.payroll_hours data))) 0.25
  then [regular_hours_mismatch data] else [].

Definition overtime_records (data : AttData.t) : list Discrepancy.t :=
  if Js.gt (PrimFloat.abs (Js.num_or_zero (AttData.total_overtime_hours data)
                           - Js.num_or_zero (AttData.payroll_overtime data))) 0.25
  then [overtime_hours_mismatch data] else [].


(** ** The dashboard in the words of the specification *)

(** A pending record of the employee, of a period that starts in the
    window. *)
Definition pending_in_window (d : db) (now dateRange employee : Z) (rl : Log.t) : bool :=
  Z.eqb (Log.employee_id rl) employee
  && String.eqb (Log.status rl) "pending"
  && existsb
       (fun pp => Z.eqb (Log.payroll_period_id rl) (Period.id pp) && in_window now dateRange pp)
       (payroll_periods d).

Definition pending_records (d : db) (now dateRange employee : Z) : list Log.t :=
  List.filter (pending_in_window d now dateRange employee) (reconciliation_logs d).

Definition has_pending (d : db) (now dateRange : Z) (e : Employee.t) : bool :=
  match pending_records d now dateRange (Employee.id e) with
  | [] => false
  | _ :: _ => true
  end.

(** The row of an employee: the number of their pending records in the
    window and the sum of the absolute variances of these records. *)
Definition offender_row (d : db) (now dateRange : Z) (e : Employee.t) : Top.t :=
  {| Top.employee_number := Employee.employee_number e;
     Top.first_name := Employee.first_name e;
     Top.last_name := Employee.last_name e;
     Top.department := Employee.department e;
     Top.discrepancy_count := length (pending_records d now dateRange (Employee.id e));
     Top.total_variance :=
       sql_sum (map (fun rl => option_map Qabs (Log.variance rl))
                    (pending_records d now dateRange (Employee.id e))) |}.

(** The rows that one record contributes to the join of the third
    dashboard query. *)
Definition log_rows (d : db) (now dateRange : Z) (rl : Log.t)
  : list (Log.t * Employee.t * Period.t) :=
  List.filter
    (fun row =>
       in_window now dateRange (snd row)
       && String.eqb (Log.status (fst (fst row))) "pending")
    (flat_map
       (fun rle : Log.t * Employee.t =>
          map (fun pp => (rle, pp))
              (List.filter (fun pp => Z.eqb (Log.payroll_period_id (fst rle)) (Period.id pp))
                           (payroll_periods d)))
       (map (fun e => (rl, e))
            (List.filter (fun e => Z.eqb (Log.employee_id rl) (Employee.id e)) (employees d)))).

(** ** Sample data *)

(** A function that agrees with [parseFloat] on the texts of the samples
    and on every text from which [parseFloat] reads no number. *)
Definition parseFloat_sample (text : string) : Js.number :=
  if String.eqb text "0" then 0%float
  else if String.eqb text "0.05" then 0.05%float
  else if String.eqb text "0.045" then 0.045%float
  else if String.eqb text "Infinity" then PrimFloat.infinity
  else PrimFloat.nan.

Definition period_1 : Period.t :=
  {| Period.id := 1; Period.period_name := "2024-01A";
     Period.start_date := 0; Period.end_date := 1209600 |}.

Definition employee_1 : Employee.t :=
  {| Employee.id := 1; Employee.employee_number := "E-001";
     Employee.first_name := "Ana"; Employee.last_name := "Cruz";
     Employee.department := "Finance";
     Employee.hourly_rate := Some 100; Employee.salary := None;
     Employee.pay_type := "hourly"; Employee.is_active := true |}.

Definition employee_2 : Employee.t :=
  {| Employee.id := 2; Employee.employee_number := "E-002";
     Employee.first_name := "Ben"; Employee.last_name := "Reyes";
     Employee.department := "Sales";
     Employee.hourly_rate := None; Employee.salary := Some 520000;
     Employee.pay_type := "salary"; Employee.is_active := true |}.

(** Basic pay 1000 with no SSS deduction withheld; the other two
    deductions are the defaults' (27.5 and 20). *)
Definition payroll_entry_no_sss : PayrollEntry.t :=
  {| PayrollEntry.employee_id := 1; PayrollEntry.payroll_period_id := 1;
     PayrollEntry.hours_worked := Some 10; PayrollEntry.overtime_hours := Some 0;
     PayrollEntry.basic_pay := Some 1000; PayrollEntry.gross_pay := Some 1000;
     PayrollEntry.sss_deduction := Some 0;
     PayrollEntry.philhealth_deduction := Some 27.5;
     PayrollEntry.pagibig_deduction := Some 20;
     PayrollEntry.total_deductions := Some 47.5; PayrollEntry.net_pay := Some 952.5 |}.

(** A store whose [sss_rate] is configured as zero. *)
Definition db_zero_rate : db :=
  {| payroll_periods := [period_1];
     employees := [employee_1];
     payroll_entries := [payroll_entry_no_sss];
     time_entries := [];
     system_settings := [ {| Setting.setting_key := "sss_rate"; Setting.setting_value := "0" |} ];
     reconciliation_logs := [];
     audit_logs := [] |}.

(** An entry with no basic pay and the three stored deductions given. *)
Definition entry_zero_base (sss philhealth pagibig : Js.number) : Entry.t :=
  {| Entry.employee_id := 1; Entry.employee_number := "E-001";
     Entry.first_name := "Ana"; Entry.last_name := "Cruz";
     Entry.hourly_rate := Some 100%float; Entry.salary := None; Entry.pay_type := "hourly";
     Entry.hours_worked := Some 0%float; Entry.overtime_hours := Some 0%float;
     Entry.basic_pay := Some 0%float; Entry.gross_pay := Some 0%float;
     Entry.sss_deduction := Some sss;
     Entry.philhealth_deduction := Some philhealth;
     Entry.pagibig_deduction := Some pagibig;
     Entry.total_deductions := Some 0%float; Entry.net_pay := Some 0%float |}.
Arguments entry_zero_base (sss philhealth pagibig)%_float.

(** One hour at 100 with basic pay 400: the stored gross pay, net pay and
    SSS deduction each lie 0.01 above what the formulas give (100, 100 and
    400 * 0.045 = 18). *)
Definition payroll_entry_cent_over : PayrollEntry.t :=
  {| PayrollEntry.employee_id := 1; PayrollEntry.payroll_period_id := 1;
     PayrollEntry.hours_worked := Some 1; PayrollEntry.overtime_hours := Some 0;
     PayrollEntry.basic_pay := Some 400; PayrollEntry.gross_pay := Some 100.01;
     PayrollEntry.sss_deduction := Some 18.01;
     PayrollEntry.philhealth_deduction := Some 11;
     PayrollEntry.pagibig_deduction := Some 8;
     PayrollEntry.total_deductions := Some 0.01; PayrollEntry.net_pay := Some 100.01 |}.

Definition db_cent_over : db :=
  {| payroll_periods := [period_1];
     employees := [employee_1];
     payroll_entries := [payroll_entry_cent_over];
     time_entries := [];
     system_settings := [];
     reconciliation_logs := [];
     audit_logs := [] |}.

(** A record that was resolved by user 7 at instant 500. *)
Definition log_resolved : Log.t :=
  {| Log.id := 1; Log.payroll_period_id := 1; Log.reconciliation_type := "payroll";
     Log.employee_id := 1; Log.discrepancy_type := "gross_pay_mismatch";
     Log.expected_value := Some 8600; Log.actual_value := Some 8300;
     Log.variance := Some (-300);
     Log.description := "Gross pay mismatch for Ana Cruz (E-001)";
     Log.status := "resolved"; Log.resolved_by := Some 7%Z;
     Log.resolved_at := Some 500%Z; Log.resolution_notes := Some "paid back" |}.

Definition db_resolved : db :=
  {| payroll_periods := [period_1];
     employees := [employee_1];
     payroll_entries := [];
     time_entries := [];
     system_settings := [];
     reconciliation_logs := [log_resolved];
     audit_logs := [] |}.

(** User 9 asks to ignore record 1. *)
Definition request_ignore : ResolveRequest.t :=
  {| ResolveRequest.logId := 1; ResolveRequest.status := "ignored";
     ResolveRequest.resolutionNotes := Some "not relevant"; ResolveRequest.user_id := 9 |}.

(** User 9 asks to resolve record 42, which does not exist. *)
Definition request_missing : ResolveRequest.t :=
  {| ResolveRequest.logId := 42; ResolveRequest.status := "resolved";
     ResolveRequest.resolutionNotes := Some "done"; ResolveRequest.user_id := 9 |}.

(** The spec's scenario: 80 hours and 4 overtime hours at 100, paid 8300. *)
Definition payroll_entry_underpaid : PayrollEntry.t :=
  {| PayrollEntry.employee_id := 1; PayrollEntry.payroll_period_id := 1;
     PayrollEntry.hours_worked := Some 80; PayrollEntry.overtime_hours := Some 4;
     PayrollEntry.basic_pay := Some 20000; PayrollEntry.gross_pay := Some 8300;
     PayrollEntry.sss_deduction := Some 900;
     PayrollEntry.philhealth_deduction := Some 550;
     PayrollEntry.pagibig_deduction := Some 400;
     PayrollEntry.total_deductions := Some 1850; PayrollEntry.net_pay := Some 6450 |}.

(** A salaried entry: 520000 / 26 = 20000 expected, 21000 paid. *)
Definition payroll_entry_overpaid : PayrollEntry.t :=
  {| PayrollEntry.employee_id := 2; PayrollEntry.payroll_period_id := 1;
     PayrollEntry.hours_worked := None; PayrollEntry.overtime_hours := None;
     PayrollEntry.basic_pay := Some 20000; PayrollEntry.gross_pay := Some 21000;
     PayrollEntry.sss_deduction := Some 900;
     PayrollEntry.philhealth_deduction := Some 550;
     PayrollEntry.pagibig_deduction := Some 400;
     PayrollEntry.total_deductions := Some 1850; PayrollEntry.net_pay := Some 19150 |}.

(** A store whose payroll run finds two gross-pay mismatches. *)
Definition db_two_mismatches : db :=
  {| payroll_periods := [period_1];
     employees := [employee_1; employee_2];
     payroll_entries := [payroll_entry_underpaid; payroll_entry_overpaid];
     time_entries := [];
     system_settings := [];
     reconciliation_logs := [];
     audit_logs := [] |}.

Definition request_payroll : RunRequest.t :=
  {| RunRequest.periodId := 1; RunRequest.reconciliationType := Some "payroll";
     RunRequest.user_id := 9 |}.

Definition request_unknown_scope : RunRequest.t :=
  {| RunRequest.periodId := 1; RunRequest.reconciliationType := Some "everything";
     RunRequest.user_id := 9 |}.

(** A store that performs every insert. *)
Definition store_reliable (row : Log.t) : bool := true.

(** A store that performs the insert of the row with key 1 and fails on
    every later one. *)
Definition store_fails_after_first (row : Log.t) : bool := Z.leb (Log.id row) 1.

(** A pending record of period 1. *)
Definition pending_log (id employee : Z) (variance : Q) : Log.t :=
  {| Log.id := id; Log.payroll_period_id := 1; Log.reconciliation_type := "payroll";
     Log.employee_id := employee; Log.discrepancy_type := "net_pay_mismatch";
     Log.expected_value := Some 100; Log.actual_value := Some (100 + variance);
     Log.variance := Some variance;
     Log.description := "Net pay calculation error";
     Log.status := "pending"; Log.resolved_by := None;
     Log.resolved_at := None; Log.resolution_notes := None |}.

(** The spec's scenario: employee 1 has five pending records whose absolute
    variances total 10, employee 2 five that total 15. *)
Definition db_offenders : db :=
  {| payroll_periods := [period_1];
     employees := [employee_1; employee_2];
     payroll_entries := [];
     time_entries := [];
     system_settings := [];
     reconciliation_logs :=
       [ pending_log 1 1 2; pending_log 2 2 (-3); pending_log 3 1 2; pending_log 4 2 (-3);
         pending_log 5 1 2; pending_log 6 2 (-3); pending_log 7 1 2; pending_log 8 2 (-3);
         pending_log 9 1 2; pending_log 10 2 (-3) ];
     audit_logs := [] |}.

(** An employee who is not active. *)
Definition employee_3 : Employee.t :=
  {| Employee.id := 3; Employee.employee_number := "E-003";
     Employee.first_name := "Carl"; Employee.last_name := "Diaz";
     Employee.department := "Sales";
     Employee.hourly_rate := Some 90; Employee.salary := None;
     Employee.pay_type := "hourly"; Employee.is_active := false |}.

Definition time_entry (employee date : Z) (regular overtime : Q) (status : string)
  : TimeEntry.t :=
  {| TimeEntry.employee_id := employee; TimeEntry.date := date;
     TimeEntry.regular_hours := Some regular; TimeEntry.overtime_hours := Some overtime;
     TimeEntry.status := status |}.

Definition payroll_hours_entry (employee : Z) (hours overtime : Q) : PayrollEntry.t :=
  {| PayrollEntry.employee_id := employee; PayrollEntry.payroll_period_id := 1;
     PayrollEntry.hours_worked := Some hours; PayrollEntry.overtime_hours := Some overtime;
     PayrollEntry.basic_pay := None; PayrollEntry.gross_pay := None;
     PayrollEntry.sss_deduction := None; PayrollEntry.philhealth_deduction := None;
     PayrollEntry.pagibig_deduction := None;
     PayrollEntry.total_deductions := None; PayrollEntry.net_pay := None |}.

(** Employee 1 clocked 16 regular hours and 1 overtime hour in the period
    (a third session is still open, a fourth lies after the period) and is
    paid for 20 and 1; employee 2 has no session and no payroll entry;
    employee 3 is not active, clocked 8 hours and is paid for 40. *)
Definition db_attendance : db :=
  {| payroll_periods := [period_1];
     employees := [employee_1; employee_2; employee_3];
     payroll_entries := [payroll_hours_entry 1 20 1; payroll_hours_entry 3 40 0];
     time_entries :=
       [ time_entry 1 86400 8 1 "completed"; time_entry 3 86400 8 0 "completed";
         time_entry 1 172800 8 0 "completed"; time_entry 1 259200 8 0 "active";
         time_entry 1 2000000 8 0 "completed" ];
     system_settings := [];
     reconciliation_logs := [];
     audit_logs := [] |}.


(** Employee 1 clocked two sessions of 8 regular hours and has two payroll
    entries for the period, each of 16 hours. *)
Definition db_two_entries : db :=
  {| payroll_periods := [period_1];
     employees := [employee_1];
     payroll_entries := [payroll_hours_entry 1 16 0; payroll_hours_entry 1 16 0];
     time_entries :=
       [time_entry 1 86400 8 0 "completed"; time_entry 1 172800 8 0 "completed"];
     system_settings := [];
     reconciliation_logs := [];
     audit_logs := [] |}.

(** ** The results route *)

(** A row of [Database.getReconciliationLogs]: [rl.*] and the three columns
    of the employee, [NULL] when the record has no employee. *)
Module ResultRow.
Record t : Type := mk {
  log : Log.t;
  first_name : option string;
  last_name : option string;
  employee_number : option string
}.
End ResultRow.

Definition result_row (joined : Log.t * option Employee.t) : ResultRow.t :=
  {| ResultRow.log := fst joined;
     ResultRow.first_name := option_map Employee.first_name (snd joined);
     ResultRow.last_name := option_map Employee.last_name (snd joined);
     ResultRow.employee_number := option_map Employee.employee_number (snd joined) |}.

(** A query parameter counts when it is a non-empty string: [if (status)],
    [if (type)]; [None] is a parameter the request does not carry. *)
Definition given (parameter : option string) : option string :=
  match parameter with
  | Some text => if String.eqb text "" then None else Some text
  | None => None
  end.

Module Summary.
Record t : Type := mk {
  total : nat;
  pending : nat;
  resolved : nat;
  ignored : nat;
  totalVariance : Q
}.
End Summary.

Module Results.
Record t : Type := mk {
  summary : Summary.t;
  results : gmap string (list ResultRow.t);
  period : list Period.t
}.
End Results.

(** [filteredResults.filter(r => r.status === status).length] *)
Definition count_status (status : string) (rows : list ResultRow.t) : nat :=
  length (List.filter (fun r => String.eqb (Log.status (ResultRow.log r)) status) rows).

(** [filteredResults.reduce((sum, r) => sum + Math.abs(r.variance || 0), 0)] *)
Definition total_variance (rows : list ResultRow.t) : Q :=
  fold_left (fun sum r => sum + Qabs (Js.or_zero (Log.variance (ResultRow.log r)))) rows 0.

(** The reduction that groups the rows by [reconciliation_type]; [acc[type]]
    reads an own property of the accumulator (the types the runner writes
    are none of the names that [Object.prototype] defines). *)
Definition group_results (filteredResults : list ResultRow.t)
  : gmap string (list ResultRow.t) :=
  fold_left
    (fun acc result =>
       let type := Log.reconciliation_type (ResultRow.log result) in
       let acc :=
         match acc !! type with
         | Some _ => acc
         | None => <[type := []]> acc
         end in
       <[type := default [] (acc !! type) ++ [result]]> acc)
    filteredResults ∅.

Section ResultsRoute.

(** [ORDER BY rl.created_at DESC]: the column [created_at] is not part of
    the rows; the order the store returns is a parameter. *)
Variable by_created_at_desc : list ResultRow.t -> list ResultRow.t.

(** [Database.getReconciliationLogs]; the store's comparison of the status
    with the parameter is taken to be equality of strings. *)
Definition getReconciliationLogs (d : db) (periodId : Z) (status : option string)
  : list ResultRow.t :=
  by_created_at_desc
    (map result_row
         (List.filter
            (fun joined : Log.t * option Employee.t =>
               Z.eqb (Log.payroll_period_id (fst joined)) periodId
               && match given status with
                  | Some s => String.eqb (Log.status (fst joined)) s
                  | None => true
                  end)
            (left_join (fun rl e => Z.eqb (Log.employee_id rl) (Employee.id e))
                       (reconciliation_logs d) (employees d)))).

(** [filteredResults] of [router.get('/results/:periodId')]. *)
Definition filteredResults (d : db) (periodId : Z) (status type : option string)
  : list ResultRow.t :=
  let results := getReconciliationLogs d periodId status in
  match given type with
  | Some t =>
      List.filter (fun r => String.eqb (Log.reconciliation_type (ResultRow.log r)) t) results
  | None => results
  end.

(** [router.get('/results/:periodId')] *)
Definition getResults (d : db) (periodId : Z) (status type : option string) : Results.t :=
  let filteredResults := filteredResults d periodId status type in
  {| Results.summary :=
       {| Summary.total := length filteredResults;
          Summary.pending := count_status "pending" filteredResults;
          Summary.resolved := count_status "resolved" filteredResults;
          Summary.ignored := count_status "ignored" filteredResults;
          Summary.totalVariance := total_variance filteredResults |};
     Results.results := group_results filteredResults;
     Results.period := select_period d periodId |}.

End ResultsRoute.

(** ** Settings *)

(** [Database.updateSystemSetting]:
    [UPDATE system_settings SET setting_value = ?, updated_by = ?,
     updated_at = NOW() WHERE setting_key = ?].  The columns [updated_by] and
    [updated_at] are not part of the rows, so the user and the instant do
    not appear; the store's comparison of the key is taken to be equality
    of strings. *)
Definition updateSystemSetting (d : db) (key value : string) : db :=
  {| payroll_periods := payroll_periods d;
     employees := employees d;
     payroll_entries := payroll_entries d;
     time_entries := time_entries d;
     system_settings :=
       map (fun setting =>
              if String.eqb (Setting.setting_key setting) key
              then {| Setting.setting_key := Setting.setting_key setting;
                      Setting.setting_value := value |}
              else setting)
           (system_settings d);
     reconciliation_logs := reconciliation_logs d;
     audit_logs := audit_logs d |}.

(** Whether the table of settings has a row for the key. *)
Definition has_setting (d : db) (key : string) : bool :=
  existsb (fun setting => String.eqb (Setting.setting_key setting) key) (system_settings d).

(** ** Time tracking *)

(** A row of [time_entries] with its clock columns; [entry] holds the
    columns the attendance detector reads.  The columns [location] and
    [ip_address], which nothing reads, are left out. *)
Module Session.
Record t : Type := mk {
  entry : TimeEntry.t;
  clock_in : Z;
  clock_out : option Z;
  total_hours : option Q
}.
End Session.

(** [CURDATE()]: the day of [NOW()]. *)
Definition curdate (now : Z) : Z := (now - now mod seconds_per_day)%Z.

(** [TIMESTAMPDIFF(MINUTE, clock_in, NOW()) / 60]: whole minutes, as hours;
    the rounding of the store's decimals is not part of the model. *)
Definition hours_since (clock_in now : Z) : Q := inject_Z (Z.quot (now - clock_in) 60) / 60.

(** [LEAST] and [GREATEST]. *)
Definition least (x y : Q) : Q := if Qle_bool x y then x else y.
Definition greatest (x y : Q) : Q := if Qle_bool x y then y else x.

(** [Database.clockIn]: a new active row.  The table definition is not
    among the sources: the columns the statement does not name are taken as
    [NULL], and no property of the sessions depends on what they hold. *)
Definition clockIn (sessions : list Session.t) (now employeeId : Z) : list Session.t :=
  sessions ++
  [ {| Session.entry :=
         {| TimeEntry.employee_id := employeeId;
            TimeEntry.date := curdate now;
            TimeEntry.regular_hours := None;
            TimeEntry.overtime_hours := None;
            TimeEntry.status := "active" |};
       Session.clock_in := now;
       Session.clock_out := None;
       Session.total_hours := None |} ].

(** The [WHERE] of [Database.clockOut]:
    [employee_id = ? AND date = CURDATE() AND status = 'active']. *)
Definition open_today (now employeeId : Z) (session : Session.t) : bool :=
  Z.eqb (TimeEntry.employee_id (Session.entry session)) employeeId
  && Z.eqb (TimeEntry.date (Session.entry session)) (curdate now)
  && String.eqb (TimeEntry.status (Session.entry session)) "active".

(** The [SET] of [Database.clockOut]. *)
Definition close_session (now : Z) (session : Session.t) : Session.t :=
  {| Session.entry :=
       {| TimeEntry.employee_id := TimeEntry.employee_id (Session.entry session);
          TimeEntry.date := TimeEntry.date (Session.entry session);
          TimeEntry.regular_hours :=
            Some (least (hours_since (Session.clock_in session) now) 8);
          TimeEntry.overtime_hours :=
            Some (greatest (hours_since (Session.clock_in session) now - 8) 0);
          TimeEntry.status := "completed" |};
     Session.clock_in := Session.clock_in session;
     Session.clock_out := Some now;
     Session.total_hours := Some (hours_since (Session.clock_in session) now) |}.

(** [Database.clockOut] *)
Definition clockOut (sessions : list Session.t) (now employeeId : Z) : list Session.t :=
  map (fun session =>
         if open_today now employeeId session then close_session now session else session)
      sessions.

(** The store with the sessions as its [time_entries]. *)
Definition with_sessions (d : db) (sessions : list Session.t) : db :=
  {| payroll_periods := payroll_periods d;
     employees := employees d;
     payroll_entries := payroll_entries d;
     time_entries := map Session.entry sessions;
     system_settings := system_settings d;
     reconciliation_logs := reconciliation_logs d;
     audit_logs := audit_logs d |}.

(** ** The dashboard: summary by period *)

(** A row of the first query of [router.get('/dashboard')]. *)
Module PeriodSummary.
Record t : Type := mk {
  period_name : string;
  start_date : Z;
  end_date : Z;
  total_discrepancies : nat;
  pending_discrepancies : nat;
  resolved_discrepancies : nat;
  total_variance : option Q
}.
End PeriodSummary.

(** [EXISTS (SELECT 1 FROM employees e WHERE e.id = rl.employee_id AND
    e.department = ?)]; on the row of a period without record
    [rl.employee_id] is [NULL] and no employee matches.  The comparison of
    the department is taken as equality of strings. *)
Definition in_department (d : db) (department : string) (rl : option Log.t) : bool :=
  match rl with
  | Some rl =>
      existsb (fun e => Z.eqb (Employee.id e) (Log.employee_id rl)
                        && String.eqb (Employee.department e) department)
              (employees d)
  | None => false
  end.

(** The [WHERE] clause; the second condition is added [if (department)]. *)
Definition summary_where (d : db) (now dateRange : Z) (department : option string)
    (row : Period.t * option Log.t) : bool :=
  in_window now dateRange (fst row)
  && match given department with
     | Some name => in_department d name (snd row)
     | None => true
     end.

Definition summary_joined (d : db) (now dateRange : Z) (department : option string)
  : list (Period.t * option Log.t) :=
  List.filter
    (summary_where d now dateRange department)
    (left_join (fun pp rl => Z.eqb (Period.id pp) (Log.payroll_period_id rl))
               (payroll_periods d) (reconciliation_logs d)).

(** [COUNT(rl.id)] and [COUNT(CASE WHEN ... THEN 1 END)]: the rows of the
    group that have a record, and the record satisfies the condition. *)
Definition count_if (condition : Log.t -> bool) (group : list (Period.t * option Log.t))
  : nat :=
  length (List.filter (fun row => match snd row with
                                  | Some rl => condition rl
                                  | None => false
                                  end) group).

Definition summary_aggregate (group : list (Period.t * option Log.t))
  : list PeriodSummary.t :=
  match group with
  | [] => []
  | (pp, _) :: _ =>
      [ {| PeriodSummary.period_name := Period.period_name pp;
           PeriodSummary.start_date := Period.start_date pp;
           PeriodSummary.end_date := Period.end_date pp;
           PeriodSummary.total_discrepancies := count_if (fun _ => true) group;
           PeriodSummary.pending_discrepancies :=
             count_if (fun rl => String.eqb (Log.status rl) "pending") group;
           PeriodSummary.resolved_discrepancies :=
             count_if (fun rl => String.eqb (Log.status rl) "resolved") group;
           PeriodSummary.total_variance :=
             sql_sum (map (fun row => column (fun rl => option_map Qabs (Log.variance rl))
                                             (snd row)) group) |} ]
  end.

(** [ORDER BY pp.start_date DESC]: whether [a] may stand before [b]. *)
Definition starts_later (a b : PeriodSummary.t) : bool :=
  Z.leb (PeriodSummary.start_date b) (PeriodSummary.start_date a).

(** The first query of [router.get('/dashboard')]. *)
Definition periodSummary (d : db) (now dateRange : Z) (department : option string)
  : list PeriodSummary.t :=
  order_by starts_later
    (flat_map (fun g => summary_aggregate (snd g))
       (group_by (fun row => Period.id (fst row))
                 (summary_joined d now dateRange department))).

(** *** The summary, period by period *)

(** The records a period's row counts: the records of the period and, when
    a department is asked for, of an employee of that department. *)
Definition summarised (d : db) (department : option string) (pp : Period.t) : list Log.t :=
  List.filter
    (fun rl => match given department with
               | Some name => in_department d name (Some rl)
               | None => true
               end)
    (List.filter (fun rl => Z.eqb (Period.id pp) (Log.payroll_period_id rl))
                 (reconciliation_logs d)).

(** Whether a period has a row: it starts in the window and, when a
    department is asked for, has a record to count. *)
Definition has_row (d : db) (now dateRange : Z) (department : option string)
    (pp : Period.t) : bool :=
  in_window now dateRange pp
  && match given department, summarised d department pp with
     | Some _, [] => false
     | _, _ => true
     end.

Definition summary_of (d : db) (department : option string) (pp : Period.t)
  : PeriodSummary.t :=
  {| PeriodSummary.period_name := Period.period_name pp;
     PeriodSummary.start_date := Period.start_date pp;
     PeriodSummary.end_date := Period.end_date pp;
     PeriodSummary.total_discrepancies := length (summarised d department pp);
     PeriodSummary.pending_discrepancies :=
       length (List.filter (fun rl => String.eqb (Log.status rl) "pending")
                           (summarised d department pp));
     PeriodSummary.resolved_discrepancies :=
       length (List.filter (fun rl => String.eqb (Log.status rl) "resolved")
                           (summarised d department pp));
     PeriodSummary.total_variance :=
       sql_sum (map (fun rl => option_map Qabs (Log.variance rl))
                    (summarised d department pp)) |}.

(** The rows of the nullable side that are not [NULL]. *)
Definition somes {B : Type} (rows : list (option B)) : list B :=
  flat_map (fun row => match row with Some b => [b] | None => [] end) rows.

(** The rows of a period after the [WHERE] clause. *)
Definition summary_rows (d : db) (department : option string) (pp : Period.t)
  : list (Period.t * option Log.t) :=
  map (fun rl => (pp, rl))
      (match given department with
       | Some _ => map Some (summarised d department pp)
       | None => or_null (summarised d department pp)
       end).

(** ** The dashboard: breakdown by type *)

(** A row of the second query of [router.get('/dashboard')]. *)
Module TypeCount.
Record t : Type := mk {
  reconciliation_type : string;
  discrepancy_type : string;
  count : nat;
  avg_variance : option Q
}.
End TypeCount.

(** [AVG]: the mean of the values that are not [NULL]; [NULL] when there is
    none. *)
Definition sql_avg (values : list (option Q)) : option Q :=
  match sql_sum values with
  | Some total => Some (total / inject_Z (Z.of_nat (length (somes values))))
  | None => None
  end.

Definition types_joined (d : db) (now dateRange : Z) : list (Log.t * Period.t) :=
  List.filter
    (fun row => in_window now dateRange (snd row))
    (inner_join (fun rl pp => Z.eqb (Log.payroll_period_id rl) (Period.id pp))
                (reconciliation_logs d) (payroll_periods d)).

Definition kind_of (rl : Log.t) : string * string :=
  (Log.reconciliation_type rl, Log.discrepancy_type rl).

Definition same_kind (a b : string * string) : bool :=
  String.eqb (fst a) (fst b) && String.eqb (snd a) (snd b).

(** [GROUP BY reconciliation_type, discrepancy_type]: as [group_by], with
    pairs of strings as keys. *)
Fixpoint distinct_kinds (keys : list (string * string)) : list (string * string) :=
  match keys with
  | [] => []
  | k :: rest => k :: List.filter (fun k' => negb (same_kind k' k)) (distinct_kinds rest)
  end.

Definition group_by_kind {A : Type} (key : A -> string * string) (rows : list A)
  : list (string * string * list A) :=
  map (fun k => (k, List.filter (fun row => same_kind (key row) k) rows))
      (distinct_kinds (map key rows)).

Definition types_aggregate (group : list (Log.t * Period.t)) : list TypeCount.t :=
  match group with
  | [] => []
  | (rl, _) :: _ =>
      [ {| TypeCount.reconciliation_type := Log.reconciliation_type rl;
           TypeCount.discrepancy_type := Log.discrepancy_type rl;
           TypeCount.count := length group;
           TypeCount.avg_variance :=
             sql_avg (map (fun row => option_map Qabs (Log.variance (fst row))) group) |} ]
  end.

(** [ORDER BY count DESC]: whether [a] may stand before [b]. *)
Definition counted_more (a b : TypeCount.t) : bool :=
  Nat.leb (TypeCount.count b) (TypeCount.count a).

(** The second query of [router.get('/dashboard')]. *)
Definition discrepancyTypes (d : db) (now dateRange : Z) : list TypeCount.t :=
  order_by counted_more
    (flat_map (fun g => types_aggregate (snd g))
       (group_by_kind (fun row => kind_of (fst row)) (types_joined d now dateRange))).

(** *** The breakdown, kind by kind *)

(** Whether the period of a record starts in the window. *)
Definition in_period_window (d : db) (now dateRange : Z) (rl : Log.t) : bool :=
  existsb (fun pp => Z.eqb (Log.payroll_period_id rl) (Period.id pp)
                     && in_window now dateRange pp)
          (payroll_periods d).

Definition windowed (d : db) (now dateRange : Z) : list Log.t :=
  List.filter (in_period_window d now dateRange) (reconciliation_logs d).

Definition records_of_kind (k : string * string) (records : list Log.t) : list Log.t :=
  List.filter (fun rl => same_kind (kind_of rl) k) records.

Definition type_row (d : db) (now dateRange : Z) (k : string * string) : TypeCount.t :=
  {| TypeCount.reconciliation_type := fst k;
     TypeCount.discrepancy_type := snd k;
     TypeCount.count := length (records_of_kind k (windowed d now dateRange));
     TypeCount.avg_variance :=
       sql_avg (map (fun rl => option_map Qabs (Log.variance rl))
                    (records_of_kind k (windowed d now dateRange))) |}.

Definition row_kind (row : TypeCount.t) : string * string :=
  (TypeCount.reconciliation_type row, TypeCount.discrepancy_type row).

(** ** Notions for the properties of the routes *)

(** The category and the kind of each record a detector can push. *)
Definition detector_kinds : list (string * string) :=
  [ ("payroll", "gross_pay_mismatch"); ("payroll", "net_pay_mismatch");
    ("attendance", "regular_hours_mismatch"); ("attendance", "overtime_hours_mismatch");
    ("deductions", "sss_deduction_mismatch"); ("deductions", "philhealth_deduction_mismatch");
    ("deductions", "pagibig_deduction_mismatch") ].

(** The tolerance of a category: a quarter of an hour for attendance, a
    hundredth of the currency unit for the other two. *)
Definition tolerance (category : string) : Js.number :=
  if String.eqb category "attendance" then 0.25%float else 0.01%float.

(** The tables the detectors read. *)
Definition same_inputs (d d' : db) : Prop :=
  payroll_periods d = payroll_periods d' /\
  employees d = employees d' /\
  payroll_entries d = payroll_entries d' /\
  time_entries d = time_entries d' /\
  system_settings d = system_settings d'.

(** The columns of a record that describe the finding. *)
Definition finding (row : Log.t)
  : Z * Z * string * Z * string * option Q * option Q * option Q * string :=
  (Log.id row, Log.payroll_period_id row, Log.reconciliation_type row, Log.employee_id row,
   Log.discrepancy_type row, Log.expected_value row, Log.actual_value row, Log.variance row,
   Log.description row).

Definition known_status (row : Log.t) : Prop :=
  In (Log.status row) ["pending"; "resolved"; "ignored"].

(** The row [logAction] writes for a completed run. *)
Definition run_audit (req : RunRequest.t) (discrepanciesFound : nat) : Audit.t :=
  {| Audit.user_id := RunRequest.user_id req;
     Audit.action := "RUN_RECONCILIATION";
     Audit.table_name := "reconciliation_logs";
     Audit.record_id := RunRequest.periodId req;
     Audit.new_values := Audit.RunValues (reconciliationType_of req) discrepanciesFound |}.

(** The row [logAction] writes for a resolution. *)
Definition resolve_audit (req : ResolveRequest.t) : Audit.t :=
  {| Audit.user_id := ResolveRequest.user_id req;
     Audit.action := "RESOLVE_RECONCILIATION";
     Audit.table_name := "reconciliation_logs";
     Audit.record_id := ResolveRequest.logId req;
     Audit.new_values :=
       Audit.ResolveValues (ResolveRequest.status req) (ResolveRequest.resolutionNotes req) |}.

(** User 9 asks for a status the route does not know. *)
Definition request_reopen : ResolveRequest.t :=
  {| ResolveRequest.logId := 1; ResolveRequest.status := "pending";
     ResolveRequest.resolutionNotes := None; ResolveRequest.user_id := 9 |}.

(** User 8 asks to resolve record 1. *)
Definition request_resolve : ResolveRequest.t :=
  {| ResolveRequest.logId := 1; ResolveRequest.status := "resolved";
     ResolveRequest.resolutionNotes := Some "checked"; ResolveRequest.user_id := 8 |}.

Definition request_missing_period : RunRequest.t :=
  {| RunRequest.periodId := 77; RunRequest.reconciliationType := None;
     RunRequest.user_id := 9 |}.

(** The record the payroll detector pushes for the underpaid entry. *)
Definition record_underpaid : Discrepancy.t :=
  gross_pay_mismatch (join_entry payroll_entry_underpaid employee_1)
                     (calculateExpectedGrossPay (join_entry payroll_entry_underpaid employee_1)).

(** * Properties *)

(** ** Arithmetic of the JavaScript operators *)

Lemma or_zero_toNumber (v : option Q) : Js.or_zero v == Js.toNumber v.
Proof.
  destruct v as [q|]; simpl; [|reflexivity].
  destruct (Qeq_bool q 0) eqn:E; [|reflexivity].
  symmetry. now apply Qeq_bool_eq.
Qed.

(** Rounding keeps the sign apart from the magnitude. *)
Lemma SFabs_binary_round (s : bool) (m : positive) (e : Z) :
  SFabs (binary_round prec emax s m e) = SFabs (binary_round prec emax false m e).
Proof.
  unfold binary_round.
  destruct (shl_align m e _) as [mz ez].
  unfold binary_round_aux.
  destruct (shr_fexp prec emax (Z.pos mz) ez loc_Exact) as [mrs' e'].
  destruct (shr_fexp prec emax _ e' loc_Exact) as [mrs'' e''].
  destruct (shr_m mrs''); [reflexivity | | reflexivity].
  destruct (Z.leb e'' (emax - prec)); reflexivity.
Qed.

Lemma SFabs_binary_normalize_opp (m e : Z) :
  SFabs (binary_normalize prec emax (- m) e false)
  = SFabs (binary_normalize prec emax m e false).
Proof.
  destruct m as [|p|p]; cbn [Z.opp binary_normalize]; [reflexivity | |];
    [apply SFabs_binary_round | symmetry; apply SFabs_binary_round].
Qed.

Lemma SFabs_sub_comm (x y : spec_float) : SFabs (SF64sub x y) = SFabs (SF64sub y x).
Proof.
  unfold SF64sub.
  destruct x as [sx|sx| |sx mx ex], y as [sy|sy| |sy my ey];
    try (destruct sx, sy; reflexivity); try reflexivity.
  unfold SFsub. rewrite (Z.min_comm ey ex).
  rewrite <- SFabs_binary_normalize_opp. f_equal. f_equal. lia.
Qed.

(** In binary64 [|x - y|] and [|y - x|] are the same number. *)
Lemma abs_sub_comm (x y : Js.number) :
  PrimFloat.abs (x - y)%float = PrimFloat.abs (y - x)%float.
Proof.
  apply Prim2SF_inj. rewrite !abs_spec, !sub_spec. apply SFabs_sub_comm.
Qed.

(** ** Loops that push onto a list *)

Lemma fold_left_pushes {A B : Type} (step : list B -> A -> list B) (f : A -> list B) :
  (forall acc x, step acc x = acc ++ f x) ->
  forall l acc, fold_left step l acc = acc ++ flat_map f l.
Proof.
  intros Hstep l. induction l as [|x l IH]; intros acc; simpl.
  - now rewrite app_nil_r.
  - rewrite IH, Hstep, <- app_assoc. reflexivity.
Qed.

Lemma of_kind_app (kind : string) (l1 l2 : list Discrepancy.t) :
  of_kind kind (l1 ++ l2) = of_kind kind l1 ++ of_kind kind l2.
Proof. apply List.filter_app. Qed.

Lemma of_kind_flat_map {A : Type} (kind : string) (f : A -> list Discrepancy.t) (l : list A) :
  of_kind kind (flat_map f l) = flat_map (fun x => of_kind kind (f x)) l.
Proof.
  induction l as [|x l IH]; simpl; [reflexivity|].
  now rewrite of_kind_app, IH.
Qed.

(** ** Lists as tables *)

Lemma filter_flat_map {A B : Type} (p : B -> bool) (f : A -> list B) (l : list A) :
  List.filter p (flat_map f l) = flat_map (fun x => List.filter p (f x)) l.
Proof.
  induction l as [|x l IH]; cbn [flat_map]; [reflexivity|].
  now rewrite List.filter_app, IH.
Qed.

Lemma map_flat_map {A B C : Type} (h : B -> C) (f : A -> list B) (l : list A) :
  map h (flat_map f l) = flat_map (fun x => map h (f x)) l.
Proof.
  induction l as [|x l IH]; cbn [flat_map]; [reflexivity|].
  now rewrite map_app, IH.
Qed.

Lemma flat_map_nested {A B C : Type} (f : A -> list B) (g : B -> list C) (l : list A) :
  flat_map g (flat_map f l) = flat_map (fun x => flat_map g (f x)) l.
Proof.
  induction l as [|x l IH]; cbn [flat_map]; [reflexivity|].
  now rewrite flat_map_app, IH.
Qed.

Lemma flat_map_of_map {A B C : Type} (f : A -> B) (g : B -> list C) (l : list A) :
  flat_map g (map f l) = flat_map (fun x => g (f x)) l.
Proof.
  induction l as [|x l IH]; cbn [flat_map map]; [reflexivity|].
  now rewrite IH.
Qed.

Lemma flat_map_choice {A : Type} (p : A -> bool) (l : list A) :
  flat_map (fun x => if p x then [x] else []) l = List.filter p l.
Proof.
  induction l as [|x l IH]; cbn [flat_map List.filter]; [reflexivity|].
  rewrite IH. now destruct (p x).
Qed.

Lemma flat_map_single {A B : Type} (f : A -> B) (l : list A) :
  flat_map (fun x => [f x]) l = map f l.
Proof.
  induction l as [|x l IH]; cbn [flat_map map app]; [reflexivity|].
  now rewrite IH.
Qed.

Lemma existsb_filter {A : Type} (p q : A -> bool) (l : list A) :
  existsb (fun x => p x && q x) l = existsb q (List.filter p l).
Proof.
  induction l as [|x l IH]; cbn [existsb List.filter]; [reflexivity|].
  rewrite IH. destruct (p x); reflexivity.
Qed.

Lemma map_key_inj {A : Type} (f : A -> Z) (l : list A) (x y : A) :
  List.NoDup (map f l) -> In x l -> In y l -> f x = f y -> x = y.
Proof.
  induction l as [|z l IH]; cbn [map In]; intros Hnd Hx Hy Hxy; [contradiction|].
  apply List.NoDup_cons_iff in Hnd. destruct Hnd as [Hz Hnd].
  destruct Hx as [->|Hx], Hy as [->|Hy].
  - reflexivity.
  - exfalso. apply Hz. rewrite Hxy. now apply in_map.
  - exfalso. apply Hz. rewrite <- Hxy. now apply in_map.
  - now apply IH.
Qed.

(** A key of a table selects no row or one. *)
Lemma filter_key_unique {A : Type} (f : A -> Z) (l : list A) (k : Z) :
  List.NoDup (map f l) ->
  (List.filter (fun x => Z.eqb k (f x)) l = [] /\ forall x, In x l -> f x <> k)
  \/ (exists x, In x l /\ f x = k /\ List.filter (fun x => Z.eqb k (f x)) l = [x]).
Proof.
  induction l as [|y l IH]; cbn [map List.filter]; intros Hnd.
  - left. split; [reflexivity | intros x []].
  - apply List.NoDup_cons_iff in Hnd. destruct Hnd as [Hy Hnd].
    destruct (Z.eqb k (f y)) eqn:E.
    + apply Z.eqb_eq in E. right. exists y. split; [now left|]. split; [now symmetry|].
      destruct (IH Hnd) as [[-> _]|(x & Hx & Hfx & _)]; [reflexivity|].
      exfalso. apply Hy. rewrite <- E, <- Hfx. now apply in_map.
    + apply Z.eqb_neq in E.
      destruct (IH Hnd) as [[Hnil Hnone]|(x & Hx & Hfx & Hone)].
      * left. split; [exact Hnil|]. intros x [<-|Hx]; [congruence | now apply Hnone].
      * right. exists x. split; [now right|]. split; assumption.
Qed.

Lemma NoDup_map_filter {A : Type} (f : A -> Z) (p : A -> bool) (l : list A) :
  List.NoDup (map f l) -> List.NoDup (map f (List.filter p l)).
Proof.
  induction l as [|x l IH]; cbn [map List.filter]; intros Hnd; [constructor|].
  apply List.NoDup_cons_iff in Hnd. destruct Hnd as [Hx Hnd].
  destruct (p x); [|now apply IH].
  cbn [map]. apply List.NoDup_cons_iff. split; [|now apply IH].
  intros Hin. apply Hx. apply in_map_iff in Hin. destruct Hin as (y & Hy & Hin).
  apply filter_In in Hin. apply in_map_iff. exists y. tauto.
Qed.

Lemma distinct_In (k : Z) (l : list Z) : In k (distinct l) <-> In k l.
Proof.
  induction l as [|x l IH]; cbn [distinct In]; [reflexivity|].
  rewrite filter_In, IH, negb_true_iff, Z.eqb_neq.
  destruct (Z.eq_dec x k) as [->|Hne]; [tauto|]. split; [tauto|].
  intros [H|H]; [tauto|]. right. split; [exact H | congruence].
Qed.

Lemma distinct_NoDup (l : list Z) : List.NoDup (distinct l).
Proof.
  induction l as [|x l IH]; cbn [distinct]; [constructor|].
  apply List.NoDup_cons_iff. split.
  - rewrite filter_In, negb_true_iff, Z.eqb_neq. tauto.
  - now apply List.NoDup_filter.
Qed.

Lemma flat_map_agree {A B : Type} (f g : A -> list B) (l : list A) :
  (forall x, In x l -> f x = g x) -> flat_map f l = flat_map g l.
Proof.
  induction l as [|x l IH]; cbn [flat_map]; intros Hfg; [reflexivity|].
  rewrite (Hfg x) by now left. rewrite IH; [reflexivity|].
  intros y Hy. apply Hfg. now right.
Qed.

Lemma firstn_subset {A : Type} (n : nat) (l : list A) (x : A) :
  In x (firstn n l) -> In x l.
Proof.
  intros Hin. rewrite <- (firstn_skipn n l). apply in_or_app. now left.
Qed.

(** ** Grouping a table that comes in blocks *)

Lemma filter_all {A : Type} (p : A -> bool) (l : list A) :
  (forall x, In x l -> p x = true) -> List.filter p l = l.
Proof.
  induction l as [|x l IH]; cbn [List.filter]; intros Hall; [reflexivity|].
  rewrite (Hall x) by now left. rewrite IH; [reflexivity|].
  intros y Hy. apply Hall. now right.
Qed.

Lemma filter_none {A : Type} (p : A -> bool) (l : list A) :
  (forall x, In x l -> p x = false) -> List.filter p l = [].
Proof.
  induction l as [|x l IH]; cbn [List.filter]; intros Hnone; [reflexivity|].
  rewrite (Hnone x) by now left. apply IH.
  intros y Hy. apply Hnone. now right.
Qed.

Lemma flat_map_filter {A B : Type} (p : A -> bool) (f : A -> list B) (l : list A) :
  flat_map (fun x => if p x then f x else []) l = flat_map f (List.filter p l).
Proof.
  induction l as [|x l IH]; cbn [flat_map List.filter]; [reflexivity|].
  rewrite IH. now destruct (p x).
Qed.

Lemma distinct_block (k : Z) (l1 l2 : list Z) :
  (forall x, In x l1 -> x = k) -> l1 <> [] ->
  distinct (l1 ++ l2) = k :: List.filter (fun k' => negb (Z.eqb k' k)) (distinct l2).
Proof.
  induction l1 as [|x l1 IH]; intros Hsame Hne; [contradiction|].
  assert (x = k) as -> by (apply Hsame; now left).
  destruct l1 as [|y l1]; [reflexivity|].
  change (distinct ((k :: y :: l1) ++ l2))
    with (k :: List.filter (fun k' => negb (Z.eqb k' k)) (distinct ((y :: l1) ++ l2))).
  rewrite IH; [|intros z Hz; apply Hsame; now right | discriminate].
  cbn [List.filter]. rewrite Z.eqb_refl. cbn [negb].
  f_equal. apply filter_all. intros z Hz. apply filter_In in Hz. apply Hz.
Qed.

Section Blocks.

Context {A B : Type} (id : A -> Z) (key : B -> Z) (block : A -> list B).

Lemma distinct_blocks (es : list A) :
  List.NoDup (map id es) ->
  (forall e, In e es -> block e <> []) ->
  (forall e row, In e es -> In row (block e) -> key row = id e) ->
  distinct (map key (flat_map block es)) = map id es.
Proof.
  induction es as [|e es IH]; cbn [flat_map map]; intros Hnd Hne Hkey; [reflexivity|].
  apply List.NoDup_cons_iff in Hnd. destruct Hnd as [He Hnd].
  rewrite map_app, (distinct_block (id e)).
  - rewrite IH; [|exact Hnd | intros; apply Hne; now right
                 | intros e' row He'; apply Hkey; now right].
    f_equal. apply filter_all. intros k Hk.
    apply negb_true_iff, Z.eqb_neq. intros ->. contradiction.
  - intros k Hk. apply in_map_iff in Hk. destruct Hk as (row & <- & Hrow).
    apply Hkey; [now left | exact Hrow].
  - intros Hnil. apply map_eq_nil in Hnil. revert Hnil. apply Hne. now left.
Qed.

Lemma filter_block (es : list A) (e : A) :
  List.NoDup (map id es) ->
  (forall e' row, In e' es -> In row (block e') -> key row = id e') ->
  In e es ->
  List.filter (fun row => Z.eqb (key row) (id e)) (flat_map block es) = block e.
Proof.
  induction es as [|e0 es IH]; cbn [flat_map map]; intros Hnd Hkey He; [destruct He|].
  apply List.NoDup_cons_iff in Hnd. destruct Hnd as [He0 Hnd].
  rewrite List.filter_app. destruct He as [->|He].
  - rewrite filter_all, filter_none; [apply app_nil_r | |].
    + intros row Hrow. apply in_flat_map in Hrow. destruct Hrow as (e' & He' & Hrow).
      apply Z.eqb_neq. rewrite (Hkey e' row); [|now right | exact Hrow].
      intros Heq. apply He0. rewrite <- Heq. now apply in_map.
    + intros row Hrow. apply Z.eqb_eq. apply Hkey; [now left | exact Hrow].
  - rewrite filter_none, IH; [reflexivity | exact Hnd | | exact He |].
    + intros e' row He'. apply Hkey. now right.
    + intros row Hrow. apply Z.eqb_neq. rewrite (Hkey e0 row); [|now left | exact Hrow].
      intros Heq. apply He0. rewrite Heq. now apply in_map.
Qed.

Lemma group_by_blocks (es : list A) :
  List.NoDup (map id es) ->
  (forall e, In e es -> block e <> []) ->
  (forall e row, In e es -> In row (block e) -> key row = id e) ->
  group_by key (flat_map block es) = map (fun e => (id e, block e)) es.
Proof.
  intros Hnd Hne Hkey. unfold group_by.
  rewrite (distinct_blocks es Hnd Hne Hkey), map_map.
  apply map_ext_in. intros e He. now rewrite (filter_block es e Hnd Hkey He).
Qed.

End Blocks.

(** ** Sorting by a total preorder *)

Section Sorting.

Context {A : Type} (before : A -> A -> bool).

Hypothesis before_total : forall a b, before a b = true \/ before b a = true.
Hypothesis before_trans :
  forall a b c, before a b = true -> before b c = true -> before a c = true.

Lemma insert_by_perm (x : A) (l : list A) : Permutation (insert_by before x l) (x :: l).
Proof.
  induction l as [|y l IH]; cbn [insert_by]; [reflexivity|].
  destruct (before x y); [reflexivity|].
  rewrite IH. apply perm_swap.
Qed.

Lemma order_by_perm (l : list A) : Permutation (order_by before l) l.
Proof.
  induction l as [|x l IH]; cbn [order_by fold_right]; [reflexivity|].
  fold (order_by before l). rewrite insert_by_perm. now constructor.
Qed.

Lemma insert_by_sorted (x : A) (l : list A) :
  StronglySorted (fun a b => before a b = true) l ->
  StronglySorted (fun a b => before a b = true) (insert_by before x l).
Proof.
  induction 1 as [|y l Hsorted IH Hall]; cbn [insert_by].
  - constructor; constructor.
  - destruct (before x y) eqn:Exy.
    + constructor; [constructor; assumption|].
      constructor; [exact Exy|].
      apply List.Forall_forall. intros z Hz.
      apply before_trans with y; [exact Exy|].
      revert z Hz. now apply List.Forall_forall.
    + constructor; [exact IH|].
      apply List.Forall_forall. intros z Hz.
      apply (Permutation_in _ (insert_by_perm x l)) in Hz.
      destruct Hz as [<-|Hz].
      * destruct (before_total x y) as [H|H]; [congruence | exact H].
      * revert z Hz. now apply List.Forall_forall.
Qed.

Lemma order_by_sorted (l : list A) :
  StronglySorted (fun a b => before a b = true) (order_by before l).
Proof.
  induction l as [|x l IH]; cbn [order_by fold_right]; [constructor|].
  now apply insert_by_sorted.
Qed.

Lemma sorted_nth (l : list A) :
  StronglySorted (fun a b => before a b = true) l ->
  forall i j a b,
    (i < j)%nat -> nth_error l i = Some a -> nth_error l j = Some b -> before a b = true.
Proof.
  induction 1 as [|y l Hsorted IH Hall]; intros i j a b Hij Ha Hb.
  - destruct i; discriminate Ha.
  - destruct j as [|j]; [lia|]. cbn [nth_error] in Hb.
    destruct i as [|i].
    + cbn [nth_error] in Ha. injection Ha as <-.
      apply nth_error_In in Hb. revert b Hb. now apply List.Forall_forall.
    + cbn [nth_error] in Ha. apply (IH i j); [lia | exact Ha | exact Hb].
Qed.

End Sorting.

(** ** The pay-consistency detector *)

Lemma payroll_check_pushes (acc : list Discrepancy.t) (e : Entry.t) :
  payroll_check acc e = acc ++ payroll_check [] e.
Proof.
  unfold payroll_check, push.
  destruct (Js.gt _ _), (Js.gt _ _); simpl; rewrite <- ?app_assoc, ?app_nil_r; reflexivity.
Qed.

Lemma payroll_loop_flat_map (entries : list Entry.t) :
  payroll_loop entries = flat_map (payroll_check []) entries.
Proof.
  unfold payroll_loop.
  now rewrite (fold_left_pushes payroll_check (payroll_check []) payroll_check_pushes).
Qed.

Lemma payroll_check_kinds (e : Entry.t) :
  payroll_check [] e
  = (if Js.gt (PrimFloat.abs (Js.num (Entry.gross_pay e) - calculateExpectedGrossPay e)) 0.01
     then [gross_pay_mismatch e (calculateExpectedGrossPay e)]
     else [])
    ++ (if Js.gt (PrimFloat.abs
                    (Js.num (Entry.net_pay e)
                     - (Js.num (Entry.gross_pay e) - Js.num (Entry.total_deductions e)))) 0.01
        then [net_pay_mismatch
                e (Js.num (Entry.gross_pay e) - Js.num (Entry.total_deductions e))]
        else []).
Proof.
  unfold payroll_check, push. cbv zeta.
  destruct (Js.gt _ _), (Js.gt _ _); reflexivity.
Qed.

Lemma payroll_check_gross (e : Entry.t) :
  of_kind "gross_pay_mismatch" (payroll_check [] e)
  = if Js.gt (PrimFloat.abs (Js.num (Entry.gross_pay e) - calculateExpectedGrossPay e)) 0.01
    then [gross_pay_mismatch e (calculateExpectedGrossPay e)]
    else [].
Proof.
  rewrite payroll_check_kinds.
  destruct (Js.gt _ _), (Js.gt _ _); reflexivity.
Qed.

Lemma payroll_check_net (e : Entry.t) :
  of_kind "net_pay_mismatch" (payroll_check [] e)
  = if Js.gt (PrimFloat.abs
                (Js.num (Entry.net_pay e)
                 - (Js.num (Entry.gross_pay e) - Js.num (Entry.total_deductions e)))) 0.01
    then [net_pay_mismatch e (Js.num (Entry.gross_pay e) - Js.num (Entry.total_deductions e))]
    else [].
Proof.
  rewrite payroll_check_kinds.
  destruct (Js.gt _ _), (Js.gt _ _); reflexivity.
Qed.

Lemma gross_pay_mismatch_reports (e : Entry.t) (expected : Js.number) :
  reports (gross_pay_mismatch e expected)
          "payroll" "gross_pay_mismatch" (Entry.employee_id e) expected (Entry.gross_pay e).
Proof. unfold reports. repeat split. Qed.

Lemma net_pay_mismatch_reports (e : Entry.t) (expected : Js.number) :
  reports (net_pay_mismatch e expected)
          "payroll" "net_pay_mismatch" (Entry.employee_id e) expected (Entry.net_pay e).
Proof. unfold reports. repeat split. Qed.

Lemma db_cent_over_entry : entry_of db_cent_over 1 payroll_entry_cent_over employee_1.
Proof. unfold entry_of. repeat split; now left. Qed.

(** C3, the claim as worded, fails: one hour at 100 gives an expected gross
    pay of 100, the stored gross pay is 100.01, the two differ by 0.01 and
    not by more, yet the detector reports a gross-pay mismatch: the number
    nearest to 100.01 lies above it, and its distance to 100 exceeds the
    number nearest to 0.01. *)
Lemma gross_pay_as_worded_fails : ~ gross_pay_as_worded db_cent_over 1.
Proof.
  intros H.
  destruct (H payroll_entry_cent_over employee_1 db_cent_over_entry) as [Hreported _].
  assert (Hlt : 0.01 < Qabs (Js.toNumber (PayrollEntry.gross_pay payroll_entry_cent_over)
                             - expected_gross payroll_entry_cent_over employee_1)).
  { apply Hreported.
    exists (gross_pay_mismatch
              (join_entry payroll_entry_cent_over employee_1)
              (calculateExpectedGrossPay (join_entry payroll_entry_cent_over employee_1))).
    split; [vm_compute; left; reflexivity | split; reflexivity]. }
  vm_compute in Hlt. discriminate Hlt.
Qed.

(** C3, amended. For every payroll entry of the period, the expected gross
    pay is salary / 26 for the classification [salary] and
    hours_worked * hourly_rate + overtime_hours * hourly_rate * 1.5
    otherwise (null or zero hours and rate counting as 0), computed in
    binary64; the detector emits exactly one [gross_pay_mismatch] record
    for the entry when |actual_gross - expected_gross|, computed in
    binary64, exceeds the number 0.01, and none otherwise; the record's
    expected value is the expected gross pay and its variance is
    actual_gross - expected_gross. *)
Theorem gross_pay_mismatch_iff (d : db) (periodId : Z) :
  exists emitted : Entry.t -> list Discrepancy.t,
    of_kind "gross_pay_mismatch" (runPayrollReconciliation d periodId)
    = flat_map emitted (select_payroll_entries d periodId) /\
    forall e : Entry.t,
      (Entry.pay_type e = "salary" ->
       calculateExpectedGrossPay e = (Js.num (Entry.salary e) / 26)%float) /\
      (Entry.pay_type e <> "salary" ->
       calculateExpectedGrossPay e
       = (Js.num_or_zero (Entry.hours_worked e) * Js.num_or_zero (Entry.hourly_rate e)
          + Js.num_or_zero (Entry.overtime_hours e) * Js.num_or_zero (Entry.hourly_rate e)
            * 1.5)%float) /\
      (Js.gt (PrimFloat.abs (Js.num (Entry.gross_pay e) - calculateExpectedGrossPay e)) 0.01
       = true ->
       exists r, emitted e = [r] /\
                 reports r "payroll" "gross_pay_mismatch" (Entry.employee_id e)
                         (calculateExpectedGrossPay e) (Entry.gross_pay e)) /\
      (Js.gt (PrimFloat.abs (Js.num (Entry.gross_pay e) - calculateExpectedGrossPay e)) 0.01
       = false ->
       emitted e = []).
Proof.
  exists (fun e => of_kind "gross_pay_mismatch" (payroll_check [] e)).
  split.
  - unfold runPayrollReconciliation.
    now rewrite payroll_loop_flat_map, of_kind_flat_map.
  - intros e. split; [|split].
    + intros Hsalary. unfold calculateExpectedGrossPay. now rewrite Hsalary.
    + intros Hhourly. unfold calculateExpectedGrossPay.
      apply String.eqb_neq in Hhourly. now rewrite Hhourly.
    + rewrite payroll_check_gross.
      destruct (Js.gt _ _); split; try discriminate; try reflexivity.
      intros _. eexists. split; [reflexivity | apply gross_pay_mismatch_reports].
Qed.

(** C8, the claim as worded, fails: on the same entry the stored net pay
    100.01 and the expected one, 100.01 - 0.01, differ by 0.01 and not by
    more, yet the detector reports a net-pay mismatch. *)
Lemma net_pay_as_worded_fails : ~ net_pay_as_worded db_cent_over 1.
Proof.
  intros H.
  destruct (H payroll_entry_cent_over employee_1 db_cent_over_entry) as [Hreported _].
  assert (Hlt : 0.01 < Qabs (Js.toNumber (PayrollEntry.net_pay payroll_entry_cent_over)
                             - expected_net payroll_entry_cent_over)).
  { apply Hreported.
    exists (net_pay_mismatch
              (join_entry payroll_entry_cent_over employee_1)
              (Js.num (Entry.gross_pay (join_entry payroll_entry_cent_over employee_1))
               - Js.num (Entry.total_deductions
                           (join_entry payroll_entry_cent_over employee_1)))%float).
    split; [vm_compute; right; left; reflexivity | split; reflexivity]. }
  vm_compute in Hlt. discriminate Hlt.
Qed.

(** C8, amended. For every payroll entry of the period, the expected net
    pay is the entry's own gross pay minus its total deductions, computed
    in binary64; the detector emits exactly one [net_pay_mismatch] record
    when |actual_net - expected_net|, computed in binary64, exceeds the
    number 0.01 and none otherwise, whatever the gross-pay check of the
    same entry did: the records of an entry are its gross-pay records and
    its net-pay records, and there is an entry on which both checks
    fire. *)
Theorem net_pay_mismatch_iff (d : db) (periodId : Z) :
  (exists emitted : Entry.t -> list Discrepancy.t,
      of_kind "net_pay_mismatch" (runPayrollReconciliation d periodId)
      = flat_map emitted (select_payroll_entries d periodId) /\
      forall e : Entry.t,
        let expected := (Js.num (Entry.gross_pay e) - Js.num (Entry.total_deductions e))%float in
        (Js.gt (PrimFloat.abs (Js.num (Entry.net_pay e) - expected)) 0.01 = true ->
         exists r, emitted e = [r] /\
                   reports r "payroll" "net_pay_mismatch" (Entry.employee_id e)
                           expected (Entry.net_pay e)) /\
        (Js.gt (PrimFloat.abs (Js.num (Entry.net_pay e) - expected)) 0.01 = false ->
         emitted e = [])) /\
  (forall e : Entry.t,
      payroll_check [] e
      = of_kind "gross_pay_mismatch" (payroll_check [] e)
        ++ of_kind "net_pay_mismatch" (payroll_check [] e)) /\
  (exists e : Entry.t,
      length (of_kind "gross_pay_mismatch" (payroll_check [] e)) = 1%nat /\
      length (of_kind "net_pay_mismatch" (payroll_check [] e)) = 1%nat).
Proof.
  split; [|split].
  - exists (fun e => of_kind "net_pay_mismatch" (payroll_check [] e)).
    split.
    + unfold runPayrollReconciliation.
      now rewrite payroll_loop_flat_map, of_kind_flat_map.
    + intros e. cbv zeta. rewrite payroll_check_net.
      destruct (Js.gt _ _); split; try discriminate; try reflexivity.
      intros _. eexists. split; [reflexivity | apply net_pay_mismatch_reports].
  - intros e. rewrite payroll_check_gross, payroll_check_net. apply payroll_check_kinds.
  - exists {| Entry.employee_id := 1; Entry.employee_number := "E-001";
              Entry.first_name := "Ana"; Entry.last_name := "Cruz";
              Entry.hourly_rate := Some 100%float; Entry.salary := None;
              Entry.pay_type := "hourly";
              Entry.hours_worked := Some 80%float; Entry.overtime_hours := Some 4%float;
              Entry.basic_pay := Some 8000%float; Entry.gross_pay := Some 8300%float;
              Entry.sss_deduction := None; Entry.philhealth_deduction := None;
              Entry.pagibig_deduction := None;
              Entry.total_deductions := Some 300%float; Entry.net_pay := Some 8300%float |}.
    split; vm_compute; reflexivity.
Qed.

(** The spec's scenarios for the payroll run: 80 hours and 4 overtime hours
    at 100 against 8300 paid give an expected 8600 and a variance of -300;
    a salary of 520000 gives an expected 20000. *)
Example payroll_scenario :
  map (fun r => (Discrepancy.employee_id r, Discrepancy.discrepancy_type r,
                 Discrepancy.expected_value r, Discrepancy.actual_value r,
                 Discrepancy.variance r))
      (runPayrollReconciliation db_two_mismatches 1)
  = [(1%Z, "gross_pay_mismatch", Some 8600%float, Some 8300%float, Some (-300)%float);
     (2%Z, "gross_pay_mismatch", Some 20000%float, Some 21000%float, Some 1000%float)].
Proof. vm_compute. reflexivity. Qed.

(** On the entry whose stored values lie 0.01 above the formulas', the
    variances the detector computes are a little more than 0.01. *)
Example cent_over_scenario :
  map (fun r => (Discrepancy.discrepancy_type r, Discrepancy.expected_value r,
                 Discrepancy.variance r))
      (runPayrollReconciliation db_cent_over 1)
  = [("gross_pay_mismatch", Some 100%float, Some 0.010000000000005116%float);
     ("net_pay_mismatch", Some 100%float, Some 0.010000000000005116%float)].
Proof. vm_compute. reflexivity. Qed.

(** ** The attendance-consistency detector *)

Lemma or_null_nonempty {B : Type} (l : list B) : or_null l <> [].
Proof. destruct l; discriminate. Qed.







Lemma attendance_check_pushes (acc : list Discrepancy.t) (data : AttData.t) :
  attendance_check acc data = acc ++ attendance_check [] data.
Proof.
  unfold attendance_check, push. cbv zeta.
  destruct (Js.gt _ _), (Js.gt _ _); cbn [app]; rewrite <- ?app_assoc, ?app_nil_r; reflexivity.
Qed.

Lemma attendance_loop_flat_map (rows : list AttData.t) :
  attendance_loop rows = flat_map (attendance_check []) rows.
Proof.
  unfold attendance_loop.
  now rewrite (fold_left_pushes attendance_check (attendance_check []) attendance_check_pushes).
Qed.

Lemma attendance_check_kinds (data : AttData.t) :
  attendance_check [] data = regular_records data ++ overtime_records data.
Proof.
  unfold attendance_check, regular_records, overtime_records, push. cbv zeta.
  destruct (Js.gt _ _), (Js.gt _ _); reflexivity.
Qed.


Lemma recorded_column (d : db) (periodId : Z) (e : Employee.t)
    (hours : PayrollEntry.t -> option Q) :
  Js.toNumber (recorded_hours d periodId e hours) = recorded d periodId e hours.
Proof. unfold recorded, recorded_hours. now destruct (payroll_of d periodId e). Qed.








(** On the sample: the active employee 1 clocked 16 regular hours against
    20 paid, a mismatch; their overtime agrees; employee 2, with neither
    session nor payroll entry, agrees at 0 and 0; the inactive employee 3 is
    left out although 8 hours stand against 40. *)
Example attendance_scenario :
  map (fun r => (Discrepancy.employee_id r, Discrepancy.discrepancy_type r,
                 Discrepancy.expected_value r, Discrepancy.actual_value r,
                 Discrepancy.variance r))
      (runAttendanceReconciliation db_attendance 1)
  = [(1%Z, "regular_hours_mismatch", Some 16%float, Some 20%float, Some 4%float)].
Proof. vm_compute. reflexivity. Qed.

(** On the sample with two payroll entries the detector compares 32 summed
    hours with the 16 of the first entry. *)
Example two_entries_scenario :
  map (fun r => (Discrepancy.employee_id r, Discrepancy.discrepancy_type r,
                 Discrepancy.expected_value r, Discrepancy.actual_value r))
      (runAttendanceReconciliation db_two_entries 1)
  = [(1%Z, "regular_hours_mismatch", Some 32%float, Some 16%float)].
Proof. vm_compute. reflexivity. Qed.

(** ** The deduction-consistency detector *)

Lemma deduction_check_pushes (m : gmap string Js.number) (acc : list Discrepancy.t)
    (e : Entry.t) :
  deduction_check m acc e = acc ++ deduction_check m [] e.
Proof.
  unfold deduction_check, push. cbv zeta.
  destruct (Js.gt _ _), (Js.gt _ _), (Js.gt _ _);
    cbn [app]; rewrite <- ?app_assoc, ?app_nil_r; reflexivity.
Qed.

Lemma deduction_loop_flat_map (parseFloat : string -> Js.number) (settings : list Setting.t)
    (entries : list Entry.t) :
  deduction_loop parseFloat settings entries
  = flat_map (deduction_check (settingsMap parseFloat settings) []) entries.
Proof.
  unfold deduction_loop.
  now rewrite (fold_left_pushes _ _ (deduction_check_pushes (settingsMap parseFloat settings))).
Qed.

Lemma deduction_check_kind (m : gmap string Js.number) (e : Entry.t)
    (kind key : string) (dflt : Js.number) (actual : Entry.t -> option Js.number) :
  In (kind, key, dflt, actual) deduction_checks ->
  exists label,
    of_kind kind (deduction_check m [] e)
    = if Js.gt (PrimFloat.abs
                  (Js.num (actual e)
                   - Js.num (Entry.basic_pay e) * Js.or_default (m !! key) dflt)) 0.01
      then [deduction_mismatch e kind label
              (Js.num (Entry.basic_pay e) * Js.or_default (m !! key) dflt) (actual e)]
      else [].
Proof.
  intros Hin. unfold deduction_checks in Hin. cbn [In] in Hin.
  destruct Hin as [H|[H|[H|[]]]]; injection H as <- <- <- <-;
    eexists; unfold deduction_check, push; cbv zeta;
    destruct (Js.gt _ _), (Js.gt _ _), (Js.gt _ _); reflexivity.
Qed.

Lemma deduction_mismatch_reports (e : Entry.t) (kind label : string) (expected : Js.number)
    (actual : option Js.number) :
  reports (deduction_mismatch e kind label expected actual)
          "deductions" kind (Entry.employee_id e) expected actual.
Proof. unfold reports. repeat split. Qed.

Lemma or_default_absent (dflt : Js.number) : Js.or_default None dflt = dflt.
Proof. reflexivity. Qed.

Lemma or_default_falsy (v dflt : Js.number) :
  Js.truthy v = false -> Js.or_default (Some v) dflt = dflt.
Proof. unfold Js.or_default. now intros ->. Qed.

Lemma or_default_truthy (v dflt : Js.number) :
  Js.truthy v = true -> Js.or_default (Some v) dflt = v.
Proof. unfold Js.or_default. now intros ->. Qed.

(** A number is falsy when it compares equal to [0], as [0] and [-0] do,
    or is [NaN]. *)
Lemma falsy_iff (v : Js.number) :
  Js.truthy v = false <-> (v =? 0)%float = true \/ PrimFloat.is_nan v = true.
Proof.
  unfold Js.truthy, PrimFloat.is_zero. rewrite negb_false_iff, orb_true_iff. tauto.
Qed.

(** The records of an entry under a map of rates: for each of the three
    checks, the record of its kind or none. *)
Lemma deduction_emitted (parseFloat : string -> Js.number) (d : db) (periodId : Z)
    (kind key : string) (dflt : Js.number) (actual : Entry.t -> option Js.number) :
  In (kind, key, dflt, actual) deduction_checks ->
  exists emitted : Entry.t -> list Discrepancy.t,
    of_kind kind (runDeductionReconciliation parseFloat d periodId)
    = flat_map emitted (select_payroll_entries d periodId) /\
    forall e : Entry.t,
      let expected :=
        (Js.num (Entry.basic_pay e)
         * applied_rate parseFloat (getSystemSettings d) key dflt)%float in
      (Js.gt (PrimFloat.abs (Js.num (actual e) - expected)) 0.01 = true ->
       exists r, emitted e = [r] /\
                 reports r "deductions" kind (Entry.employee_id e) expected (actual e)) /\
      (Js.gt (PrimFloat.abs (Js.num (actual e) - expected)) 0.01 = false ->
       emitted e = []).
Proof.
  intros Hin.
  set (m := settingsMap parseFloat (getSystemSettings d)).
  exists (fun e => of_kind kind (deduction_check m [] e)).
  split.
  - unfold runDeductionReconciliation.
    now rewrite deduction_loop_flat_map, of_kind_flat_map.
  - intros e. cbv zeta. unfold applied_rate. fold m.
    destruct (deduction_check_kind m e kind key dflt actual Hin) as [label ->].
    destruct (Js.gt _ _); split; try discriminate; try reflexivity.
    intros _. eexists. split; [reflexivity | apply deduction_mismatch_reports].
Qed.

Lemma db_zero_rate_entry : entry_of db_zero_rate 1 payroll_entry_no_sss employee_1.
Proof. unfold entry_of. repeat split; now left. Qed.

(** C6, the claim as worded, fails twice.  With [sss_rate] configured as 0
    the configured rate makes the expected SSS deduction 0, equal to the
    stored one, yet the detector reports an [sss_deduction_mismatch] (it
    expects 1000 * 0.045 = 45).  With no rate configured, a basic pay of 400
    and a stored SSS deduction of 18.01, the stored deduction differs from
    400 * 0.045 = 18 by 0.01 and not by more, yet the detector reports an
    [sss_deduction_mismatch]. *)
Lemma deductions_as_worded_fails :
  ~ deductions_as_worded parseFloat_sample db_zero_rate 1 /\
  ~ deductions_as_worded parseFloat_sample db_cent_over 1.
Proof.
  split; intros H; unfold deductions_as_worded, deduction_checks_worded in H;
    apply Forall_inv in H; cbv beta iota in H.
  - destruct (H 0 payroll_entry_no_sss employee_1) as [Hreported _];
      [vm_compute; reflexivity | exact db_zero_rate_entry |].
    assert (Hlt : 0.01 < Qabs (Js.toNumber (PayrollEntry.sss_deduction payroll_entry_no_sss)
                               - Js.toNumber (PayrollEntry.basic_pay payroll_entry_no_sss)
                                 * 0)).
    { apply Hreported.
      destruct (runDeductionReconciliation parseFloat_sample db_zero_rate 1)
        as [|r rest] eqn:Erun; [vm_compute in Erun; discriminate Erun|].
      exists r. split; [now left|].
      vm_compute in Erun. injection Erun as <- _. split; reflexivity. }
    vm_compute in Hlt. discriminate Hlt.
  - destruct (H 0.045 payroll_entry_cent_over employee_1) as [Hreported _];
      [reflexivity | exact db_cent_over_entry |].
    assert (Hlt : 0.01 < Qabs (Js.toNumber (PayrollEntry.sss_deduction payroll_entry_cent_over)
                               - Js.toNumber (PayrollEntry.basic_pay payroll_entry_cent_over)
                                 * 0.045)).
    { apply Hreported.
      destruct (runDeductionReconciliation parseFloat_sample db_cent_over 1)
        as [|r rest] eqn:Erun; [vm_compute in Erun; discriminate Erun|].
      exists r. split; [now left|].
      vm_compute in Erun. injection Erun as <- _. split; reflexivity. }
    vm_compute in Hlt. discriminate Hlt.
Qed.

(** C6, amended. For every payroll entry of the period and each of the
    three checks, the expected deduction is basic_pay times the applied
    rate, computed in binary64, where the applied rate is the configured
    value when the key is present with a truthy number (neither 0 nor NaN;
    an infinite value is applied) and the default (0.045, 0.0275, 0.02)
    when the key is absent or its parsed value is 0 or not a number; the
    check emits its record exactly when the absolute difference between the
    stored deduction and the expected one, computed in binary64, exceeds
    the number 0.01, independently of the other two; with the default
    rates there are entries that produce zero, one, two and three
    records. *)
Theorem deduction_mismatch_iff (parseFloat : string -> Js.number) (d : db) (periodId : Z) :
  Forall
    (fun check : string * string * Js.number * (Entry.t -> option Js.number) =>
       let '(kind, key, dflt, actual) := check in
       let configured := settingsMap parseFloat (getSystemSettings d) !! key in
       let rate := applied_rate parseFloat (getSystemSettings d) key dflt in
       (configured = None -> rate = dflt) /\
       (forall v, configured = Some v -> Js.truthy v = false -> rate = dflt) /\
       (forall v, configured = Some v -> Js.truthy v = true -> rate = v) /\
       exists emitted : Entry.t -> list Discrepancy.t,
         of_kind kind (runDeductionReconciliation parseFloat d periodId)
         = flat_map emitted (select_payroll_entries d periodId) /\
         forall e : Entry.t,
           let expected := (Js.num (Entry.basic_pay e) * rate)%float in
           (Js.gt (PrimFloat.abs (Js.num (actual e) - expected)) 0.01 = true ->
            exists r, emitted e = [r] /\
                      reports r "deductions" kind (Entry.employee_id e) expected (actual e)) /\
           (Js.gt (PrimFloat.abs (Js.num (actual e) - expected)) 0.01 = false ->
            emitted e = []))
    deduction_checks /\
  (forall n : nat, (n <= 3)%nat -> exists e : Entry.t, length (deduction_check ∅ [] e) = n).
Proof.
  split.
  - apply List.Forall_forall. intros [[[kind key] dflt] actual] Hin.
    cbv zeta. split; [|split; [|split]].
    + unfold applied_rate. intros ->. apply or_default_absent.
    + unfold applied_rate. intros v -> Hv. now apply or_default_falsy.
    + unfold applied_rate. intros v -> Hv. now apply or_default_truthy.
    + apply (deduction_emitted parseFloat d periodId kind key dflt actual Hin).
  - intros n Hn.
    destruct n as [|[|[|[|n]]]]; [| | | |lia].
    + exists (entry_zero_base 0 0 0). vm_compute. reflexivity.
    + exists (entry_zero_base 1 0 0). vm_compute. reflexivity.
    + exists (entry_zero_base 1 1 0). vm_compute. reflexivity.
    + exists (entry_zero_base 1 1 1). vm_compute. reflexivity.
Qed.

Lemma settingsMap_without_acc (parseFloat : string -> Js.number) (key : string)
    (settings : list Setting.t) (acc : gmap string Js.number) :
  fold_left
    (fun acc setting =>
       <[Setting.setting_key setting := parseFloat (Setting.setting_value setting)]> acc)
    (List.filter (fun s => negb (String.eqb (Setting.setting_key s) key)) settings)
    (delete key acc)
  = delete key
      (fold_left
         (fun acc setting =>
            <[Setting.setting_key setting := parseFloat (Setting.setting_value setting)]> acc)
         settings acc).
Proof.
  revert acc. induction settings as [|s settings IH]; intros acc; [reflexivity|].
  cbn [List.filter fold_left].
  destruct (String.eqb (Setting.setting_key s) key) eqn:E; cbn [negb].
  - apply String.eqb_eq in E. rewrite <- IH. subst key.
    now rewrite delete_insert_eq.
  - apply String.eqb_neq in E. cbn [fold_left]. rewrite <- IH.
    rewrite delete_insert_ne by congruence. reflexivity.
Qed.

Lemma settingsMap_without (parseFloat : string -> Js.number) (key : string) (d : db) :
  settingsMap parseFloat (getSystemSettings (without_setting key d))
  = delete key (settingsMap parseFloat (getSystemSettings d)).
Proof.
  unfold settingsMap, getSystemSettings, without_setting. cbn [system_settings].
  rewrite <- settingsMap_without_acc. now rewrite delete_empty.
Qed.

Lemma deduction_check_ext (m m' : gmap string Js.number) :
  (forall dflt, Js.or_default (m !! "sss_rate") dflt = Js.or_default (m' !! "sss_rate") dflt) ->
  (forall dflt, Js.or_default (m !! "philhealth_rate") dflt
                = Js.or_default (m' !! "philhealth_rate") dflt) ->
  (forall dflt, Js.or_default (m !! "pagibig_rate") dflt
                = Js.or_default (m' !! "pagibig_rate") dflt) ->
  forall acc e, deduction_check m acc e = deduction_check m' acc e.
Proof.
  intros Hs Hp Hg acc e. unfold deduction_check. now rewrite Hs, Hp, Hg.
Qed.

Lemma or_default_delete (m : gmap string Js.number) (key key' : string) (v : Js.number)
    (dflt : Js.number) :
  m !! key = Some v -> Js.truthy v = false ->
  Js.or_default (m !! key') dflt = Js.or_default (delete key m !! key') dflt.
Proof.
  intros Hm Hv. destruct (decide (key = key')) as [<-|Hne].
  - rewrite lookup_delete_eq, Hm. now apply or_default_falsy.
  - now rewrite lookup_delete_ne.
Qed.

(** C10. When one of the three rate keys is present in the settings and its
    value parses to 0 or to a non-number, the detector computes the
    expected deduction of every entry with the built-in default of that
    key (0.045 for [sss_rate], 0.0275 for [philhealth_rate], 0.02 for
    [pagibig_rate]) in place of the configured value: it reports the entry
    exactly when the stored deduction differs from basic pay times the
    default by more than 0.01 (in binary64), with that product as the
    expected value; and the whole run is the run of the store without the
    key, so a falsy parsed rate is treated exactly like an absent key. *)
Theorem falsy_rate_treated_as_absent (parseFloat : string -> Js.number) (d : db)
    (periodId : Z) (kind key : string) (dflt : Js.number)
    (actual : Entry.t -> option Js.number) (v : Js.number) :
  In (kind, key, dflt, actual) deduction_checks ->
  settingsMap parseFloat (getSystemSettings d) !! key = Some v ->
  ((v =? 0)%float = true \/ PrimFloat.is_nan v = true) ->
  In (key, dflt)
     [("sss_rate", 0.045%float); ("philhealth_rate", 0.0275%float);
      ("pagibig_rate", 0.02%float)] /\
  (exists emitted : Entry.t -> list Discrepancy.t,
      of_kind kind (runDeductionReconciliation parseFloat d periodId)
      = flat_map emitted (select_payroll_entries d periodId) /\
      forall e : Entry.t,
        let expected := (Js.num (Entry.basic_pay e) * dflt)%float in
        (Js.gt (PrimFloat.abs (Js.num (actual e) - expected)) 0.01 = true ->
         exists r, emitted e = [r] /\
                   reports r "deductions" kind (Entry.employee_id e) expected (actual e)) /\
        (Js.gt (PrimFloat.abs (Js.num (actual e) - expected)) 0.01 = false ->
         emitted e = [])) /\
  settingsMap parseFloat (getSystemSettings (without_setting key d)) !! key = None /\
  runDeductionReconciliation parseFloat d periodId
  = runDeductionReconciliation parseFloat (without_setting key d) periodId.
Proof.
  intros Hin Hm Hv. apply falsy_iff in Hv.
  split; [|split; [|split]].
  - unfold deduction_checks in Hin. cbn [In] in *.
    destruct Hin as [H|[H|[H|[]]]]; injection H as <- <- <- <-; tauto.
  - destruct (deduction_emitted parseFloat d periodId kind key dflt actual Hin)
      as (emitted & Hrun & Hemitted).
    exists emitted. split; [exact Hrun|].
    intros e. specialize (Hemitted e). cbv zeta in *.
    unfold applied_rate in Hemitted. rewrite Hm, (or_default_falsy v dflt Hv) in Hemitted.
    exact Hemitted.
  - rewrite settingsMap_without. apply lookup_delete_eq.
  - unfold runDeductionReconciliation.
    rewrite !deduction_loop_flat_map, settingsMap_without.
    change (select_payroll_entries (without_setting key d) periodId)
      with (select_payroll_entries d periodId).
    apply flat_map_ext. intros e.
    apply deduction_check_ext; intros dflt'; now apply or_default_delete with (v := v).
Qed.

Lemma falsy_rate_treated_as_absent_witness :
  In ("sss_rate", 0.045%float)
     [("sss_rate", 0.045%float); ("philhealth_rate", 0.0275%float);
      ("pagibig_rate", 0.02%float)] /\
  (exists emitted : Entry.t -> list Discrepancy.t,
      of_kind "sss_deduction_mismatch" (runDeductionReconciliation parseFloat_sample db_zero_rate 1)
      = flat_map emitted (select_payroll_entries db_zero_rate 1) /\
      forall e : Entry.t,
        let expected := (Js.num (Entry.basic_pay e) * 0.045)%float in
        (Js.gt (PrimFloat.abs (Js.num (Entry.sss_deduction e) - expected)) 0.01 = true ->
         exists r, emitted e = [r] /\
                   reports r "deductions" "sss_deduction_mismatch" (Entry.employee_id e)
                           expected (Entry.sss_deduction e)) /\
        (Js.gt (PrimFloat.abs (Js.num (Entry.sss_deduction e) - expected)) 0.01 = false ->
         emitted e = [])) /\
  settingsMap parseFloat_sample (getSystemSettings (without_setting "sss_rate" db_zero_rate))
    !! "sss_rate" = None /\
  runDeductionReconciliation parseFloat_sample db_zero_rate 1
  = runDeductionReconciliation parseFloat_sample (without_setting "sss_rate" db_zero_rate) 1.
Proof.
  apply (falsy_rate_treated_as_absent parseFloat_sample db_zero_rate 1
           "sss_deduction_mismatch" "sss_rate" 0.045%float Entry.sss_deduction 0%float).
  - left. reflexivity.
  - vm_compute. reflexivity.
  - left. reflexivity.
Defined.

(** The spec's scenario for the deductions: basic pay 20000, stored SSS
    deduction 900, no [sss_rate] configured: expected 900, no discrepancy;
    likewise 550 and 400 for the other two. *)
Example deduction_scenario :
  runDeductionReconciliation parseFloat_sample db_two_mismatches 1 = [].
Proof. vm_compute. reflexivity. Qed.

(** With [sss_rate] stored as 0 the detector expects 1000 * 0.045 = 45. *)
Example zero_rate_scenario :
  map (fun r => (Discrepancy.discrepancy_type r, Discrepancy.expected_value r,
                 Discrepancy.actual_value r))
      (runDeductionReconciliation parseFloat_sample db_zero_rate 1)
  = [("sss_deduction_mismatch", Some 45%float, Some 0%float)].
Proof. vm_compute. reflexivity. Qed.

(** A rate that parses to [Infinity] is truthy and is applied: the expected
    deduction is infinite. *)
Example infinite_rate_scenario :
  map (fun r => (Discrepancy.discrepancy_type r, Discrepancy.expected_value r))
      (deduction_check (<["sss_rate" := parseFloat_sample "Infinity"]> ∅) []
                       (join_entry payroll_entry_no_sss employee_1))
  = [("sss_deduction_mismatch", Some PrimFloat.infinity)].
Proof. vm_compute. reflexivity. Qed.

(** ** The reconciliation runner *)

Lemma collect_unknown_scope (parseFloat : string -> Js.number) (d : db) (periodId : Z)
    (reconciliationType : string) :
  ~ In reconciliationType scopes ->
  collect_results parseFloat d periodId reconciliationType = [].
Proof.
  intros Hout. unfold collect_results, scopes in *. cbn [In] in Hout.
  assert (Hne : forall s, In s ["all"; "payroll"; "attendance"; "deductions"] ->
                          String.eqb reconciliationType s = false).
  { intros s Hs. apply String.eqb_neq. intros ->. apply Hout.
    cbn [In] in Hs. intuition. }
  rewrite !Hne by (cbn [In]; intuition). reflexivity.
Qed.

(** C4, the claim as worded, fails: the scope [everything] is none of the
    four, and the run is answered with success. *)
Lemma unknown_scope_rejected_fails :
  ~ unknown_scope_rejected parseFloat_sample store_reliable Js.exact db_two_mismatches
      request_unknown_scope.
Proof.
  intros H. unfold unknown_scope_rejected in H.
  assert (Hfail : is_failure (snd (run parseFloat_sample store_reliable Js.exact db_two_mismatches
                                       request_unknown_scope)) = true).
  { apply H. unfold scopes. cbn [In reconciliationType_of request_unknown_scope
                                    RunRequest.reconciliationType].
    intros [E|[E|[E|[E|[]]]]]; discriminate E. }
  vm_compute in Hfail. discriminate Hfail.
Qed.

(** C4, amended. A run whose scope is none of [all], [payroll],
    [attendance], [deductions], on a period that exists, invokes no
    detector and completes: it reports zero discrepancies and records
    none. *)
Theorem run_unknown_scope (parseFloat : string -> Js.number) (store_accepts : Log.t -> bool)
    (stored : Js.number -> option Q)
    (d : db) (req : RunRequest.t) :
  ~ In (reconciliationType_of req) scopes ->
  select_period d (RunRequest.periodId req) <> [] ->
  snd (run parseFloat store_accepts stored d req) = RunCompleted 0 [] /\
  reconciliation_logs (fst (run parseFloat store_accepts stored d req)) = reconciliation_logs d.
Proof.
  intros Hout Hperiod. unfold run. cbv zeta.
  destruct (select_period d (RunRequest.periodId req)) as [|p ps]; [contradiction|].
  rewrite (collect_unknown_scope parseFloat d _ _ Hout).
  split; reflexivity.
Qed.

Lemma run_unknown_scope_witness :
  snd (run parseFloat_sample store_reliable Js.exact db_two_mismatches request_unknown_scope)
  = RunCompleted 0 [] /\
  reconciliation_logs
    (fst (run parseFloat_sample store_reliable Js.exact db_two_mismatches request_unknown_scope))
  = reconciliation_logs db_two_mismatches.
Proof.
  apply (run_unknown_scope parseFloat_sample store_reliable Js.exact db_two_mismatches
           request_unknown_scope).
  - unfold scopes. cbn [In reconciliationType_of request_unknown_scope
                           RunRequest.reconciliationType].
    intros [E|[E|[E|[E|[]]]]]; discriminate E.
  - vm_compute. discriminate.
Defined.

Lemma new_log_records (stored : Js.number -> option Q) (d : db) (periodId : Z)
    (x : Discrepancy.t) :
  records stored periodId x (new_log stored d (logData_of periodId x)).
Proof. unfold records. repeat split; reflexivity. Qed.

Lemma save_results_prefix (store_accepts : Log.t -> bool)
    (stored : Js.number -> option Q) (periodId : Z)
    (results : list Discrepancy.t) :
  forall d : db,
  exists saved rest rows,
    results = saved ++ rest /\
    reconciliation_logs (fst (save_results store_accepts stored d periodId results))
    = reconciliation_logs d ++ rows /\
    Forall2 (records stored periodId) saved rows /\
    (rest = [] -> snd (save_results store_accepts stored d periodId results) = true) /\
    (forall x rest', rest = x :: rest' ->
       snd (save_results store_accepts stored d periodId results) = false /\
       store_accepts (new_log stored (fst (save_results store_accepts stored d periodId results))
                              (logData_of periodId x)) = false).
Proof.
  induction results as [|x results IH]; intros d.
  - exists [], [], []. cbn [save_results fst snd app].
    rewrite app_nil_r. repeat split; try constructor; congruence.
  - cbn [save_results]. unfold createReconciliationLog. cbv zeta.
    destruct (store_accepts (new_log stored d (logData_of periodId x))) eqn:Eacc.
    + destruct (IH (with_reconciliation_logs d
                      (reconciliation_logs d ++ [new_log stored d (logData_of periodId x)])))
        as (saved & rest & rows & Hsplit & Hlogs & Hrec & Hdone & Hrefused).
      exists (x :: saved), rest, (new_log stored d (logData_of periodId x) :: rows).
      split; [now rewrite Hsplit|]. split.
      * rewrite Hlogs. cbn [reconciliation_logs with_reconciliation_logs].
        now rewrite <- app_assoc.
      * split; [constructor; [apply new_log_records | exact Hrec]|].
        split; assumption.
    + exists [], (x :: results), []. cbn [fst snd app].
      rewrite app_nil_r. repeat split; try constructor; congruence.
Qed.

(** C2, the claim as worded, fails: the payroll run has two candidates, the
    store fails on the second insert, the run is answered with a failure,
    and the first candidate stays recorded. *)
Lemma persistence_atomic_fails :
  ~ persistence_atomic parseFloat_sample store_fails_after_first Js.exact db_two_mismatches
      request_payroll.
Proof.
  intros H. unfold persistence_atomic in H.
  assert (Hlogs : reconciliation_logs
                    (fst (run parseFloat_sample store_fails_after_first Js.exact db_two_mismatches
                              request_payroll))
                  = reconciliation_logs db_two_mismatches).
  { apply H. vm_compute. reflexivity. }
  vm_compute in Hlogs. discriminate Hlogs.
Qed.

(** C2, amended. A run on a period that exists records its candidates one
    insert at a time, in order, with no transaction: the table of records
    grows by the rows of a prefix of the candidates; when the prefix is the
    whole list the run completes and reports every candidate; otherwise
    the store failed on the next candidate, the run is answered with a
    failure, and the rows of the prefix stay recorded. *)
Theorem run_persists_prefix (parseFloat : string -> Js.number)
    (store_accepts : Log.t -> bool)
    (stored : Js.number -> option Q) (d : db) (req : RunRequest.t) :
  select_period d (RunRequest.periodId req) <> [] ->
  exists saved rest rows,
    collect_results parseFloat d (RunRequest.periodId req) (reconciliationType_of req)
    = saved ++ rest /\
    reconciliation_logs (fst (run parseFloat store_accepts stored d req))
    = reconciliation_logs d ++ rows /\
    Forall2 (records stored (RunRequest.periodId req)) saved rows /\
    (rest = [] ->
     snd (run parseFloat store_accepts stored d req) = RunCompleted (length saved) saved) /\
    (forall x rest', rest = x :: rest' ->
       snd (run parseFloat store_accepts stored d req)
       = Failure 500 "Failed to run reconciliation" /\
       store_accepts (new_log stored (fst (run parseFloat store_accepts stored d req))
                              (logData_of (RunRequest.periodId req) x)) = false).
Proof.
  intros Hperiod. unfold run. cbv zeta.
  destruct (select_period d (RunRequest.periodId req)) as [|p ps]; [contradiction|].
  set (results := collect_results parseFloat d (RunRequest.periodId req)
                                  (reconciliationType_of req)).
  destruct (save_results_prefix store_accepts stored (RunRequest.periodId req) results d)
    as (saved & rest & rows & Hsplit & Hlogs & Hrec & Hdone & Hrefused).
  exists saved, rest, rows. split; [exact Hsplit|].
  destruct (save_results store_accepts stored d (RunRequest.periodId req) results)
    as [d' ok] eqn:Esave.
  cbn [fst snd] in *.
  destruct rest as [|x rest'].
  - rewrite (Hdone eq_refl). cbn [fst snd]. rewrite app_nil_r in Hsplit.
    repeat split; try assumption; try congruence.
  - destruct (Hrefused x rest' eq_refl) as [-> Hacc]. cbn [fst snd].
    repeat split; try assumption; congruence.
Qed.

Lemma run_persists_prefix_witness :
  exists saved rest rows,
    collect_results parseFloat_sample db_two_mismatches
                    (RunRequest.periodId request_payroll)
                    (reconciliationType_of request_payroll)
    = saved ++ rest /\
    reconciliation_logs
      (fst (run parseFloat_sample store_fails_after_first Js.exact db_two_mismatches
                request_payroll))
    = reconciliation_logs db_two_mismatches ++ rows /\
    Forall2 (records Js.exact (RunRequest.periodId request_payroll)) saved rows /\
    (rest = [] ->
     snd (run parseFloat_sample store_fails_after_first Js.exact db_two_mismatches request_payroll)
     = RunCompleted (length saved) saved) /\
    (forall x rest', rest = x :: rest' ->
       snd (run parseFloat_sample store_fails_after_first Js.exact db_two_mismatches
                request_payroll)
       = Failure 500 "Failed to run reconciliation" /\
       store_fails_after_first
         (new_log Js.exact
                  (fst (run parseFloat_sample store_fails_after_first Js.exact
                            db_two_mismatches request_payroll))
                  (logData_of (RunRequest.periodId request_payroll) x)) = false).
Proof.
  apply (run_persists_prefix parseFloat_sample store_fails_after_first Js.exact db_two_mismatches
           request_payroll).
  vm_compute. discriminate.
Defined.

(** On the sample: the scope [everything] runs no detector, although the
    payroll detector would find two mismatches. *)
Example unknown_scope_scenario :
  snd (run parseFloat_sample store_reliable Js.exact db_two_mismatches request_unknown_scope)
  = RunCompleted 0 []
  /\ length (runPayrollReconciliation db_two_mismatches 1) = 2%nat.
Proof. split; vm_compute; reflexivity. Qed.

(** The failed run of the sample leaves the first candidate recorded. *)
Example partial_batch_scenario :
  map Log.employee_id
      (reconciliation_logs
         (fst (run parseFloat_sample store_fails_after_first Js.exact db_two_mismatches
                   request_payroll)))
  = [1%Z]
  /\ http_status (snd (run parseFloat_sample store_fails_after_first Js.exact db_two_mismatches
                           request_payroll)) = 500%Z.
Proof. split; vm_compute; reflexivity. Qed.

(** ** The resolution route *)

Lemma valid_status_accepted (status : string) :
  In status ["resolved"; "ignored"] ->
  negb (existsb (String.eqb status) ["resolved"; "ignored"]) = false.
Proof.
  intros Hin. apply negb_false_iff, existsb_exists.
  exists status. split; [exact Hin | apply String.eqb_refl].
Qed.

Lemma resolve_valid (now : Z) (d : db) (req : ResolveRequest.t) :
  In (ResolveRequest.status req) ["resolved"; "ignored"] ->
  snd (resolve now d req) = ResolveCompleted /\
  reconciliation_logs (fst (resolve now d req))
  = update_logs (ResolveRequest.status req) (ResolveRequest.user_id req) now
                (ResolveRequest.resolutionNotes req) (ResolveRequest.logId req)
                (reconciliation_logs d).
Proof.
  intros Hin. unfold resolve. cbv zeta.
  rewrite (valid_status_accepted _ Hin). split; reflexivity.
Qed.

(** C1, the claim as worded, fails: record 1 is resolved, and the request to
    ignore it is answered with success and changes the record. *)
Lemma transition_rejected_fails : ~ transition_rejected 1000 db_resolved request_ignore.
Proof.
  intros H.
  destruct (H log_resolved) as [Hfail _].
  - left. reflexivity.
  - reflexivity.
  - discriminate.
  - vm_compute in Hfail. discriminate Hfail.
Qed.

(** C1, amended. For every record, whatever its status (pending, resolved
    or ignored), a request whose status is [resolved] or [ignored] succeeds
    and overwrites the record's status, resolver, resolution instant and
    note with the request's; the columns of the finding are kept, and the
    records with another id are untouched.  No request is refused for the
    status of the record. *)
Theorem resolve_overwrites (now : Z) (d : db) (req : ResolveRequest.t) (i : nat)
    (row : Log.t) :
  In (ResolveRequest.status req) ["resolved"; "ignored"] ->
  nth_error (reconciliation_logs d) i = Some row ->
  Log.id row = ResolveRequest.logId req ->
  snd (resolve now d req) = ResolveCompleted /\
  (exists row',
      nth_error (reconciliation_logs (fst (resolve now d req))) i = Some row' /\
      Log.status row' = ResolveRequest.status req /\
      Log.resolved_by row' = Some (ResolveRequest.user_id req) /\
      Log.resolved_at row' = Some now /\
      Log.resolution_notes row' = ResolveRequest.resolutionNotes req /\
      Log.id row' = Log.id row /\
      Log.payroll_period_id row' = Log.payroll_period_id row /\
      Log.reconciliation_type row' = Log.reconciliation_type row /\
      Log.employee_id row' = Log.employee_id row /\
      Log.discrepancy_type row' = Log.discrepancy_type row /\
      Log.expected_value row' = Log.expected_value row /\
      Log.actual_value row' = Log.actual_value row /\
      Log.variance row' = Log.variance row /\
      Log.description row' = Log.description row) /\
  (forall j other,
      nth_error (reconciliation_logs d) j = Some other ->
      Log.id other <> ResolveRequest.logId req ->
      nth_error (reconciliation_logs (fst (resolve now d req))) j = Some other).
Proof.
  intros Hstatus Hrow Hid.
  destruct (resolve_valid now d req Hstatus) as [Hresp Hlogs].
  split; [exact Hresp|]. rewrite Hlogs. unfold update_logs. split.
  - eexists. split.
    + rewrite nth_error_map, Hrow. cbn [option_map].
      rewrite Hid, Z.eqb_refl. reflexivity.
    + repeat split; reflexivity.
  - intros j other Hother Hne.
    rewrite nth_error_map, Hother. cbn [option_map].
    apply Z.eqb_neq in Hne. now rewrite Hne.
Qed.

Lemma resolve_overwrites_witness :
  snd (resolve 1000 db_resolved request_ignore) = ResolveCompleted /\
  (exists row',
      nth_error (reconciliation_logs (fst (resolve 1000 db_resolved request_ignore))) 0
      = Some row' /\
      Log.status row' = "ignored" /\
      Log.resolved_by row' = Some 9%Z /\
      Log.resolved_at row' = Some 1000%Z /\
      Log.resolution_notes row' = Some "not relevant" /\
      Log.id row' = Log.id log_resolved /\
      Log.payroll_period_id row' = Log.payroll_period_id log_resolved /\
      Log.reconciliation_type row' = Log.reconciliation_type log_resolved /\
      Log.employee_id row' = Log.employee_id log_resolved /\
      Log.discrepancy_type row' = Log.discrepancy_type log_resolved /\
      Log.expected_value row' = Log.expected_value log_resolved /\
      Log.actual_value row' = Log.actual_value log_resolved /\
      Log.variance row' = Log.variance log_resolved /\
      Log.description row' = Log.description log_resolved) /\
  (forall j other,
      nth_error (reconciliation_logs db_resolved) j = Some other ->
      Log.id other <> ResolveRequest.logId request_ignore ->
      nth_error (reconciliation_logs (fst (resolve 1000 db_resolved request_ignore))) j
      = Some other).
Proof.
  apply (resolve_overwrites 1000 db_resolved request_ignore 0 log_resolved).
  - right. left. reflexivity.
  - reflexivity.
  - reflexivity.
Defined.

Lemma update_logs_missing (status : string) (userId now : Z) (notes : option string)
    (logId : Z) (logs : list Log.t) :
  (forall row, In row logs -> Log.id row <> logId) ->
  update_logs status userId now notes logId logs = logs.
Proof.
  intros Hmiss. unfold update_logs.
  rewrite <- (map_id logs) at 2. apply map_ext_in.
  intros row Hin. apply Hmiss, Z.eqb_neq in Hin. now rewrite Hin.
Qed.

(** C5, the claim as worded, fails: no record has id 42, and the request to
    resolve it is answered with success. *)
Lemma missing_record_rejected_fails :
  ~ missing_record_rejected 1000 db_resolved request_missing.
Proof.
  intros H. destruct H as [Hfail _].
  - intros row [<-|[]]. discriminate.
  - vm_compute in Hfail. discriminate Hfail.
Qed.

(** C5, amended. A request with status [resolved] or [ignored] that names a
    record id that does not exist is answered with success; no stored
    record is modified. *)
Theorem resolve_missing_record (now : Z) (d : db) (req : ResolveRequest.t) :
  In (ResolveRequest.status req) ["resolved"; "ignored"] ->
  (forall row, In row (reconciliation_logs d) -> Log.id row <> ResolveRequest.logId req) ->
  snd (resolve now d req) = ResolveCompleted /\
  reconciliation_logs (fst (resolve now d req)) = reconciliation_logs d.
Proof.
  intros Hstatus Hmiss.
  destruct (resolve_valid now d req Hstatus) as [Hresp Hlogs].
  split; [exact Hresp|]. rewrite Hlogs. now apply update_logs_missing.
Qed.

Lemma resolve_missing_record_witness :
  snd (resolve 1000 db_resolved request_missing) = ResolveCompleted /\
  reconciliation_logs (fst (resolve 1000 db_resolved request_missing))
  = reconciliation_logs db_resolved.
Proof.
  apply (resolve_missing_record 1000 db_resolved request_missing).
  - left. reflexivity.
  - intros row [<-|[]]. discriminate.
Defined.

(** On the sample: the resolved record 1 is ignored on request, with the
    new resolver, instant and note; the request for the missing record 42
    is answered like any other. *)
Example resolved_record_rewritten :
  map (fun row => (Log.status row, Log.resolved_by row, Log.resolved_at row,
                   Log.resolution_notes row))
      (reconciliation_logs (fst (resolve 1000 db_resolved request_ignore)))
  = [("ignored", Some 9%Z, Some 1000%Z, Some "not relevant")]
  /\ http_status (snd (resolve 1000 db_resolved request_ignore)) = 200%Z
  /\ http_status (snd (resolve 1000 db_resolved request_missing)) = 200%Z.
Proof. repeat split; vm_compute; reflexivity. Qed.

(** ** The ranking of the dashboard *)

Lemma variance_geb_total (a b : option Q) :
  variance_geb a b = true \/ variance_geb b a = true.
Proof.
  destruct a as [x|], b as [y|]; cbn [variance_geb]; try tauto.
  rewrite !Qle_bool_iff. destruct (Qlt_le_dec x y) as [H|H]; [right | left]; [|exact H].
  now apply Qlt_le_weak.
Qed.

Lemma variance_geb_trans (a b c : option Q) :
  variance_geb a b = true -> variance_geb b c = true -> variance_geb a c = true.
Proof.
  destruct a as [x|], b as [y|], c as [z|]; cbn [variance_geb]; try congruence.
  rewrite !Qle_bool_iff. intros Hyx Hzy. now apply Qle_trans with y.
Qed.

Lemma ranks_before_spec (a b : Top.t) :
  ranks_before a b = true <->
  (Top.discrepancy_count b < Top.discrepancy_count a)%nat
  \/ (Top.discrepancy_count a = Top.discrepancy_count b
      /\ variance_geb (Top.total_variance a) (Top.total_variance b) = true).
Proof.
  unfold ranks_before.
  rewrite orb_true_iff, andb_true_iff, Nat.ltb_lt, Nat.eqb_eq. reflexivity.
Qed.

Lemma ranks_before_total (a b : Top.t) :
  ranks_before a b = true \/ ranks_before b a = true.
Proof.
  rewrite !ranks_before_spec.
  destruct (lt_eq_lt_dec (Top.discrepancy_count a) (Top.discrepancy_count b)) as [[H|H]|H].
  - right. now left.
  - destruct (variance_geb_total (Top.total_variance a) (Top.total_variance b)) as [Hv|Hv].
    + left. right. now split.
    + right. right. now split.
  - left. now left.
Qed.

Lemma ranks_before_trans (a b c : Top.t) :
  ranks_before a b = true -> ranks_before b c = true -> ranks_before a c = true.
Proof.
  rewrite !ranks_before_spec.
  intros [Hab|[Hab Hvab]] [Hbc|[Hbc Hvbc]].
  - left. lia.
  - left. lia.
  - left. lia.
  - right. split; [lia|]. now apply variance_geb_trans with (Top.total_variance b).
Qed.

(** ** The third dashboard query *)

Lemma top_joined_by_log (d : db) (now dateRange : Z) :
  top_joined d now dateRange = flat_map (log_rows d now dateRange) (reconciliation_logs d).
Proof.
  unfold top_joined, inner_join, log_rows.
  now rewrite flat_map_nested, filter_flat_map.
Qed.

Lemma log_rows_employee (d : db) (now dateRange : Z) (rl : Log.t)
    (row : Log.t * Employee.t * Period.t) :
  In row (log_rows d now dateRange rl) -> In (snd (fst row)) (employees d).
Proof.
  unfold log_rows. intros Hin.
  apply filter_In in Hin. destruct Hin as [Hin _].
  apply in_flat_map in Hin. destruct Hin as (rle & Hrle & Hin).
  apply in_map_iff in Hin. destruct Hin as (pp & <- & _).
  apply in_map_iff in Hrle. destruct Hrle as (e & <- & He).
  apply filter_In in He. apply He.
Qed.

Lemma log_rows_of_employee (d : db) (now dateRange : Z) (e : Employee.t) (rl : Log.t) :
  List.NoDup (map Employee.id (employees d)) ->
  List.NoDup (map Period.id (payroll_periods d)) ->
  In e (employees d) ->
  map (fun row => fst (fst row))
      (List.filter (fun row => Z.eqb (Employee.id (snd (fst row))) (Employee.id e))
                   (log_rows d now dateRange rl))
  = (if pending_in_window d now dateRange (Employee.id e) rl then [rl] else [])
  /\ (forall row,
        In row (List.filter (fun row => Z.eqb (Employee.id (snd (fst row))) (Employee.id e))
                            (log_rows d now dateRange rl)) ->
        snd (fst row) = e).
Proof.
  intros Hemp Hper He. unfold log_rows, pending_in_window.
  rewrite existsb_filter.
  destruct (filter_key_unique Employee.id (employees d) (Log.employee_id rl) Hemp)
    as [[-> Hnone]|(e' & He' & Hid & ->)].
  - cbn [map flat_map List.filter].
    specialize (Hnone e He). apply not_eq_sym, Z.eqb_neq in Hnone. rewrite Hnone.
    split; [reflexivity | intros row []].
  - cbn [map flat_map fst]. rewrite app_nil_r.
    destruct (filter_key_unique Period.id (payroll_periods d) (Log.payroll_period_id rl) Hper)
      as [[-> _]|(pp & Hpp & Hpid & ->)].
    + cbn [map List.filter existsb]. rewrite andb_false_r.
      split; [reflexivity | intros row []].
    + cbn [map List.filter existsb fst snd]. rewrite orb_false_r, <- Hid.
      destruct (in_window now dateRange pp), (String.eqb (Log.status rl) "pending");
        cbn [andb List.filter map fst snd]; rewrite ?andb_false_r;
        try (split; [reflexivity | intros row []]).
      destruct (Z.eqb (Employee.id e') (Employee.id e)) eqn:E;
        cbn [map fst snd andb]; (split; [reflexivity|]); [|intros row []].
      intros row [<-|[]]. cbn [fst snd].
      apply Z.eqb_eq in E. now apply (map_key_inj Employee.id (employees d)).
Qed.

Lemma group_of_employee (d : db) (now dateRange : Z) (e : Employee.t) :
  List.NoDup (map Employee.id (employees d)) ->
  List.NoDup (map Period.id (payroll_periods d)) ->
  In e (employees d) ->
  map (fun row => fst (fst row))
      (List.filter (fun row => Z.eqb (Employee.id (snd (fst row))) (Employee.id e))
                   (top_joined d now dateRange))
  = pending_records d now dateRange (Employee.id e)
  /\ (forall row,
        In row (List.filter (fun row => Z.eqb (Employee.id (snd (fst row))) (Employee.id e))
                            (top_joined d now dateRange)) ->
        snd (fst row) = e).
Proof.
  intros Hemp Hper He. rewrite top_joined_by_log, filter_flat_map. split.
  - rewrite map_flat_map. unfold pending_records.
    rewrite <- flat_map_choice. apply flat_map_ext. intros rl.
    now apply log_rows_of_employee.
  - intros row Hin. apply in_flat_map in Hin. destruct Hin as (rl & _ & Hin).
    now apply (log_rows_of_employee d now dateRange e rl Hemp Hper He).
Qed.

Lemma aggregate_of_employee (d : db) (now dateRange : Z) (e : Employee.t) :
  List.NoDup (map Employee.id (employees d)) ->
  List.NoDup (map Period.id (payroll_periods d)) ->
  In e (employees d) ->
  has_pending d now dateRange e = true ->
  top_aggregate
    (List.filter (fun row => Z.eqb (Employee.id (snd (fst row))) (Employee.id e))
                 (top_joined d now dateRange))
  = [offender_row d now dateRange e].
Proof.
  intros Hemp Hper He Hpending.
  destruct (group_of_employee d now dateRange e Hemp Hper He) as [Hrecords Hsame].
  unfold has_pending in Hpending. unfold offender_row. rewrite <- Hrecords in *.
  destruct (List.filter _ (top_joined d now dateRange)) as [|[[rl e'] pp] group] eqn:Egroup;
    [discriminate Hpending|].
  assert (e' = e) as -> by (apply (Hsame (rl, e', pp)); now left).
  unfold top_aggregate. rewrite length_map, map_map. reflexivity.
Qed.

Lemma top_keys_perm (d : db) (now dateRange : Z) :
  List.NoDup (map Employee.id (employees d)) ->
  List.NoDup (map Period.id (payroll_periods d)) ->
  Permutation
    (distinct (map (fun row => Employee.id (snd (fst row))) (top_joined d now dateRange)))
    (map Employee.id (List.filter (has_pending d now dateRange) (employees d))).
Proof.
  intros Hemp Hper.
  apply Permutation.NoDup_Permutation; [apply distinct_NoDup | now apply NoDup_map_filter |].
  intros k. rewrite distinct_In, !in_map_iff. split.
  - intros (row & <- & Hrow).
    assert (He : In (snd (fst row)) (employees d)).
    { rewrite top_joined_by_log in Hrow. apply in_flat_map in Hrow.
      destruct Hrow as (rl & _ & Hrow). now apply log_rows_employee in Hrow. }
    exists (snd (fst row)). split; [reflexivity|]. apply filter_In. split; [exact He|].
    unfold has_pending.
    destruct (group_of_employee d now dateRange (snd (fst row)) Hemp Hper He) as [<- _].
    assert (Hin : In row (List.filter
                            (fun row' => Z.eqb (Employee.id (snd (fst row')))
                                               (Employee.id (snd (fst row))))
                            (top_joined d now dateRange))).
    { apply filter_In. split; [exact Hrow | apply Z.eqb_refl]. }
    destruct (List.filter _ (top_joined d now dateRange)); [destruct Hin | reflexivity].
  - intros (e & <- & He). apply filter_In in He. destruct He as [He Hpending].
    unfold has_pending in Hpending.
    destruct (group_of_employee d now dateRange e Hemp Hper He) as [Hrecords _].
    rewrite <- Hrecords in Hpending.
    destruct (List.filter _ (top_joined d now dateRange)) as [|row group] eqn:Egroup;
      [discriminate Hpending|].
    assert (Hin : In row (row :: group)) by now left.
    rewrite <- Egroup in Hin. apply filter_In in Hin. destruct Hin as [Hin Hkey].
    exists row. split; [now apply Z.eqb_eq in Hkey | exact Hin].
Qed.

Lemma ranked_perm (d : db) (now dateRange : Z) :
  List.NoDup (map Employee.id (employees d)) ->
  List.NoDup (map Period.id (payroll_periods d)) ->
  Permutation (rankedEmployees d now dateRange)
              (map (offender_row d now dateRange)
                   (List.filter (has_pending d now dateRange) (employees d))).
Proof.
  intros Hemp Hper. unfold rankedEmployees.
  rewrite order_by_perm. unfold group_by. rewrite flat_map_of_map. cbn [snd].
  rewrite (Permutation_flat_map _ (top_keys_perm d now dateRange Hemp Hper)).
  rewrite flat_map_of_map, <- flat_map_single.
  apply Permutation_refl'. apply flat_map_agree. intros e He.
  apply filter_In in He. destruct He as [He Hpending].
  now apply aggregate_of_employee.
Qed.

Lemma ranked_sorted (d : db) (now dateRange : Z) :
  StronglySorted (fun a b => ranks_before a b = true) (rankedEmployees d now dateRange).
Proof.
  unfold rankedEmployees.
  apply order_by_sorted; [exact ranks_before_total | exact ranks_before_trans].
Qed.

(** C9. Given that employee ids and period ids are keys of their tables:
    the dashboard's ranking has exactly one row per employee with pending
    records of periods that start in the window, carrying the number of
    these records and the sum of their absolute variances; the top
    offenders are the first ten rows of the ranking, so at most ten, each
    the row of such an employee; a row never stands before a row with a
    larger count, nor, at equal counts, before a row with a larger summed
    absolute variance; of two rows with equal counts the one with the
    strictly larger sum stands first. *)
Theorem top_offenders_ranking (d : db) (now dateRange : Z) :
  List.NoDup (map Employee.id (employees d)) ->
  List.NoDup (map Period.id (payroll_periods d)) ->
  Permutation (rankedEmployees d now dateRange)
              (map (offender_row d now dateRange)
                   (List.filter (has_pending d now dateRange) (employees d))) /\
  topEmployees d now dateRange = firstn 10 (rankedEmployees d now dateRange) /\
  (length (topEmployees d now dateRange) <= 10)%nat /\
  (forall row,
      In row (topEmployees d now dateRange) ->
      exists e, In e (employees d) /\
                pending_records d now dateRange (Employee.id e) <> [] /\
                row = offender_row d now dateRange e) /\
  (forall i j a b,
      (i < j)%nat ->
      nth_error (rankedEmployees d now dateRange) i = Some a ->
      nth_error (rankedEmployees d now dateRange) j = Some b ->
      (Top.discrepancy_count b <= Top.discrepancy_count a)%nat /\
      (Top.discrepancy_count a = Top.discrepancy_count b ->
       variance_geb (Top.total_variance a) (Top.total_variance b) = true)) /\
  (forall i j a b x y,
      nth_error (rankedEmployees d now dateRange) i = Some a ->
      nth_error (rankedEmployees d now dateRange) j = Some b ->
      Top.discrepancy_count a = Top.discrepancy_count b ->
      Top.total_variance a = Some x ->
      Top.total_variance b = Some y ->
      x < y ->
      (j < i)%nat).
Proof.
  intros Hemp Hper.
  pose proof (ranked_perm d now dateRange Hemp Hper) as Hperm.
  pose proof (sorted_nth ranks_before _ (ranked_sorted d now dateRange)) as Hsorted.
  split; [exact Hperm|]. split; [reflexivity|]. split; [apply firstn_le_length|].
  split; [|split].
  - intros row Hin. apply firstn_subset in Hin.
    apply (Permutation_in _ Hperm) in Hin.
    apply in_map_iff in Hin. destruct Hin as (e & <- & He).
    apply filter_In in He. destruct He as [He Hpending].
    exists e. split; [exact He|]. split; [|reflexivity].
    unfold has_pending in Hpending. intros Hnil. rewrite Hnil in Hpending.
    discriminate Hpending.
  - intros i j a b Hij Ha Hb.
    specialize (Hsorted i j a b Hij Ha Hb). apply ranks_before_spec in Hsorted.
    destruct Hsorted as [Hlt|[Heq Hv]]; split; try lia; intros; assumption.
  - intros i j a b x y Ha Hb Hcount Hx Hy Hxy.
    destruct (lt_eq_lt_dec i j) as [[Hij|Hij]|Hij]; [| |exact Hij]; exfalso.
    + specialize (Hsorted i j a b Hij Ha Hb). apply ranks_before_spec in Hsorted.
      destruct Hsorted as [Hlt|[_ Hv]]; [lia|].
      rewrite Hx, Hy in Hv. cbn [variance_geb] in Hv. apply Qle_bool_iff in Hv.
      now apply (Qlt_not_le x y).
    + subst j. rewrite Ha in Hb. injection Hb as <-.
      rewrite Hx in Hy. injection Hy as <-.
      now apply (Qlt_irrefl x).
Qed.

Lemma db_offenders_keys :
  List.NoDup (map Employee.id (employees db_offenders))
  /\ List.NoDup (map Period.id (payroll_periods db_offenders)).
Proof.
  split; cbn [map db_offenders employees payroll_periods];
    repeat (constructor; [cbn [In]; intuition discriminate|]); constructor.
Defined.

Lemma top_offenders_ranking_witness :
  Permutation (rankedEmployees db_offenders 86400 30)
              (map (offender_row db_offenders 86400 30)
                   (List.filter (has_pending db_offenders 86400 30) (employees db_offenders))) /\
  topEmployees db_offenders 86400 30 = firstn 10 (rankedEmployees db_offenders 86400 30) /\
  (length (topEmployees db_offenders 86400 30) <= 10)%nat /\
  (forall row,
      In row (topEmployees db_offenders 86400 30) ->
      exists e, In e (employees db_offenders) /\
                pending_records db_offenders 86400 30 (Employee.id e) <> [] /\
                row = offender_row db_offenders 86400 30 e) /\
  (forall i j a b,
      (i < j)%nat ->
      nth_error (rankedEmployees db_offenders 86400 30) i = Some a ->
      nth_error (rankedEmployees db_offenders 86400 30) j = Some b ->
      (Top.discrepancy_count b <= Top.discrepancy_count a)%nat /\
      (Top.discrepancy_count a = Top.discrepancy_count b ->
       variance_geb (Top.total_variance a) (Top.total_variance b) = true)) /\
  (forall i j a b x y,
      nth_error (rankedEmployees db_offenders 86400 30) i = Some a ->
      nth_error (rankedEmployees db_offenders 86400 30) j = Some b ->
      Top.discrepancy_count a = Top.discrepancy_count b ->
      Top.total_variance a = Some x ->
      Top.total_variance b = Some y ->
      x < y ->
      (j < i)%nat).
Proof.
  apply (top_offenders_ranking db_offenders 86400 30).
  - exact (proj1 db_offenders_keys).
  - exact (proj2 db_offenders_keys).
Defined.

(** The spec's scenario: with equal counts (5 and 5), the employee whose
    absolute variances total 15 stands before the one whose total 10. *)
Example top_offenders_scenario :
  map (fun row => (Top.employee_number row, Top.discrepancy_count row,
                   option_map Qred (Top.total_variance row)))
      (topEmployees db_offenders 86400 30)
  = [("E-002", 5%nat, Some 15); ("E-001", 5%nat, Some 10)].
Proof. vm_compute. reflexivity. Qed.

(** ** What the detectors emit *)

Lemma payroll_check_in (e : Entry.t) (r : Discrepancy.t) :
  In r (payroll_check [] e) ->
  (r = gross_pay_mismatch e (calculateExpectedGrossPay e)
   /\ Js.gt (PrimFloat.abs (Js.num (Entry.gross_pay e) - calculateExpectedGrossPay e)) 0.01
      = true)
  \/ (r = net_pay_mismatch e (Js.num (Entry.gross_pay e) - Js.num (Entry.total_deductions e))
      /\ Js.gt (PrimFloat.abs
                  (Js.num (Entry.net_pay e)
                   - (Js.num (Entry.gross_pay e) - Js.num (Entry.total_deductions e)))) 0.01
         = true).
Proof.
  rewrite payroll_check_kinds.
  destruct (Js.gt _ _); destruct (Js.gt _ _); cbn [app In]; intuition.
Qed.

Lemma attendance_check_in (data : AttData.t) (r : Discrepancy.t) :
  In r (attendance_check [] data) ->
  (r = regular_hours_mismatch data
   /\ Js.gt (PrimFloat.abs (Js.num_or_zero (AttData.total_regular_hours data)
                            - Js.num_or_zero (AttData.payroll_hours data))) 0.25 = true)
  \/ (r = overtime_hours_mismatch data
      /\ Js.gt (PrimFloat.abs (Js.num_or_zero (AttData.total_overtime_hours data)
                               - Js.num_or_zero (AttData.payroll_overtime data))) 0.25 = true).
Proof.
  rewrite attendance_check_kinds. unfold regular_records, overtime_records.
  destruct (Js.gt _ _); destruct (Js.gt _ _); cbn [app In]; intuition.
Qed.

Lemma deduction_check_in (m : gmap string Js.number) (e : Entry.t) (r : Discrepancy.t) :
  In r (deduction_check m [] e) ->
  exists kind label key dflt actual,
    In (kind, key, dflt, actual) deduction_checks /\
    r = deduction_mismatch e kind label
          (Js.num (Entry.basic_pay e) * Js.or_default (m !! key) dflt) (actual e) /\
    Js.gt (PrimFloat.abs
             (Js.num (actual e)
              - Js.num (Entry.basic_pay e) * Js.or_default (m !! key) dflt)) 0.01 = true.
Proof.
  unfold deduction_check, push, deduction_checks. cbv zeta.
  destruct (Js.gt (PrimFloat.abs (Js.num (Entry.sss_deduction e) - _)) 0.01) eqn:Es;
    destruct (Js.gt (PrimFloat.abs (Js.num (Entry.philhealth_deduction e) - _)) 0.01) eqn:Ep;
    destruct (Js.gt (PrimFloat.abs (Js.num (Entry.pagibig_deduction e) - _)) 0.01) eqn:Eg;
    cbn [app In]; intros Hin.
  all: repeat (destruct Hin as [<-|Hin]; [|]); try contradiction.
  all: first
         [ exists "sss_deduction_mismatch", "SSS deduction mismatch", "sss_rate", 0.045%float,
             Entry.sss_deduction;
           split; [cbn [In]; tauto | split; [reflexivity | assumption]]
         | exists "philhealth_deduction_mismatch", "PhilHealth deduction mismatch",
             "philhealth_rate", 0.0275%float, Entry.philhealth_deduction;
           split; [cbn [In]; tauto | split; [reflexivity | assumption]]
         | exists "pagibig_deduction_mismatch", "Pag-IBIG deduction mismatch",
             "pagibig_rate", 0.02%float, Entry.pagibig_deduction;
           split; [cbn [In]; tauto | split; [reflexivity | assumption]] ].
Qed.

(** A record of the run comes from the detector of its scope. *)
Lemma collect_results_in (parseFloat : string -> Js.number) (d : db) (periodId : Z)
    (reconciliationType : string) (r : Discrepancy.t) :
  In r (collect_results parseFloat d periodId reconciliationType) ->
  ((reconciliationType = "all" \/ reconciliationType = "payroll")
   /\ In r (runPayrollReconciliation d periodId))
  \/ ((reconciliationType = "all" \/ reconciliationType = "attendance")
      /\ In r (runAttendanceReconciliation d periodId))
  \/ ((reconciliationType = "all" \/ reconciliationType = "deductions")
      /\ In r (runDeductionReconciliation parseFloat d periodId)).
Proof.
  unfold collect_results. cbv zeta.
  destruct (String.eqb reconciliationType "all") eqn:Eall;
    destruct (String.eqb reconciliationType "payroll") eqn:Epay;
    destruct (String.eqb reconciliationType "attendance") eqn:Eatt;
    destruct (String.eqb reconciliationType "deductions") eqn:Eded;
    cbn [orb app]; rewrite ?in_app_iff; rewrite ?String.eqb_eq in *;
    cbn [In]; intuition.
Qed.

Lemma beyond_tolerance (a b tol : Js.number) :
  Js.gt (PrimFloat.abs (a - b)) tol = true -> Js.gt (PrimFloat.abs (b - a)) tol = true.
Proof. now rewrite (abs_sub_comm a b). Qed.

(** The shape of a record of the payroll detector. *)
Lemma payroll_record (d : db) (periodId : Z) (r : Discrepancy.t) :
  In r (runPayrollReconciliation d periodId) ->
  exists x,
    Discrepancy.expected_value r = Some x /\
    Discrepancy.variance r = Some (Js.num (Discrepancy.actual_value r) - x)%float /\
    Js.gt (PrimFloat.abs (Js.num (Discrepancy.actual_value r) - x)) 0.01 = true /\
    Discrepancy.type r = "payroll" /\
    In (Discrepancy.discrepancy_type r) ["gross_pay_mismatch"; "net_pay_mismatch"].
Proof.
  unfold runPayrollReconciliation. rewrite payroll_loop_flat_map. intros Hin.
  apply in_flat_map in Hin. destruct Hin as (e & _ & Hin).
  apply payroll_check_in in Hin. destruct Hin as [[-> Hgt]|[-> Hgt]].
  - exists (calculateExpectedGrossPay e). cbn. tauto.
  - exists (Js.num (Entry.gross_pay e) - Js.num (Entry.total_deductions e))%float.
    cbn. tauto.
Qed.

(** The shape of a record of the attendance detector. *)
Lemma attendance_record (d : db) (periodId : Z) (r : Discrepancy.t) :
  In r (runAttendanceReconciliation d periodId) ->
  exists x,
    Discrepancy.expected_value r = Some x /\
    Discrepancy.variance r = Some (Js.num (Discrepancy.actual_value r) - x)%float /\
    Js.gt (PrimFloat.abs (Js.num (Discrepancy.actual_value r) - x)) 0.25 = true /\
    Discrepancy.type r = "attendance" /\
    In (Discrepancy.discrepancy_type r) ["regular_hours_mismatch"; "overtime_hours_mismatch"].
Proof.
  unfold runAttendanceReconciliation.
  destruct (select_period d periodId) as [|period others]; [intros []|].
  rewrite attendance_loop_flat_map. intros Hin.
  apply in_flat_map in Hin. destruct Hin as (data & _ & Hin).
  apply attendance_check_in in Hin.
  destruct Hin as [[-> Hgt]|[-> Hgt]]; apply beyond_tolerance in Hgt.
  - exists (Js.num_or_zero (AttData.total_regular_hours data)). cbn. tauto.
  - exists (Js.num_or_zero (AttData.total_overtime_hours data)). cbn. tauto.
Qed.

(** The shape of a record of the deduction detector. *)
Lemma deduction_record (parseFloat : string -> Js.number) (d : db) (periodId : Z)
    (r : Discrepancy.t) :
  In r (runDeductionReconciliation parseFloat d periodId) ->
  exists x,
    Discrepancy.expected_value r = Some x /\
    Discrepancy.variance r = Some (Js.num (Discrepancy.actual_value r) - x)%float /\
    Js.gt (PrimFloat.abs (Js.num (Discrepancy.actual_value r) - x)) 0.01 = true /\
    Discrepancy.type r = "deductions" /\
    In (Discrepancy.discrepancy_type r)
       ["sss_deduction_mismatch"; "philhealth_deduction_mismatch";
        "pagibig_deduction_mismatch"].
Proof.
  unfold runDeductionReconciliation. rewrite deduction_loop_flat_map. intros Hin.
  apply in_flat_map in Hin. destruct Hin as (e & _ & Hin).
  apply deduction_check_in in Hin.
  destruct Hin as (kind & label & key & dflt & actual & Hcheck & -> & Hgt).
  eexists. cbn [Discrepancy.expected_value Discrepancy.variance
    Discrepancy.actual_value Discrepancy.type Discrepancy.discrepancy_type deduction_mismatch].
  repeat split; try reflexivity; try exact Hgt.
  unfold deduction_checks in Hcheck. cbn [In] in *.
  destruct Hcheck as [H|[H|[H|[]]]]; injection H as <- _ _ _; tauto.
Qed.

(** X1. Every record a run collects, whatever the scope, carries an
    expected value, and its variance is its actual value (read as a number)
    minus the expected one; the absolute variance exceeds the tolerance of
    the record's category: 0.25 for attendance, 0.01 for payroll and
    deductions.  The subtraction, the absolute value and the comparison are
    those of binary64. *)
Theorem collected_variance (parseFloat : string -> Js.number) (d : db) (periodId : Z)
    (reconciliationType : string) (r : Discrepancy.t) :
  In r (collect_results parseFloat d periodId reconciliationType) ->
  exists x v,
    Discrepancy.expected_value r = Some x /\
    Discrepancy.variance r = Some v /\
    v = (Js.num (Discrepancy.actual_value r) - x)%float /\
    Js.gt (PrimFloat.abs v) (tolerance (Discrepancy.type r)) = true.
Proof.
  intros Hin. apply collect_results_in in Hin.
  destruct Hin as [[_ Hin]|[[_ Hin]|[_ Hin]]].
  - apply payroll_record in Hin. destruct Hin as (x & Hx & Hv & Htol & -> & _).
    exists x, (Js.num (Discrepancy.actual_value r) - x)%float. tauto.
  - apply attendance_record in Hin. destruct Hin as (x & Hx & Hv & Htol & -> & _).
    exists x, (Js.num (Discrepancy.actual_value r) - x)%float. tauto.
  - apply deduction_record in Hin. destruct Hin as (x & Hx & Hv & Htol & -> & _).
    exists x, (Js.num (Discrepancy.actual_value r) - x)%float. tauto.
Qed.

Lemma collected_variance_witness :
  exists x v,
    Discrepancy.expected_value record_underpaid = Some x /\
    Discrepancy.variance record_underpaid = Some v /\
    v = (Js.num (Discrepancy.actual_value record_underpaid) - x)%float /\
    Js.gt (PrimFloat.abs v) (tolerance (Discrepancy.type record_underpaid)) = true.
Proof.
  apply (collected_variance parseFloat_sample db_two_mismatches 1 "all").
  vm_compute. left. reflexivity.
Defined.

(** X2. The category and the kind of every collected record form one of
    the seven pairs the detectors push; under a scope other than [all] the
    category of every record is the scope, and under a scope that is none
    of the four nothing is collected. *)
Theorem collected_kinds (parseFloat : string -> Js.number) (d : db) (periodId : Z)
    (reconciliationType : string) (r : Discrepancy.t) :
  In r (collect_results parseFloat d periodId reconciliationType) ->
  In (Discrepancy.type r, Discrepancy.discrepancy_type r) detector_kinds /\
  In reconciliationType scopes /\
  (reconciliationType <> "all" -> Discrepancy.type r = reconciliationType).
Proof.
  intros Hin. apply collect_results_in in Hin. unfold detector_kinds, scopes.
  destruct Hin as [[Hscope Hin]|[[Hscope Hin]|[Hscope Hin]]].
  - apply payroll_record in Hin. destruct Hin as (_ & _ & _ & _ & -> & Hkind).
    cbn [In] in Hkind. split; [|split].
    + destruct Hkind as [<-|[<-|[]]]; cbn [In]; tauto.
    + destruct Hscope as [->| ->]; cbn [In]; tauto.
    + intros Hne. destruct Hscope; congruence.
  - apply attendance_record in Hin. destruct Hin as (_ & _ & _ & _ & -> & Hkind).
    cbn [In] in Hkind. split; [|split].
    + destruct Hkind as [<-|[<-|[]]]; cbn [In]; tauto.
    + destruct Hscope as [->| ->]; cbn [In]; tauto.
    + intros Hne. destruct Hscope; congruence.
  - apply deduction_record in Hin. destruct Hin as (_ & _ & _ & _ & -> & Hkind).
    cbn [In] in Hkind. split; [|split].
    + destruct Hkind as [<-|[<-|[<-|[]]]]; cbn [In]; tauto.
    + destruct Hscope as [->| ->]; cbn [In]; tauto.
    + intros Hne. destruct Hscope; congruence.
Qed.

Lemma collected_kinds_witness :
  In (Discrepancy.type record_underpaid,
      Discrepancy.discrepancy_type record_underpaid)
     detector_kinds /\
  In "payroll" scopes /\
  ("payroll" <> "all" ->
   Discrepancy.type record_underpaid
   = "payroll").
Proof.
  apply (collected_kinds parseFloat_sample db_two_mismatches 1 "payroll").
  vm_compute. left. reflexivity.
Defined.

Lemma filter_category_all (category : string) (l : list Discrepancy.t) :
  (forall r, In r l -> Discrepancy.type r = category) ->
  List.filter (fun r => String.eqb (Discrepancy.type r) category) l = l.
Proof.
  intros Hall. apply filter_all. intros r Hr. rewrite (Hall r Hr). apply String.eqb_refl.
Qed.

Lemma filter_category_none (category other : string) (l : list Discrepancy.t) :
  other <> category ->
  (forall r, In r l -> Discrepancy.type r = other) ->
  List.filter (fun r => String.eqb (Discrepancy.type r) category) l = [].
Proof.
  intros Hne Hall. apply filter_none. intros r Hr. rewrite (Hall r Hr).
  now apply String.eqb_neq.
Qed.

Lemma payroll_category (d : db) (periodId : Z) (r : Discrepancy.t) :
  In r (runPayrollReconciliation d periodId) -> Discrepancy.type r = "payroll".
Proof. intros Hin. apply payroll_record in Hin. destruct Hin as (x & H). tauto. Qed.

Lemma attendance_category (d : db) (periodId : Z) (r : Discrepancy.t) :
  In r (runAttendanceReconciliation d periodId) -> Discrepancy.type r = "attendance".
Proof. intros Hin. apply attendance_record in Hin. destruct Hin as (x & H). tauto. Qed.

Lemma deduction_category (parseFloat : string -> Js.number) (d : db) (periodId : Z)
    (r : Discrepancy.t) :
  In r (runDeductionReconciliation parseFloat d periodId) -> Discrepancy.type r = "deductions".
Proof. intros Hin. apply deduction_record in Hin. destruct Hin as (x & H). tauto. Qed.

(** X3. The records of a run with scope [all] are those of the payroll
    detector, then those of the attendance detector, then those of the
    deduction detector; for each of the three categories, the records of
    that category in the run with scope [all] are, in the same order, the
    records of the run whose scope is the category. *)
Theorem scope_all_by_category (parseFloat : string -> Js.number) (d : db) (periodId : Z) :
  collect_results parseFloat d periodId "all"
  = runPayrollReconciliation d periodId
    ++ runAttendanceReconciliation d periodId
    ++ runDeductionReconciliation parseFloat d periodId /\
  Forall
    (fun category =>
       List.filter (fun r => String.eqb (Discrepancy.type r) category)
                   (collect_results parseFloat d periodId "all")
       = collect_results parseFloat d periodId category)
    ["payroll"; "attendance"; "deductions"].
Proof.
  assert (Hall : collect_results parseFloat d periodId "all"
                 = runPayrollReconciliation d periodId
                   ++ runAttendanceReconciliation d periodId
                   ++ runDeductionReconciliation parseFloat d periodId).
  { unfold collect_results. cbn [String.eqb Ascii.eqb Bool.eqb orb app].
    now rewrite <- app_assoc. }
  split; [exact Hall|]. rewrite Hall.
  pose proof (payroll_category d periodId) as Hp.
  pose proof (attendance_category d periodId) as Ha.
  pose proof (deduction_category parseFloat d periodId) as Hd.
  repeat constructor; rewrite !List.filter_app.
  - rewrite (filter_category_all _ _ Hp).
    rewrite (filter_category_none "payroll" "attendance" _ ltac:(discriminate) Ha).
    rewrite (filter_category_none "payroll" "deductions" _ ltac:(discriminate) Hd).
    unfold collect_results. cbn [String.eqb Ascii.eqb Bool.eqb orb app].
    now rewrite !app_nil_r.
  - rewrite (filter_category_all _ _ Ha).
    rewrite (filter_category_none "attendance" "payroll" _ ltac:(discriminate) Hp).
    rewrite (filter_category_none "attendance" "deductions" _ ltac:(discriminate) Hd).
    unfold collect_results. cbn [String.eqb Ascii.eqb Bool.eqb orb app].
    now rewrite !app_nil_r.
  - rewrite (filter_category_all _ _ Hd).
    rewrite (filter_category_none "deductions" "payroll" _ ltac:(discriminate) Hp).
    rewrite (filter_category_none "deductions" "attendance" _ ltac:(discriminate) Ha).
    unfold collect_results. cbn [String.eqb Ascii.eqb Bool.eqb orb app].
    reflexivity.
Qed.

(** ** What the routes leave alone *)

Lemma save_results_inputs (store_accepts : Log.t -> bool)
    (stored : Js.number -> option Q) (periodId : Z)
    (results : list Discrepancy.t) :
  forall d : db,
    same_inputs d (fst (save_results store_accepts stored d periodId results))
    /\ audit_logs (fst (save_results store_accepts stored d periodId results)) = audit_logs d.
Proof.
  induction results as [|x results IH]; intros d; cbn [save_results].
  - cbn [fst]. unfold same_inputs. tauto.
  - unfold createReconciliationLog. cbv zeta.
    destruct (store_accepts (new_log stored d (logData_of periodId x))).
    + destruct (IH (with_reconciliation_logs d
                      (reconciliation_logs d ++ [new_log stored d (logData_of periodId x)])))
        as [Hsame Haudit].
      split; [|exact Haudit]. unfold same_inputs in *. cbn in Hsame. exact Hsame.
    + cbn [fst]. unfold same_inputs. tauto.
Qed.

Lemma run_inputs (parseFloat : string -> Js.number) (store_accepts : Log.t -> bool)
    (stored : Js.number -> option Q)
    (d : db) (req : RunRequest.t) :
  same_inputs d (fst (run parseFloat store_accepts stored d req)).
Proof.
  unfold run. cbv zeta.
  destruct (select_period d (RunRequest.periodId req)) as [|p ps];
    [cbn [fst]; unfold same_inputs; tauto|].
  pose proof (save_results_inputs store_accepts stored (RunRequest.periodId req)
                (collect_results parseFloat d (RunRequest.periodId req)
                                 (reconciliationType_of req)) d) as [Hsame _].
  destruct (save_results _ _ _ _) as [d' [|]]; cbn [fst] in *; exact Hsame.
Qed.

Lemma resolve_inputs (now : Z) (d : db) (req : ResolveRequest.t) :
  same_inputs d (fst (resolve now d req)).
Proof.
  unfold resolve. cbv zeta.
  destruct (negb _); cbn [fst]; unfold same_inputs; cbn; tauto.
Qed.

Lemma collect_results_inputs (parseFloat : string -> Js.number) (d d' : db) (periodId : Z)
    (reconciliationType : string) :
  same_inputs d d' ->
  collect_results parseFloat d periodId reconciliationType
  = collect_results parseFloat d' periodId reconciliationType.
Proof.
  intros (Hper & Hemp & Hpay & Htime & Hset).
  unfold collect_results, runPayrollReconciliation, runAttendanceReconciliation,
    runDeductionReconciliation, select_payroll_entries, select_period, select_attendance,
    attendance_joined, getSystemSettings.
  now rewrite Hper, Hemp, Hpay, Htime, Hset.
Qed.

(** X4. The run and the resolve routes never write to the tables the
    detectors read (periods, employees, payroll entries, time entries,
    settings), whatever the request and whether it succeeds; hence the
    candidates of any run are the same after the request as before: a
    repeated run collects the same discrepancies again, resolved or not. *)
Theorem detectors_unaffected (parseFloat : string -> Js.number)
    (store_accepts : Log.t -> bool)
    (stored : Js.number -> option Q) (now : Z) (d : db) (run_req : RunRequest.t)
    (resolve_req : ResolveRequest.t) (periodId : Z) (reconciliationType : string) :
  same_inputs d (fst (run parseFloat store_accepts stored d run_req)) /\
  same_inputs d (fst (resolve now d resolve_req)) /\
  collect_results parseFloat (fst (run parseFloat store_accepts stored d run_req))
                  periodId reconciliationType
  = collect_results parseFloat d periodId reconciliationType /\
  collect_results parseFloat (fst (resolve now d resolve_req)) periodId reconciliationType
  = collect_results parseFloat d periodId reconciliationType.
Proof.
  pose proof (run_inputs parseFloat store_accepts stored d run_req) as Hrun.
  pose proof (resolve_inputs now d resolve_req) as Hres.
  repeat split; try apply Hrun; try apply Hres;
    symmetry; now apply collect_results_inputs.
Qed.

(** ** Refused requests and the audit trail *)

Lemma select_period_none (d : db) (periodId : Z) :
  select_period d periodId = []
  <-> (forall p, In p (payroll_periods d) -> Period.id p <> periodId).
Proof.
  unfold select_period. split.
  - intros Hnil p Hp Hid.
    assert (Hin : In p (List.filter (fun p => Z.eqb (Period.id p) periodId) (payroll_periods d))).
    { apply filter_In. split; [exact Hp | now apply Z.eqb_eq]. }
    rewrite Hnil in Hin. destruct Hin.
  - intros Hnone. apply filter_none. intros p Hp. now apply Z.eqb_neq, Hnone.
Qed.

(** X5. The run route answers 404 exactly when no period has the requested
    id, and then it leaves the whole store as it was: no record and no
    audit row is written. *)
Theorem run_not_found_iff (parseFloat : string -> Js.number) (store_accepts : Log.t -> bool)
    (stored : Js.number -> option Q)
    (d : db) (req : RunRequest.t) :
  (http_status (snd (run parseFloat store_accepts stored d req)) = 404%Z
   <-> (forall p, In p (payroll_periods d) -> Period.id p <> RunRequest.periodId req)) /\
  (http_status (snd (run parseFloat store_accepts stored d req)) = 404%Z ->
   run parseFloat store_accepts stored d req = (d, Failure 404 "Payroll period not found")).
Proof.
  rewrite <- select_period_none. unfold run. cbv zeta.
  destruct (select_period d (RunRequest.periodId req)) as [|p ps].
  - cbn [snd http_status]. tauto.
  - destruct (save_results _ _ _ _) as [d' [|]]; cbn [snd http_status];
      split; try split; try discriminate.
Qed.

(** X6. The resolve route refuses a request exactly when its status is
    neither [resolved] nor [ignored] (so [pending], to reopen a record, is
    refused); a refused request is answered 400 and leaves the whole store
    as it was. *)
Theorem resolve_refused_iff (now : Z) (d : db) (req : ResolveRequest.t) :
  (is_failure (snd (resolve now d req)) = true
   <-> ~ In (ResolveRequest.status req) ["resolved"; "ignored"]) /\
  (is_failure (snd (resolve now d req)) = true ->
   fst (resolve now d req) = d /\ http_status (snd (resolve now d req)) = 400%Z).
Proof.
  unfold resolve. cbv zeta.
  destruct (existsb (String.eqb (ResolveRequest.status req)) ["resolved"; "ignored"]) eqn:E;
    cbn [negb fst snd is_failure http_status].
  - apply existsb_exists in E. destruct E as (s & Hs & Heq).
    apply String.eqb_eq in Heq. subst s.
    split; [split; [discriminate | contradiction] | discriminate].
  - split; [|tauto]. split; [|reflexivity]. intros _ Hin.
    assert (Htrue : existsb (String.eqb (ResolveRequest.status req)) ["resolved"; "ignored"]
                    = true).
    { apply existsb_exists. exists (ResolveRequest.status req).
      split; [exact Hin | apply String.eqb_refl]. }
    congruence.
Qed.

(** X7. A request writes one row to the audit trail exactly when it is
    answered with success: a completed run appends the row of the run with
    the scope and the number of discrepancies found, an accepted resolution
    appends the row of the resolution with the status and the note, and a
    failed or refused request appends nothing; earlier audit rows are
    kept. *)
Theorem audit_trail (parseFloat : string -> Js.number) (store_accepts : Log.t -> bool)
    (stored : Js.number -> option Q)
    (now : Z) (d : db) (run_req : RunRequest.t) (resolve_req : ResolveRequest.t) :
  audit_logs (fst (run parseFloat store_accepts stored d run_req))
  = audit_logs d
    ++ match snd (run parseFloat store_accepts stored d run_req) with
       | RunCompleted discrepanciesFound _ => [run_audit run_req discrepanciesFound]
       | _ => []
       end /\
  audit_logs (fst (resolve now d resolve_req))
  = audit_logs d
    ++ match snd (resolve now d resolve_req) with
       | ResolveCompleted => [resolve_audit resolve_req]
       | _ => []
       end.
Proof.
  split.
  - unfold run. cbv zeta.
    destruct (select_period d (RunRequest.periodId run_req)) as [|p ps];
      [cbn [fst snd]; now rewrite app_nil_r|].
    pose proof (save_results_inputs store_accepts stored (RunRequest.periodId run_req)
                  (collect_results parseFloat d (RunRequest.periodId run_req)
                                   (reconciliationType_of run_req)) d) as [_ Haudit].
    destruct (save_results _ _ _ _) as [d' [|]]; cbn [fst snd] in *.
    + unfold logAction, run_audit. cbn [audit_logs with_audit_logs]. now rewrite Haudit.
    + now rewrite app_nil_r.
  - unfold resolve. cbv zeta.
    destruct (negb _); cbn [fst snd]; [now rewrite app_nil_r | reflexivity].
Qed.

(** ** Resolutions *)

Lemma update_logs_twice (status1 status2 : string) (user1 user2 now1 now2 : Z)
    (notes1 notes2 : option string) (logId : Z) (logs : list Log.t) :
  update_logs status2 user2 now2 notes2 logId
              (update_logs status1 user1 now1 notes1 logId logs)
  = update_logs status2 user2 now2 notes2 logId logs.
Proof.
  unfold update_logs. rewrite map_map. apply map_ext. intros row.
  destruct (Z.eqb (Log.id row) logId) eqn:E.
  - cbn [update_log Log.id]. rewrite E. reflexivity.
  - now rewrite E.
Qed.

(** X8. The last resolution wins: when two accepted requests name the same
    record id, the records after both are the records after the second one
    alone; nothing of the first resolution (status, resolver, instant, note)
    remains in the table. *)
Theorem last_resolution_wins (now1 now2 : Z) (d : db) (first second : ResolveRequest.t) :
  In (ResolveRequest.status first) ["resolved"; "ignored"] ->
  In (ResolveRequest.status second) ["resolved"; "ignored"] ->
  ResolveRequest.logId first = ResolveRequest.logId second ->
  reconciliation_logs (fst (resolve now2 (fst (resolve now1 d first)) second))
  = reconciliation_logs (fst (resolve now2 d second)).
Proof.
  intros H1 H2 Hid.
  destruct (resolve_valid now2 (fst (resolve now1 d first)) second H2) as [_ ->].
  destruct (resolve_valid now1 d first H1) as [_ ->].
  destruct (resolve_valid now2 d second H2) as [_ ->].
  rewrite Hid. apply update_logs_twice.
Qed.

Lemma last_resolution_wins_witness :
  reconciliation_logs
    (fst (resolve 2000 (fst (resolve 1000 db_resolved request_ignore)) request_resolve))
  = reconciliation_logs (fst (resolve 2000 db_resolved request_resolve)).
Proof.
  apply (last_resolution_wins 1000 2000 db_resolved request_ignore request_resolve).
  - right. left. reflexivity.
  - left. reflexivity.
  - reflexivity.
Defined.

(** X9. No request to the resolve route, accepted or refused, changes what
    was found: the records keep their number, their order, their ids and
    the columns of the finding (period, category, employee, kind, expected
    and actual value, variance, description). *)
Theorem resolve_keeps_findings (now : Z) (d : db) (req : ResolveRequest.t) :
  map finding (reconciliation_logs (fst (resolve now d req)))
  = map finding (reconciliation_logs d).
Proof.
  unfold resolve. cbv zeta. destruct (negb _); cbn [fst]; [reflexivity|].
  cbn [logAction reconciliation_logs with_audit_logs with_reconciliation_logs].
  unfold update_logs. rewrite map_map. apply map_ext. intros row.
  destruct (Z.eqb (Log.id row) (ResolveRequest.logId req)); reflexivity.
Qed.

Lemma save_results_statuses (store_accepts : Log.t -> bool)
    (stored : Js.number -> option Q) (periodId : Z)
    (results : list Discrepancy.t) :
  forall d : db,
    List.Forall known_status (reconciliation_logs d) ->
    List.Forall known_status
                (reconciliation_logs (fst (save_results store_accepts stored d periodId results))).
Proof.
  induction results as [|x results IH]; intros d Hknown; cbn [save_results]; [exact Hknown|].
  unfold createReconciliationLog. cbv zeta.
  destruct (store_accepts (new_log stored d (logData_of periodId x))); [|exact Hknown].
  apply IH. cbn [reconciliation_logs with_reconciliation_logs].
  apply List.Forall_app. split; [exact Hknown|].
  constructor; [|constructor]. unfold known_status. cbn. tauto.
Qed.

(** X10. The status of a record is always one of [pending], [resolved],
    [ignored]: if this holds of every record of the store, it holds after
    any run, completed or failed (a new record is pending), and after any
    request to the resolve route, accepted or refused. *)
Theorem status_invariant (parseFloat : string -> Js.number) (store_accepts : Log.t -> bool)
    (stored : Js.number -> option Q)
    (now : Z) (d : db) (run_req : RunRequest.t) (resolve_req : ResolveRequest.t) :
  List.Forall known_status (reconciliation_logs d) ->
  List.Forall known_status
              (reconciliation_logs (fst (run parseFloat store_accepts stored d run_req))) /\
  List.Forall known_status (reconciliation_logs (fst (resolve now d resolve_req))).
Proof.
  intros Hknown. split.
  - unfold run. cbv zeta.
    destruct (select_period d (RunRequest.periodId run_req)) as [|p ps]; [exact Hknown|].
    pose proof (save_results_statuses store_accepts stored (RunRequest.periodId run_req)
                  (collect_results parseFloat d (RunRequest.periodId run_req)
                                   (reconciliationType_of run_req)) d Hknown) as Hsaved.
    destruct (save_results _ _ _ _) as [d' [|]]; exact Hsaved.
  - unfold resolve. cbv zeta.
    destruct (existsb (String.eqb (ResolveRequest.status resolve_req)) ["resolved"; "ignored"])
      eqn:E; cbn [negb fst]; [|exact Hknown].
    cbn [logAction reconciliation_logs with_audit_logs with_reconciliation_logs].
    apply existsb_exists in E. destruct E as (s & Hs & Heq).
    apply String.eqb_eq in Heq. subst s.
    unfold update_logs. apply List.Forall_forall. intros row Hrow.
    apply in_map_iff in Hrow. destruct Hrow as (row0 & <- & Hrow0).
    destruct (Z.eqb (Log.id row0) (ResolveRequest.logId resolve_req)).
    + unfold known_status. cbn [update_log Log.status]. cbn [In] in *. tauto.
    + revert row0 Hrow0. now apply List.Forall_forall.
Qed.

Lemma status_invariant_witness :
  List.Forall known_status
              (reconciliation_logs
                 (fst (run parseFloat_sample store_reliable Js.exact db_resolved
                           request_missing_period))) /\
  List.Forall known_status (reconciliation_logs (fst (resolve 1000 db_resolved request_ignore))).
Proof.
  apply (status_invariant parseFloat_sample store_reliable Js.exact 1000 db_resolved
           request_missing_period request_ignore).
  constructor; [|constructor]. unfold known_status. cbn. tauto.
Defined.

(** ** Repeated runs *)

Lemma run_reliable (parseFloat : string -> Js.number) (store_accepts : Log.t -> bool)
    (stored : Js.number -> option Q)
    (d : db) (req : RunRequest.t) :
  (forall row, store_accepts row = true) ->
  select_period d (RunRequest.periodId req) <> [] ->
  snd (run parseFloat store_accepts stored d req)
  = RunCompleted
      (length (collect_results parseFloat d (RunRequest.periodId req)
                               (reconciliationType_of req)))
      (collect_results parseFloat d (RunRequest.periodId req) (reconciliationType_of req)) /\
  exists rows,
    reconciliation_logs (fst (run parseFloat store_accepts stored d req))
    = reconciliation_logs d ++ rows /\
    Forall2 (records stored (RunRequest.periodId req))
            (collect_results parseFloat d (RunRequest.periodId req) (reconciliationType_of req))
            rows.
Proof.
  intros Hacc Hperiod. unfold run. cbv zeta.
  destruct (select_period d (RunRequest.periodId req)) as [|p ps]; [contradiction|].
  set (results := collect_results parseFloat d (RunRequest.periodId req)
                                  (reconciliationType_of req)).
  destruct (save_results_prefix store_accepts stored (RunRequest.periodId req) results d)
    as (saved & rest & rows & Hsplit & Hlogs & Hrec & Hdone & Hrefused).
  destruct rest as [|x rest'].
  - rewrite app_nil_r in Hsplit. subst saved.
    destruct (save_results store_accepts stored d (RunRequest.periodId req) results) as [d' ok].
    cbn [fst snd] in *. rewrite (Hdone eq_refl). cbn [fst snd].
    split; [reflexivity|]. exists rows. split; [exact Hlogs | exact Hrec].
  - destruct (Hrefused x rest' eq_refl) as [_ Hfalse]. rewrite Hacc in Hfalse.
    discriminate Hfalse.
Qed.

(** X11. The runner does not deduplicate: with a store that performs every
    insert and a period that exists, a run completes and records every
    candidate as a pending row after the rows already there, and the same
    request run again completes with the same candidates and records them
    a second time, after the rows of the first run. *)
Theorem rerun_records_again (parseFloat : string -> Js.number)
    (store_accepts : Log.t -> bool)
    (stored : Js.number -> option Q) (d : db) (req : RunRequest.t) :
  (forall row, store_accepts row = true) ->
  select_period d (RunRequest.periodId req) <> [] ->
  exists candidates rows1 rows2,
    candidates
    = collect_results parseFloat d (RunRequest.periodId req) (reconciliationType_of req) /\
    snd (run parseFloat store_accepts stored d req) = RunCompleted (length candidates) candidates /\
    snd (run parseFloat store_accepts stored (fst (run parseFloat store_accepts stored d req)) req)
    = RunCompleted (length candidates) candidates /\
    reconciliation_logs (fst (run parseFloat store_accepts stored d req))
    = reconciliation_logs d ++ rows1 /\
    reconciliation_logs
      (fst (run parseFloat store_accepts stored
                (fst (run parseFloat store_accepts stored d req)) req))
    = reconciliation_logs d ++ rows1 ++ rows2 /\
    Forall2 (records stored (RunRequest.periodId req)) candidates rows1 /\
    Forall2 (records stored (RunRequest.periodId req)) candidates rows2.
Proof.
  intros Hacc Hperiod.
  destruct (run_reliable parseFloat store_accepts stored d req Hacc Hperiod)
    as (Hresp1 & rows1 & Hlogs1 & Hrec1).
  pose proof (run_inputs parseFloat store_accepts stored d req) as Hsame.
  assert (Hperiod' : select_period (fst (run parseFloat store_accepts stored d req))
                                   (RunRequest.periodId req) <> []).
  { unfold select_period in *. destruct Hsame as (<- & _). exact Hperiod. }
  destruct (run_reliable parseFloat store_accepts stored _ req Hacc Hperiod')
    as (Hresp2 & rows2 & Hlogs2 & Hrec2).
  rewrite <- (collect_results_inputs parseFloat d _ _ _ Hsame) in Hresp2, Hrec2.
  eexists _, rows1, rows2. split; [reflexivity|].
  repeat split; try assumption.
  now rewrite Hlogs2, Hlogs1, <- app_assoc.
Qed.

Lemma store_reliable_accepts : forall row, store_reliable row = true.
Proof. reflexivity. Defined.

Lemma rerun_records_again_witness :
  exists candidates rows1 rows2,
    candidates
    = collect_results parseFloat_sample db_two_mismatches
                      (RunRequest.periodId request_payroll)
                      (reconciliationType_of request_payroll) /\
    snd (run parseFloat_sample store_reliable Js.exact db_two_mismatches request_payroll)
    = RunCompleted (length candidates) candidates /\
    snd (run parseFloat_sample store_reliable Js.exact
             (fst (run parseFloat_sample store_reliable Js.exact db_two_mismatches request_payroll))
             request_payroll)
    = RunCompleted (length candidates) candidates /\
    reconciliation_logs
      (fst (run parseFloat_sample store_reliable Js.exact db_two_mismatches request_payroll))
    = reconciliation_logs db_two_mismatches ++ rows1 /\
    reconciliation_logs
      (fst (run parseFloat_sample store_reliable Js.exact
                (fst (run parseFloat_sample store_reliable Js.exact db_two_mismatches
                          request_payroll))
                request_payroll))
    = reconciliation_logs db_two_mismatches ++ rows1 ++ rows2 /\
    Forall2 (records Js.exact (RunRequest.periodId request_payroll)) candidates rows1 /\
    Forall2 (records Js.exact (RunRequest.periodId request_payroll)) candidates rows2.
Proof.
  apply (rerun_records_again parseFloat_sample store_reliable Js.exact db_two_mismatches
           request_payroll).
  - exact store_reliable_accepts.
  - vm_compute. discriminate.
Defined.

(** ** The results route *)

Lemma group_results_lookup (rows : list ResultRow.t) (type : string) :
  group_results rows !! type
  = match List.filter (fun r => String.eqb (Log.reconciliation_type (ResultRow.log r)) type)
                      rows with
    | [] => None
    | group => Some group
    end.
Proof.
  unfold group_results.
  induction rows as [|x rows IH] using rev_ind; [apply lookup_empty|].
  rewrite fold_left_app, List.filter_app. cbn [fold_left List.filter].
  set (acc := fold_left _ rows ∅) in *.
  set (tx := Log.reconciliation_type (ResultRow.log x)).
  assert (Hprev : forall t,
             default [] ((match acc !! tx with
                          | Some _ => acc
                          | None => <[tx := []]> acc
                          end) !! t)
             = default [] (acc !! t)).
  { intros t. destruct (acc !! tx) eqn:Etx; [reflexivity|].
    destruct (decide (tx = t)) as [<-|Hne].
    - now rewrite lookup_insert_eq, Etx.
    - now rewrite lookup_insert_ne. }
  destruct (String.eqb tx type) eqn:E.
  - apply String.eqb_eq in E. subst type. rewrite lookup_insert_eq, Hprev, IH.
    destruct (List.filter _ rows); reflexivity.
  - apply String.eqb_neq in E. rewrite lookup_insert_ne by exact E.
    rewrite app_nil_r.
    destruct (acc !! tx) eqn:Etx; [exact IH|].
    rewrite lookup_insert_ne by exact E. exact IH.
Qed.

(** X12. The grouping of the results route loses and repeats nothing: the
    group of a category holds exactly the rows of that category among the
    filtered results, in their order, and a category without rows has no
    group (no empty list is returned). *)
Theorem results_grouping (by_created_at_desc : list ResultRow.t -> list ResultRow.t)
    (d : db) (periodId : Z) (status type : option string) (category : string) :
  Results.results (getResults by_created_at_desc d periodId status type) !! category
  = match List.filter
            (fun r => String.eqb (Log.reconciliation_type (ResultRow.log r)) category)
            (filteredResults by_created_at_desc d periodId status type) with
    | [] => None
    | group => Some group
    end.
Proof. unfold getResults. cbn [Results.results]. apply group_results_lookup. Qed.

Lemma count_status_cons (status : string) (r : ResultRow.t) (rows : list ResultRow.t) :
  count_status status (r :: rows)
  = ((if String.eqb (Log.status (ResultRow.log r)) status then 1 else 0)
     + count_status status rows)%nat.
Proof.
  unfold count_status. cbn [List.filter].
  destruct (String.eqb (Log.status (ResultRow.log r)) status); reflexivity.
Qed.

Lemma status_counts (rows : list ResultRow.t) :
  (count_status "pending" rows + count_status "resolved" rows + count_status "ignored" rows
   <= length rows)%nat /\
  (List.Forall (fun r => known_status (ResultRow.log r)) rows ->
   (count_status "pending" rows + count_status "resolved" rows + count_status "ignored" rows
    = length rows)%nat).
Proof.
  induction rows as [|r rows [IHle IHeq]]; [split; [apply Nat.le_refl | reflexivity]|].
  rewrite !count_status_cons. cbn [length].
  destruct (String.eqb (Log.status (ResultRow.log r)) "pending") eqn:Ep;
    destruct (String.eqb (Log.status (ResultRow.log r)) "resolved") eqn:Er;
    destruct (String.eqb (Log.status (ResultRow.log r)) "ignored") eqn:Ei;
    rewrite ?String.eqb_eq in *; try congruence.
  all: split; [lia|]; intros Hknown; apply List.Forall_cons_iff in Hknown;
    destruct Hknown as [Hr Hrows]; specialize (IHeq Hrows); try lia.
  unfold known_status in Hr. cbn [In] in Hr. apply String.eqb_neq in Ep, Er, Ei.
  exfalso. intuition congruence.
Qed.

(** X13. In the summary of the results route the pending, resolved and
    ignored counts never add up to more than the total, and they add up to
    exactly the total when every returned record has one of these three
    statuses. *)
Theorem summary_counts (by_created_at_desc : list ResultRow.t -> list ResultRow.t)
    (d : db) (periodId : Z) (status type : option string) :
  let summary := Results.summary (getResults by_created_at_desc d periodId status type) in
  (Summary.pending summary + Summary.resolved summary + Summary.ignored summary
   <= Summary.total summary)%nat /\
  (List.Forall (fun r => known_status (ResultRow.log r))
               (filteredResults by_created_at_desc d periodId status type) ->
   (Summary.pending summary + Summary.resolved summary + Summary.ignored summary
    = Summary.total summary)%nat).
Proof.
  cbv zeta. unfold getResults.
  cbn [Results.summary Summary.pending Summary.resolved Summary.ignored Summary.total].
  apply status_counts.
Qed.

Lemma Qabs_zero (x : Q) : Qabs x == 0 <-> x == 0.
Proof.
  split.
  - apply Qabs_case; intros; lra.
  - intros ->. reflexivity.
Qed.

Lemma total_variance_from (rows : list ResultRow.t) :
  forall a : Q,
    0 <= a ->
    a <= fold_left (fun sum r => sum + Qabs (Js.or_zero (Log.variance (ResultRow.log r))))
                   rows a /\
    (fold_left (fun sum r => sum + Qabs (Js.or_zero (Log.variance (ResultRow.log r))))
               rows a == 0
     <-> a == 0 /\
         List.Forall (fun r => Js.toNumber (Log.variance (ResultRow.log r)) == 0) rows).
Proof.
  induction rows as [|r rows IH]; intros a Ha; cbn [fold_left].
  - split; [lra|]. split; [intros H; split; [exact H | constructor] | tauto].
  - pose proof (Qabs_nonneg (Js.or_zero (Log.variance (ResultRow.log r)))) as Hr.
    destruct (IH (a + Qabs (Js.or_zero (Log.variance (ResultRow.log r))))) as [Hle Hzero];
      [lra|].
    split; [lra|]. rewrite Hzero, List.Forall_cons_iff.
    pose proof (Qabs_zero (Js.or_zero (Log.variance (ResultRow.log r)))) as Habs.
    pose proof (or_zero_toNumber (Log.variance (ResultRow.log r))) as Hnum.
    split.
    + intros [Hsum Hrows]. split; [lra|]. split; [|exact Hrows].
      rewrite <- Hnum. apply Habs. lra.
    + intros (Hzero_a & Hzero_r & Hrows). split; [|exact Hrows].
      rewrite <- Hnum in Hzero_r. apply Habs in Hzero_r. lra.
Qed.

(** X14. The total variance of the summary is never negative, and it is
    zero exactly when the variance of every returned record is null or
    zero. *)
Theorem summary_total_variance (by_created_at_desc : list ResultRow.t -> list ResultRow.t)
    (d : db) (periodId : Z) (status type : option string) :
  let summary := Results.summary (getResults by_created_at_desc d periodId status type) in
  0 <= Summary.totalVariance summary /\
  (Summary.totalVariance summary == 0
   <-> List.Forall (fun r => Js.toNumber (Log.variance (ResultRow.log r)) == 0)
                   (filteredResults by_created_at_desc d periodId status type)).
Proof.
  cbv zeta. unfold getResults. cbn [Results.summary Summary.totalVariance].
  unfold total_variance.
  destruct (total_variance_from (filteredResults by_created_at_desc d periodId status type) 0)
    as [Hle Hzero]; [lra|].
  split; [exact Hle|]. rewrite Hzero. split; [tauto | intros H; split; [reflexivity | exact H]].
Qed.

(** X15. When the request gives a type, every returned row has that
    category, and the response holds at most one group: the group of the
    type, with all returned rows, when there are any. *)
Theorem results_of_type (by_created_at_desc : list ResultRow.t -> list ResultRow.t)
    (d : db) (periodId : Z) (status type : option string) (t : string) :
  given type = Some t ->
  List.Forall (fun r => Log.reconciliation_type (ResultRow.log r) = t)
              (filteredResults by_created_at_desc d periodId status type) /\
  forall category,
    Results.results (getResults by_created_at_desc d periodId status type) !! category
    = if String.eqb category t
      then match filteredResults by_created_at_desc d periodId status type with
           | [] => None
           | rows => Some rows
           end
      else None.
Proof.
  intros Hgiven.
  assert (Hall : forall r, In r (filteredResults by_created_at_desc d periodId status type) ->
                           Log.reconciliation_type (ResultRow.log r) = t).
  { unfold filteredResults. cbv zeta. rewrite Hgiven. intros r Hr.
    apply filter_In in Hr. now apply String.eqb_eq. }
  split; [now apply List.Forall_forall|].
  intros category. unfold getResults. cbn [Results.results].
  rewrite group_results_lookup.
  destruct (String.eqb category t) eqn:E.
  - apply String.eqb_eq in E. subst category.
    rewrite filter_all; [reflexivity|].
    intros r Hr. rewrite (Hall r Hr). apply String.eqb_refl.
  - apply String.eqb_neq in E. rewrite filter_none; [reflexivity|].
    intros r Hr. rewrite (Hall r Hr). apply String.eqb_neq. congruence.
Qed.

Lemma results_of_type_witness :
  List.Forall (fun r => Log.reconciliation_type (ResultRow.log r) = "payroll")
              (filteredResults (@rev ResultRow.t) db_offenders 1 None (Some "payroll")) /\
  forall category,
    Results.results (getResults (@rev ResultRow.t) db_offenders 1 None (Some "payroll"))
      !! category
    = if String.eqb category "payroll"
      then match filteredResults (@rev ResultRow.t) db_offenders 1 None (Some "payroll") with
           | [] => None
           | rows => Some rows
           end
      else None.
Proof.
  apply (results_of_type (@rev ResultRow.t) db_offenders 1 None (Some "payroll") "payroll").
  reflexivity.
Defined.

(** ** The results route after a run and after a resolution *)

Lemma filter_length_perm {A : Type} (p : A -> bool) (l l' : list A) :
  Permutation l l' -> length (List.filter p l) = length (List.filter p l').
Proof.
  induction 1 as [|x l l' _ IH|x y l|l l' l'' _ IH1 _ IH2]; cbn [List.filter].
  - reflexivity.
  - destruct (p x); cbn [length]; now rewrite IH.
  - destruct (p x), (p y); reflexivity.
  - now rewrite IH1.
Qed.

Lemma filter_of_map {A B : Type} (f : A -> B) (p : B -> bool) (l : list A) :
  List.filter p (map f l) = map f (List.filter (fun x => p (f x)) l).
Proof.
  induction l as [|x l IH]; cbn [map List.filter]; [reflexivity|].
  rewrite IH. now destruct (p (f x)).
Qed.

Lemma filter_twice {A : Type} (p q : A -> bool) (l : list A) :
  List.filter p (List.filter q l) = List.filter (fun x => q x && p x) l.
Proof.
  induction l as [|x l IH]; cbn [List.filter]; [reflexivity|].
  destruct (q x); cbn [andb List.filter]; rewrite IH; reflexivity.
Qed.

(** With employee ids as keys, the left join of the records with the
    employees has one row per record. *)
Lemma left_join_employees (logs : list Log.t) (emps : list Employee.t) :
  List.NoDup (map Employee.id emps) ->
  map fst (left_join (fun rl e => Z.eqb (Log.employee_id rl) (Employee.id e)) logs emps)
  = logs.
Proof.
  intros Hnd. unfold left_join. rewrite map_flat_map.
  transitivity (flat_map (fun rl : Log.t => [rl]) logs);
    [|rewrite flat_map_single; apply map_id].
  apply flat_map_ext. intros rl. rewrite map_map. cbn [fst].
  destruct (filter_key_unique Employee.id emps (Log.employee_id rl) Hnd)
    as [[-> _]|(e & _ & _ & ->)]; reflexivity.
Qed.

(** The rows returned for a period without a status filter, counted by a
    test on the record. *)
Lemma count_returned (by_created_at_desc : list ResultRow.t -> list ResultRow.t)
    (d : db) (periodId : Z) (test : Log.t -> bool) :
  (forall rows, Permutation (by_created_at_desc rows) rows) ->
  List.NoDup (map Employee.id (employees d)) ->
  length (List.filter (fun r => test (ResultRow.log r))
                      (getReconciliationLogs by_created_at_desc d periodId None))
  = length (List.filter
              (fun rl => Z.eqb (Log.payroll_period_id rl) periodId && test rl)
              (reconciliation_logs d)).
Proof.
  intros Hperm Hnd. unfold getReconciliationLogs. cbn [given].
  rewrite (filter_length_perm _ _ _ (Hperm _)).
  rewrite !filter_of_map, !length_map. cbn [result_row ResultRow.log].
  rewrite <- (left_join_employees (reconciliation_logs d) (employees d) Hnd) at 2.
  rewrite filter_of_map, length_map.
  rewrite filter_twice. f_equal. apply List.filter_ext. intros joined.
  now rewrite andb_true_r.
Qed.

Lemma returned_total (by_created_at_desc : list ResultRow.t -> list ResultRow.t)
    (d : db) (periodId : Z) :
  (forall rows, Permutation (by_created_at_desc rows) rows) ->
  List.NoDup (map Employee.id (employees d)) ->
  length (filteredResults by_created_at_desc d periodId None None)
  = length (List.filter (fun rl => Z.eqb (Log.payroll_period_id rl) periodId)
                        (reconciliation_logs d)).
Proof.
  intros Hperm Hnd. unfold filteredResults. cbn [given].
  rewrite <- (List.filter_true (getReconciliationLogs by_created_at_desc d periodId None)).
  rewrite (count_returned by_created_at_desc d periodId (fun _ => true) Hperm Hnd).
  f_equal. apply List.filter_ext. intros rl. apply andb_true_r.
Qed.

Lemma returned_status (by_created_at_desc : list ResultRow.t -> list ResultRow.t)
    (d : db) (periodId : Z) (status : string) :
  (forall rows, Permutation (by_created_at_desc rows) rows) ->
  List.NoDup (map Employee.id (employees d)) ->
  count_status status (filteredResults by_created_at_desc d periodId None None)
  = length (List.filter
              (fun rl => Z.eqb (Log.payroll_period_id rl) periodId
                         && String.eqb (Log.status rl) status)
              (reconciliation_logs d)).
Proof.
  intros Hperm Hnd. unfold count_status, filteredResults. cbn [given].
  apply (count_returned by_created_at_desc d periodId
           (fun rl => String.eqb (Log.status rl) status) Hperm Hnd).
Qed.

Lemma run_completed (parseFloat : string -> Js.number) (store_accepts : Log.t -> bool)
    (stored : Js.number -> option Q)
    (d : db) (req : RunRequest.t) (n : nat) (results : list Discrepancy.t) :
  snd (run parseFloat store_accepts stored d req) = RunCompleted n results ->
  n = length results /\
  exists rows,
    reconciliation_logs (fst (run parseFloat store_accepts stored d req))
    = reconciliation_logs d ++ rows /\
    Forall2 (records stored (RunRequest.periodId req)) results rows.
Proof.
  unfold run. cbv zeta.
  destruct (select_period d (RunRequest.periodId req)) as [|p ps]; [discriminate|].
  set (candidates := collect_results parseFloat d (RunRequest.periodId req)
                                     (reconciliationType_of req)).
  destruct (save_results_prefix store_accepts stored (RunRequest.periodId req) candidates d)
    as (saved & rest & rows & Hsplit & Hlogs & Hrec & Hdone & Hrefused).
  destruct (save_results store_accepts stored d (RunRequest.periodId req) candidates) as [d' ok].
  cbn [fst snd] in *. destruct ok; [|discriminate].
  intros Hresp. injection Hresp as <- <-. split; [reflexivity|].
  destruct rest as [|x rest'].
  - rewrite app_nil_r in Hsplit. subst saved. exists rows. split; assumption.
  - destruct (Hrefused x rest' eq_refl) as [Hfalse _]. discriminate Hfalse.
Qed.

Lemma recorded_rows_counts (stored : Js.number -> option Q) (periodId : Z)
    (results : list Discrepancy.t) (rows : list Log.t) :
  Forall2 (records stored periodId) results rows ->
  forall status,
    length (List.filter
              (fun rl => Z.eqb (Log.payroll_period_id rl) periodId
                         && String.eqb (Log.status rl) status)
              rows)
    = (if String.eqb "pending" status then length results else 0%nat)
    /\ length (List.filter (fun rl => Z.eqb (Log.payroll_period_id rl) periodId) rows)
       = length results.
Proof.
  induction 1 as [|x row results rows Hrec _ IH]; intros status.
  - destruct (String.eqb "pending" status); split; reflexivity.
  - destruct (IH status) as [IHs IHt]. unfold records in Hrec.
    destruct Hrec as (Hperiod & _ & _ & _ & _ & _ & _ & _ & Hstatus & _).
    cbn [List.filter]. rewrite Hperiod, Hstatus, Z.eqb_refl. cbn [andb length].
    destruct (String.eqb "pending" status); cbn [length]; now rewrite ?IHs, ?IHt.
Qed.

(** X16. What a completed run reports is what the results route then
    counts: when employee ids are keys and the run of a period answers with
    [discrepanciesFound = n], the summary of the unfiltered results of that
    period has a total and a pending count larger by n than before the run,
    and the same resolved and ignored counts. *)
Theorem results_after_run (parseFloat : string -> Js.number) (store_accepts : Log.t -> bool)
    (stored : Js.number -> option Q)
    (by_created_at_desc : list ResultRow.t -> list ResultRow.t)
    (d : db) (req : RunRequest.t) (n : nat) (results : list Discrepancy.t) :
  (forall rows, Permutation (by_created_at_desc rows) rows) ->
  List.NoDup (map Employee.id (employees d)) ->
  snd (run parseFloat store_accepts stored d req) = RunCompleted n results ->
  let before :=
    Results.summary (getResults by_created_at_desc d (RunRequest.periodId req) None None) in
  let after :=
    Results.summary
      (getResults by_created_at_desc (fst (run parseFloat store_accepts stored d req))
                  (RunRequest.periodId req) None None) in
  Summary.total after = (Summary.total before + n)%nat /\
  Summary.pending after = (Summary.pending before + n)%nat /\
  Summary.resolved after = Summary.resolved before /\
  Summary.ignored after = Summary.ignored before.
Proof.
  intros Hperm Hnd Hresp. cbv zeta. unfold getResults.
  cbn [Results.summary Summary.total Summary.pending Summary.resolved Summary.ignored].
  destruct (run_completed parseFloat store_accepts stored d req n results Hresp)
    as (-> & rows & Hlogs & Hrec).
  pose proof (run_inputs parseFloat store_accepts stored d req) as (_ & Hemp & _).
  assert (Hnd' : List.NoDup
                   (map Employee.id (employees (fst (run parseFloat store_accepts stored d req)))))
    by now rewrite <- Hemp.
  rewrite !(returned_total by_created_at_desc _ _ Hperm Hnd').
  rewrite !(returned_total by_created_at_desc _ _ Hperm Hnd).
  rewrite !(returned_status by_created_at_desc _ _ _ Hperm Hnd').
  rewrite !(returned_status by_created_at_desc _ _ _ Hperm Hnd).
  rewrite Hlogs, !List.filter_app, !length_app.
  destruct (recorded_rows_counts stored _ _ _ Hrec "pending") as [-> ->].
  destruct (recorded_rows_counts stored _ _ _ Hrec "resolved") as [-> _].
  destruct (recorded_rows_counts stored _ _ _ Hrec "ignored") as [-> _].
  cbn [String.eqb Ascii.eqb Bool.eqb]. lia.
Qed.

Lemma rev_is_permutation : forall rows : list ResultRow.t, Permutation (rev rows) rows.
Proof. intros rows. symmetry. apply Permutation_rev. Defined.

Lemma db_two_mismatches_keys : List.NoDup (map Employee.id (employees db_two_mismatches)).
Proof.
  cbn [map db_two_mismatches employees].
  repeat (constructor; [cbn [In]; intuition discriminate|]); constructor.
Defined.

Lemma results_after_run_witness :
  let before :=
    Results.summary (getResults (@rev ResultRow.t) db_two_mismatches
                                (RunRequest.periodId request_payroll) None None) in
  let after :=
    Results.summary
      (getResults (@rev ResultRow.t)
                  (fst (run parseFloat_sample store_reliable Js.exact db_two_mismatches
                            request_payroll))
                  (RunRequest.periodId request_payroll) None None) in
  Summary.total after = (Summary.total before + 2)%nat /\
  Summary.pending after = (Summary.pending before + 2)%nat /\
  Summary.resolved after = Summary.resolved before /\
  Summary.ignored after = Summary.ignored before.
Proof.
  apply (results_after_run parseFloat_sample store_reliable Js.exact (@rev ResultRow.t)
           db_two_mismatches request_payroll 2
           (collect_results parseFloat_sample db_two_mismatches 1 "payroll")).
  - exact rev_is_permutation.
  - exact db_two_mismatches_keys.
  - vm_compute. reflexivity.
Defined.

Lemma update_logs_count (status : string) (userId now : Z) (notes : option string)
    (logs : list Log.t) (row : Log.t) (test : Log.t -> bool) :
  List.NoDup (map Log.id logs) ->
  In row logs ->
  (length (List.filter test (update_logs status userId now notes (Log.id row) logs))
   + (if test row then 1 else 0)
   = length (List.filter test logs)
     + (if test (update_log status userId now notes row) then 1 else 0))%nat.
Proof.
  induction logs as [|x logs IH]; intros Hnd Hin; [destruct Hin|].
  cbn [map] in Hnd. apply List.NoDup_cons_iff in Hnd. destruct Hnd as [Hx Hnd].
  change (update_logs status userId now notes (Log.id row) (x :: logs))
    with ((if Z.eqb (Log.id x) (Log.id row)
           then update_log status userId now notes x else x)
          :: update_logs status userId now notes (Log.id row) logs).
  destruct Hin as [->|Hin].
  - rewrite Z.eqb_refl, update_logs_missing.
    + cbn [List.filter].
      destruct (test row), (test (update_log status userId now notes row));
        cbn [length]; lia.
    + intros other Hother Heq. apply Hx. rewrite <- Heq. now apply in_map.
  - assert (Hne : Z.eqb (Log.id x) (Log.id row) = false).
    { apply Z.eqb_neq. intros Heq. apply Hx. rewrite Heq. now apply in_map. }
    rewrite Hne. specialize (IH Hnd Hin). cbn [List.filter].
    destruct (test x); cbn [length]; lia.
Qed.

(** X17. The results route follows a resolution: when employee ids and
    record ids are keys and an accepted request names a pending record of a
    period, the summary of the unfiltered results of that period keeps its
    total, its pending count drops by one, and the count of the requested
    status ([resolved] or [ignored]) grows by one. *)
Theorem results_after_resolve (by_created_at_desc : list ResultRow.t -> list ResultRow.t)
    (now : Z) (d : db) (req : ResolveRequest.t) (row : Log.t) :
  (forall rows, Permutation (by_created_at_desc rows) rows) ->
  List.NoDup (map Employee.id (employees d)) ->
  List.NoDup (map Log.id (reconciliation_logs d)) ->
  In (ResolveRequest.status req) ["resolved"; "ignored"] ->
  In row (reconciliation_logs d) ->
  Log.id row = ResolveRequest.logId req ->
  Log.status row = "pending" ->
  let periodId := Log.payroll_period_id row in
  let before := filteredResults by_created_at_desc d periodId None None in
  let after := filteredResults by_created_at_desc (fst (resolve now d req)) periodId None None in
  length after = length before /\
  S (count_status "pending" after) = count_status "pending" before /\
  count_status (ResolveRequest.status req) after
  = S (count_status (ResolveRequest.status req) before).
Proof.
  intros Hperm Hnd Hids Hstatus Hrow Hid Hpending. cbv zeta.
  destruct (resolve_valid now d req Hstatus) as [_ Hlogs].
  pose proof (resolve_inputs now d req) as (_ & Hemp & _).
  assert (Hnd' : List.NoDup (map Employee.id (employees (fst (resolve now d req)))))
    by now rewrite <- Hemp.
  rewrite !(returned_total by_created_at_desc _ _ Hperm Hnd').
  rewrite !(returned_total by_created_at_desc _ _ Hperm Hnd).
  rewrite !(returned_status by_created_at_desc _ _ _ Hperm Hnd').
  rewrite !(returned_status by_created_at_desc _ _ _ Hperm Hnd).
  rewrite Hlogs, <- Hid.
  set (user := ResolveRequest.user_id req).
  set (notes := ResolveRequest.resolutionNotes req).
  set (status := ResolveRequest.status req) in *.
  pose proof (update_logs_count status user now notes (reconciliation_logs d) row
                (fun rl => Z.eqb (Log.payroll_period_id rl) (Log.payroll_period_id row))
                Hids Hrow) as Htotal.
  pose proof (update_logs_count status user now notes (reconciliation_logs d) row
                (fun rl => Z.eqb (Log.payroll_period_id rl) (Log.payroll_period_id row)
                           && String.eqb (Log.status rl) "pending")
                Hids Hrow) as Hpend.
  pose proof (update_logs_count status user now notes (reconciliation_logs d) row
                (fun rl => Z.eqb (Log.payroll_period_id rl) (Log.payroll_period_id row)
                           && String.eqb (Log.status rl) status)
                Hids Hrow) as Hnew.
  assert (Hs1 : String.eqb status "pending" = false).
  { apply String.eqb_neq. intros Heq. rewrite Heq in Hstatus. cbn [In] in Hstatus.
    destruct Hstatus as [H|[H|[]]]; discriminate H. }
  assert (Hs2 : String.eqb "pending" status = false)
    by (rewrite String.eqb_sym; exact Hs1).
  cbn [update_log Log.payroll_period_id Log.status] in Htotal, Hpend, Hnew.
  rewrite Z.eqb_refl in Htotal, Hpend, Hnew. cbn [andb] in Hpend, Hnew.
  rewrite Hpending in Hpend, Hnew.
  rewrite String.eqb_refl, Hs1 in Hpend. rewrite String.eqb_refl, Hs2 in Hnew.
  repeat split; lia.
Qed.

Lemma results_after_resolve_witness :
  let periodId := Log.payroll_period_id (pending_log 1 1 2) in
  let before := filteredResults (@rev ResultRow.t) db_offenders periodId None None in
  let after :=
    filteredResults (@rev ResultRow.t) (fst (resolve 1000 db_offenders request_resolve))
                    periodId None None in
  length after = length before /\
  S (count_status "pending" after) = count_status "pending" before /\
  count_status (ResolveRequest.status request_resolve) after
  = S (count_status (ResolveRequest.status request_resolve) before).
Proof.
  apply (results_after_resolve (@rev ResultRow.t) 1000 db_offenders request_resolve
           (pending_log 1 1 2)).
  - exact rev_is_permutation.
  - exact (proj1 db_offenders_keys).
  - cbn [map db_offenders reconciliation_logs pending_log Log.id].
    repeat (constructor; [cbn [In]; intuition discriminate|]); constructor.
  - left. reflexivity.
  - left. reflexivity.
  - reflexivity.
  - reflexivity.
Defined.

(** ** Settings *)

Lemma settingsMap_snoc (parseFloat : string -> Js.number) (settings : list Setting.t)
    (setting : Setting.t) :
  settingsMap parseFloat (settings ++ [setting])
  = <[Setting.setting_key setting := parseFloat (Setting.setting_value setting)]>
      (settingsMap parseFloat settings).
Proof. unfold settingsMap. now rewrite fold_left_app. Qed.

Lemma settingsMap_present (parseFloat : string -> Js.number) (settings : list Setting.t)
    (key : string) :
  is_Some (settingsMap parseFloat settings !! key)
  <-> existsb (fun setting => String.eqb (Setting.setting_key setting) key) settings = true.
Proof.
  induction settings as [|s settings IH] using rev_ind.
  - unfold settingsMap. cbn [fold_left existsb]. rewrite lookup_empty.
    split; [intros [x Hx]; discriminate Hx | discriminate].
  - rewrite settingsMap_snoc, existsb_app. cbn [existsb]. rewrite orb_false_r.
    destruct (String.eqb (Setting.setting_key s) key) eqn:E.
    + apply String.eqb_eq in E. subst key. rewrite lookup_insert_eq, orb_true_r.
      split; [reflexivity | intros _; eexists; reflexivity].
    + apply String.eqb_neq in E. rewrite lookup_insert_ne by exact E.
      now rewrite orb_false_r.
Qed.

Lemma settingsMap_updated (parseFloat : string -> Js.number) (settings : list Setting.t)
    (key value other : string) :
  settingsMap parseFloat
    (map (fun setting =>
            if String.eqb (Setting.setting_key setting) key
            then {| Setting.setting_key := Setting.setting_key setting;
                    Setting.setting_value := value |}
            else setting)
         settings) !! other
  = if String.eqb other key
       && existsb (fun setting => String.eqb (Setting.setting_key setting) key) settings
    then Some (parseFloat value)
    else settingsMap parseFloat settings !! other.
Proof.
  induction settings as [|s settings IH] using rev_ind.
  - cbn [map existsb]. now rewrite andb_false_r.
  - rewrite map_app. cbn [map]. rewrite !settingsMap_snoc, existsb_app.
    cbn [existsb]. rewrite orb_false_r.
    destruct (String.eqb (Setting.setting_key s) key) eqn:E.
    + apply String.eqb_eq in E. cbn [Setting.setting_key Setting.setting_value].
      rewrite orb_true_r, andb_true_r.
      destruct (decide (other = key)) as [->|Hne].
      * rewrite String.eqb_refl, E. apply lookup_insert_eq.
      * rewrite !lookup_insert_ne by congruence.
        rewrite IH. apply String.eqb_neq in Hne. now rewrite Hne.
    + rewrite orb_false_r.
      destruct (decide (Setting.setting_key s = other)) as [<-|Hne].
      * rewrite !lookup_insert_eq. now rewrite E.
      * rewrite !lookup_insert_ne by exact Hne. exact IH.
Qed.

(** X18. [updateSystemSetting] never creates a setting: when the table has
    no row for the key the update changes nothing, and the deduction
    detector keeps applying the default rate of that key; when the table
    has a row, the detector reads the parsed new value for that key; in
    both cases the values read for every other key are unchanged. *)
Theorem update_setting_lookup (parseFloat : string -> Js.number) (d : db)
    (key value : string) :
  (has_setting d key = false ->
   system_settings (updateSystemSetting d key value) = system_settings d /\
   forall dflt,
     applied_rate parseFloat (getSystemSettings (updateSystemSetting d key value)) key dflt
     = dflt) /\
  (has_setting d key = true ->
   settingsMap parseFloat (getSystemSettings (updateSystemSetting d key value)) !! key
   = Some (parseFloat value)) /\
  (forall other,
      other <> key ->
      settingsMap parseFloat (getSystemSettings (updateSystemSetting d key value)) !! other
      = settingsMap parseFloat (getSystemSettings d) !! other).
Proof.
  unfold has_setting, getSystemSettings, updateSystemSetting. cbn [system_settings].
  split; [|split].
  - intros Habsent.
    assert (Hsame : map (fun setting =>
                           if String.eqb (Setting.setting_key setting) key
                           then {| Setting.setting_key := Setting.setting_key setting;
                                   Setting.setting_value := value |}
                           else setting)
                        (system_settings d) = system_settings d).
    { rewrite <- (map_id (system_settings d)) at 2. apply map_ext_in. intros s Hs.
      destruct (String.eqb (Setting.setting_key s) key) eqn:E; [|reflexivity].
      assert (Htrue : existsb (fun setting => String.eqb (Setting.setting_key setting) key)
                              (system_settings d) = true)
        by (apply existsb_exists; now exists s).
      congruence. }
    split; [exact Hsame|]. intros dflt. unfold applied_rate. rewrite Hsame.
    destruct (settingsMap parseFloat (system_settings d) !! key) as [v|] eqn:Ev;
      [|reflexivity].
    assert (Hsome : is_Some (settingsMap parseFloat (system_settings d) !! key))
      by (now exists v).
    apply settingsMap_present in Hsome. congruence.
  - intros Hpresent. rewrite settingsMap_updated, Hpresent, String.eqb_refl. reflexivity.
  - intros other Hne. rewrite settingsMap_updated.
    apply String.eqb_neq in Hne. now rewrite Hne.
Qed.

(** ** Time tracking *)

Lemma hours_since_nonneg (clock_in now : Z) :
  (clock_in <= now)%Z -> 0 <= hours_since clock_in now.
Proof.
  intros Hle. unfold hours_since.
  assert (Hq : (0 <= Z.quot (now - clock_in) 60)%Z) by (apply Z.quot_pos; lia).
  apply Qle_shift_div_l; [reflexivity|]. rewrite Qmult_0_l.
  change 0 with (inject_Z 0). now rewrite <- Zle_Qle.
Qed.

Lemma least_spec (x y : Q) :
  (x <= y -> least x y = x) /\ (y < x -> least x y = y).
Proof.
  unfold least. destruct (Qle_bool x y) eqn:E.
  - apply Qle_bool_iff in E. split; [reflexivity | intros H; lra].
  - split; [|reflexivity]. intros H. apply Qle_bool_iff in H. congruence.
Qed.

Lemma greatest_spec (x y : Q) :
  (x <= y -> greatest x y = y) /\ (y < x -> greatest x y = x).
Proof.
  unfold greatest. destruct (Qle_bool x y) eqn:E.
  - apply Qle_bool_iff in E. split; [reflexivity | intros H; lra].
  - split; [|reflexivity]. intros H. apply Qle_bool_iff in H. congruence.
Qed.

(** X19. [clockOut] closes every open session of the employee dated today
    and splits its hours at eight: when the clock-in is not after the
    clock-out, the regular hours lie between 0 and 8, the overtime hours
    are not negative, the two add up to the total hours, and there is
    overtime only beyond eight hours; the session becomes [completed]. *)
Theorem clock_out_splits_hours (sessions : list Session.t) (now employeeId : Z)
    (session : Session.t) :
  In session sessions ->
  open_today now employeeId session = true ->
  (Session.clock_in session <= now)%Z ->
  exists total regular overtime,
    In {| Session.entry :=
            {| TimeEntry.employee_id := employeeId;
               TimeEntry.date := curdate now;
               TimeEntry.regular_hours := Some regular;
               TimeEntry.overtime_hours := Some overtime;
               TimeEntry.status := "completed" |};
          Session.clock_in := Session.clock_in session;
          Session.clock_out := Some now;
          Session.total_hours := Some total |}
       (clockOut sessions now employeeId) /\
    total = hours_since (Session.clock_in session) now /\
    0 <= regular /\ regular <= 8 /\ 0 <= overtime /\
    regular + overtime == total /\
    (total <= 8 -> regular = total /\ overtime = 0) /\
    (8 < total -> regular = 8 /\ overtime = total - 8).
Proof.
  intros Hin Hopen Hle.
  exists (hours_since (Session.clock_in session) now),
         (least (hours_since (Session.clock_in session) now) 8),
         (greatest (hours_since (Session.clock_in session) now - 8) 0).
  pose proof (hours_since_nonneg _ _ Hle) as Hnonneg.
  set (total := hours_since (Session.clock_in session) now) in *.
  destruct (least_spec total 8) as [Hl1 Hl2].
  destruct (greatest_spec (total - 8) 0) as [Hg1 Hg2].
  split; [|split; [reflexivity|]].
  - unfold clockOut. apply in_map_iff. exists session. split; [|exact Hin].
    rewrite Hopen. unfold close_session, open_today in *.
    apply andb_true_iff in Hopen. destruct Hopen as [Hopen _].
    apply andb_true_iff in Hopen. destruct Hopen as [Hemp Hdate].
    apply Z.eqb_eq in Hemp, Hdate. now rewrite Hemp, Hdate.
  - destruct (Qlt_le_dec 8 total) as [Hlong|Hshort].
    + rewrite Hl2, Hg2 by lra. repeat split; intros; try reflexivity; lra.
    + rewrite Hl1, Hg1 by lra. repeat split; intros; try reflexivity; lra.
Qed.

Lemma clock_out_splits_hours_witness :
  exists total regular overtime,
    In {| Session.entry :=
            {| TimeEntry.employee_id := 1;
               TimeEntry.date := curdate 132400;
               TimeEntry.regular_hours := Some regular;
               TimeEntry.overtime_hours := Some overtime;
               TimeEntry.status := "completed" |};
          Session.clock_in := 100000;
          Session.clock_out := Some 132400%Z;
          Session.total_hours := Some total |}
       (clockOut (clockIn [] 100000 1) 132400 1) /\
    total = hours_since 100000 132400 /\
    0 <= regular /\ regular <= 8 /\ 0 <= overtime /\
    regular + overtime == total /\
    (total <= 8 -> regular = total /\ overtime = 0) /\
    (8 < total -> regular = 8 /\ overtime = total - 8).
Proof.
  apply (clock_out_splits_hours (clockIn [] 100000 1) 132400 1
           {| Session.entry :=
                {| TimeEntry.employee_id := 1;
                   TimeEntry.date := curdate 100000;
                   TimeEntry.regular_hours := None;
                   TimeEntry.overtime_hours := None;
                   TimeEntry.status := "active" |};
              Session.clock_in := 100000;
              Session.clock_out := None;
              Session.total_hours := None |}).
  - left. reflexivity.
  - reflexivity.
  - cbn. lia.
Defined.

Lemma close_session_not_open (now later employeeId : Z) (session : Session.t) :
  open_today later employeeId (close_session now session) = false.
Proof. unfold open_today. cbn. apply andb_false_r. Qed.

(** X20. [clockOut] changes no session but the open sessions of the
    employee dated today, leaves none of them open, and a second
    [clockOut] of the employee on the same day changes nothing: the hours
    of a closed session are not computed again. *)
Theorem clock_out_once (sessions : list Session.t) (now later employeeId : Z) :
  curdate later = curdate now ->
  (forall i session,
     nth_error sessions i = Some session ->
     open_today now employeeId session = false ->
     nth_error (clockOut sessions now employeeId) i = Some session) /\
  (forall session,
     In session (clockOut sessions now employeeId) ->
     open_today now employeeId session = false) /\
  clockOut (clockOut sessions now employeeId) later employeeId
  = clockOut sessions now employeeId.
Proof.
  intros Hday. split; [|split].
  - intros i session Hnth Hclosed. unfold clockOut.
    rewrite List.nth_error_map, Hnth. cbn. now rewrite Hclosed.
  - intros session Hin. unfold clockOut in Hin. apply in_map_iff in Hin.
    destruct Hin as [before [Heq Hin]].
    destruct (open_today now employeeId before) eqn:E; subst session.
    + apply close_session_not_open.
    + exact E.
  - unfold clockOut. rewrite List.map_map. apply List.map_ext. intros session.
    destruct (open_today now employeeId session) eqn:E.
    + now rewrite close_session_not_open.
    + unfold open_today in *. rewrite Hday, E. reflexivity.
Qed.

Lemma clock_out_once_witness :
  clockOut (clockOut (clockIn [] 100000 1) 132400 1) 140000 1
  = clockOut (clockIn [] 100000 1) 132400 1.
Proof.
  apply (clock_out_once (clockIn [] 100000 1) 132400 140000 1). reflexivity.
Defined.

(** The first join of the attendance query reads the completed sessions
    only. *)
Lemma left_join_completed (emps : list Employee.t) (start_date end_date : Z)
    (entries1 entries2 : list TimeEntry.t) :
  List.filter (fun te => String.eqb (TimeEntry.status te) "completed") entries1
  = List.filter (fun te => String.eqb (TimeEntry.status te) "completed") entries2 ->
  left_join
    (fun e te =>
       Z.eqb (Employee.id e) (TimeEntry.employee_id te)
       && (Z.leb start_date (TimeEntry.date te) && Z.leb (TimeEntry.date te) end_date)
       && String.eqb (TimeEntry.status te) "completed")
    emps entries1
  = left_join
      (fun e te =>
         Z.eqb (Employee.id e) (TimeEntry.employee_id te)
         && (Z.leb start_date (TimeEntry.date te) && Z.leb (TimeEntry.date te) end_date)
         && String.eqb (TimeEntry.status te) "completed")
      emps entries2.
Proof.
  intros Hsame. unfold left_join. apply flat_map_ext. intros e.
  assert (Hsplit : forall entries,
    List.filter
      (fun te =>
         Z.eqb (Employee.id e) (TimeEntry.employee_id te)
         && (Z.leb start_date (TimeEntry.date te) && Z.leb (TimeEntry.date te) end_date)
         && String.eqb (TimeEntry.status te) "completed") entries
    = List.filter
        (fun te =>
           Z.eqb (Employee.id e) (TimeEntry.employee_id te)
           && (Z.leb start_date (TimeEntry.date te) && Z.leb (TimeEntry.date te) end_date))
        (List.filter (fun te => String.eqb (TimeEntry.status te) "completed") entries)).
  { intros entries. rewrite filter_twice. apply List.filter_ext. intros te.
    apply andb_comm. }
  now rewrite !Hsplit, Hsame.
Qed.

(** X21. A session that is clocked in on one day and clocked out on
    another is not closed by [clockOut]: it stays as [clockIn] wrote it,
    behind the other sessions, and the attendance detector reports what it
    reports without it. *)
Theorem overnight_session_stays_open (d : db) (sessions : list Session.t)
    (start finish employeeId periodId : Z) :
  curdate finish <> curdate start ->
  clockOut (clockIn sessions start employeeId) finish employeeId
  = clockOut sessions finish employeeId ++ clockIn [] start employeeId /\
  runAttendanceReconciliation
    (with_sessions d (clockOut (clockIn sessions start employeeId) finish employeeId))
    periodId
  = runAttendanceReconciliation
      (with_sessions d (clockOut sessions finish employeeId)) periodId.
Proof.
  intros Hday.
  assert (Hout : clockOut (clockIn sessions start employeeId) finish employeeId
                 = clockOut sessions finish employeeId ++ clockIn [] start employeeId).
  { unfold clockOut, clockIn. rewrite map_app. f_equal. cbn [map app].
    unfold open_today. cbn.
    replace (Z.eqb (curdate start) (curdate finish)) with false
      by (symmetry; apply Z.eqb_neq; congruence).
    now rewrite andb_false_r. }
  split; [exact Hout|].
  rewrite Hout. unfold runAttendanceReconciliation.
  change (select_period (with_sessions d ?s) periodId) with (select_period d periodId).
  destruct (select_period d periodId) as [|period rest]; [reflexivity|].
  f_equal. unfold select_attendance, attendance_joined.
  cbn [with_sessions employees time_entries payroll_entries].
  do 4 f_equal. apply left_join_completed.
  rewrite map_app, List.filter_app. cbn. now rewrite app_nil_r.
Qed.

Lemma overnight_session_stays_open_witness :
  clockOut (clockIn [] 100000 1) 180000 1 = clockOut [] 180000 1 ++ clockIn [] 100000 1 /\
  runAttendanceReconciliation
    (with_sessions db_attendance (clockOut (clockIn [] 100000 1) 180000 1)) 1
  = runAttendanceReconciliation (with_sessions db_attendance (clockOut [] 180000 1)) 1.
Proof.
  apply (overnight_session_stays_open db_attendance [] 100000 180000 1 1).
  vm_compute. discriminate.
Defined.

(** ** The first dashboard query *)

Lemma somes_or_null {B : Type} (l : list B) : somes (or_null l) = l.
Proof.
  destruct l as [|x l]; [reflexivity|].
  unfold or_null, somes. rewrite flat_map_of_map.
  induction (x :: l) as [|y l' IH]; cbn [flat_map app]; [reflexivity|]. now rewrite IH.
Qed.

Lemma somes_map_Some {B : Type} (l : list B) : somes (map Some l) = l.
Proof.
  unfold somes. rewrite flat_map_of_map.
  induction l as [|y l IH]; cbn [flat_map app]; [reflexivity|]. now rewrite IH.
Qed.

Lemma count_if_somes (condition : Log.t -> bool) (pp : Period.t) (rows : list (option Log.t)) :
  count_if condition (map (fun rl => (pp, rl)) rows)
  = length (List.filter condition (somes rows)).
Proof.
  unfold count_if, somes.
  induction rows as [|[rl|] rows IH]; cbn [map List.filter flat_map app snd];
    [reflexivity | | exact IH].
  destruct (condition rl); cbn [length]; now rewrite IH.
Qed.

Lemma sum_somes {B : Type} (f : B -> option Q) (pp : Period.t) (rows : list (option B)) :
  sql_sum (map (fun row : Period.t * option B => column f (snd row))
               (map (fun rl => (pp, rl)) rows))
  = sql_sum (map f (somes rows)).
Proof.
  unfold sql_sum, somes. generalize (@None Q).
  induction rows as [|[b|] rows IH]; intros acc; cbn [map flat_map app fold_left snd column];
    [reflexivity | apply IH | apply IH].
Qed.

Lemma summarised_all (d : db) (department : option string) (pp : Period.t) :
  given department = None ->
  summarised d department pp
  = List.filter (fun rl => Z.eqb (Period.id pp) (Log.payroll_period_id rl))
                (reconciliation_logs d).
Proof.
  intros Hnone. unfold summarised. rewrite Hnone. now apply filter_all.
Qed.

Lemma filter_pairs {A B : Type} (p : A * B -> bool) (a : A) (l : list B) :
  List.filter p (map (fun b => (a, b)) l) = map (fun b => (a, b)) (List.filter (fun b => p (a, b)) l).
Proof.
  induction l as [|b l IH]; cbn [map List.filter]; [reflexivity|].
  rewrite IH. now destruct (p (a, b)).
Qed.

Lemma filter_or_null {B : Type} (p : option B -> bool) (l : list B) :
  p None = false ->
  List.filter p (or_null l) = map Some (List.filter (fun b => p (Some b)) l).
Proof.
  intros Hnone. destruct l as [|x l]; [cbn; now rewrite Hnone|].
  unfold or_null. induction (x :: l) as [|y l' IH]; cbn [map List.filter]; [reflexivity|].
  rewrite IH. now destruct (p (Some y)).
Qed.

(** The rows the [WHERE] clause keeps of a period. *)
Lemma summary_block (d : db) (now dateRange : Z) (department : option string)
    (pp : Period.t) :
  List.filter (summary_where d now dateRange department)
              (map (fun rl => (pp, rl))
                   (or_null (List.filter
                               (fun rl => Z.eqb (Period.id pp) (Log.payroll_period_id rl))
                               (reconciliation_logs d))))
  = if has_row d now dateRange department pp then summary_rows d department pp else [].
Proof.
  rewrite filter_pairs. unfold summary_where, has_row, summary_rows. cbn [fst snd].
  destruct (in_window now dateRange pp); cbn [andb].
  - destruct (given department) as [name|] eqn:Egiven.
    + rewrite filter_or_null by reflexivity.
      replace (List.filter (fun b => in_department d name (Some b)) _)
        with (summarised d department pp) by (unfold summarised; now rewrite Egiven).
      now destruct (summarised d department pp).
    + rewrite (summarised_all d department pp Egiven).
      rewrite filter_all by reflexivity.
      now destruct (or_null _).
  - rewrite filter_none by reflexivity. reflexivity.
Qed.

Lemma summary_joined_blocks (d : db) (now dateRange : Z) (department : option string) :
  summary_joined d now dateRange department
  = flat_map (summary_rows d department)
             (List.filter (has_row d now dateRange department) (payroll_periods d)).
Proof.
  unfold summary_joined, left_join.
  rewrite filter_flat_map, <- flat_map_filter.
  apply flat_map_ext. intros pp. apply summary_block.
Qed.

Lemma summary_rows_nonempty (d : db) (now dateRange : Z) (department : option string)
    (pp : Period.t) :
  has_row d now dateRange department pp = true -> summary_rows d department pp <> [].
Proof.
  unfold has_row, summary_rows. intros Hrow. apply andb_true_iff in Hrow.
  destruct Hrow as [_ Hrow].
  destruct (given department).
  - destruct (summarised d department pp); [discriminate Hrow | discriminate].
  - pose proof (or_null_nonempty (summarised d department pp)) as Hne.
    destruct (or_null (summarised d department pp)); [contradiction | discriminate].
Qed.

Lemma summary_rows_somes (d : db) (department : option string) (pp : Period.t) :
  exists rows,
    summary_rows d department pp = map (fun rl => (pp, rl)) rows
    /\ somes rows = summarised d department pp.
Proof.
  unfold summary_rows. destruct (given department).
  - eexists. split; [reflexivity | apply somes_map_Some].
  - eexists. split; [reflexivity | apply somes_or_null].
Qed.

Lemma aggregate_summary_rows (d : db) (now dateRange : Z) (department : option string)
    (pp : Period.t) :
  has_row d now dateRange department pp = true ->
  summary_aggregate (summary_rows d department pp) = [summary_of d department pp].
Proof.
  intros Hrow. apply summary_rows_nonempty in Hrow.
  destruct (summary_rows_somes d department pp) as (rows & Hrows & Hsomes).
  rewrite Hrows in *.
  assert (Htotal : count_if (fun _ => true) (map (fun rl => (pp, rl)) rows)
                   = length (summarised d department pp)).
  { rewrite count_if_somes, Hsomes. now rewrite filter_all. }
  pose proof (count_if_somes (fun rl => String.eqb (Log.status rl) "pending") pp rows) as Hp.
  pose proof (count_if_somes (fun rl => String.eqb (Log.status rl) "resolved") pp rows) as Hr.
  pose proof (sum_somes (fun rl => option_map Qabs (Log.variance rl)) pp rows) as Hv.
  rewrite Hsomes in Hp, Hr, Hv.
  unfold summary_of. rewrite <- Htotal, <- Hp, <- Hr, <- Hv.
  destruct rows as [|row rows]; [now elim Hrow|]. reflexivity.
Qed.

Lemma periodSummary_perm (d : db) (now dateRange : Z) (department : option string) :
  List.NoDup (map Period.id (payroll_periods d)) ->
  Permutation (periodSummary d now dateRange department)
              (map (summary_of d department)
                   (List.filter (has_row d now dateRange department) (payroll_periods d))).
Proof.
  intros Hnd. unfold periodSummary. rewrite order_by_perm.
  rewrite summary_joined_blocks.
  rewrite (group_by_blocks Period.id (fun row => Period.id (fst row))
             (summary_rows d department)).
  - rewrite flat_map_of_map, <- flat_map_single.
    erewrite flat_map_agree; [reflexivity|].
    intros pp Hpp. cbn [snd]. apply filter_In in Hpp.
    apply (aggregate_summary_rows d now dateRange), Hpp.
  - now apply NoDup_map_filter.
  - intros pp Hpp. apply filter_In in Hpp.
    apply (summary_rows_nonempty d now dateRange), Hpp.
  - intros pp row _ Hrow. unfold summary_rows in Hrow.
    apply in_map_iff in Hrow. destruct Hrow as (rl & <- & _). reflexivity.
Qed.

Lemma starts_later_total (a b : PeriodSummary.t) :
  starts_later a b = true \/ starts_later b a = true.
Proof. unfold starts_later. rewrite !Z.leb_le. lia. Qed.

Lemma starts_later_trans (a b c : PeriodSummary.t) :
  starts_later a b = true -> starts_later b c = true -> starts_later a c = true.
Proof. unfold starts_later. rewrite !Z.leb_le. lia. Qed.

Lemma disjoint_counts {A : Type} (p q : A -> bool) (l : list A) :
  (forall x, p x = true -> q x = false) ->
  (length (List.filter p l) + length (List.filter q l) <= length l)%nat.
Proof.
  intros Hpq. induction l as [|x l IH]; cbn [List.filter length]; [lia|].
  destruct (p x) eqn:Ep.
  - rewrite (Hpq x Ep). cbn [length]. lia.
  - destruct (q x); cbn [length]; lia.
Qed.

(** X22. The summary by period of the dashboard, when period ids are keys:
    it has one row for each period that starts in the window and, when a
    department is asked for, has a record of an employee of that
    department; a period without any record has a row only when no
    department is asked for.  The row counts the records of the period (of
    the department's employees, if asked for), the pending and the
    resolved ones among them, which together are no more than the total,
    and sums their absolute variances.  The rows come latest period
    first. *)
Theorem period_summary_rows (d : db) (now dateRange : Z) (department : option string) :
  List.NoDup (map Period.id (payroll_periods d)) ->
  Permutation (periodSummary d now dateRange department)
              (map (summary_of d department)
                   (List.filter (has_row d now dateRange department) (payroll_periods d))) /\
  (forall pp,
     In pp (payroll_periods d) ->
     in_window now dateRange pp = true ->
     (given department = None \/ summarised d department pp <> []) ->
     In (summary_of d department pp) (periodSummary d now dateRange department)) /\
  (forall row,
     In row (periodSummary d now dateRange department) ->
     exists pp,
       In pp (payroll_periods d) /\ in_window now dateRange pp = true /\
       (given department = None \/ summarised d department pp <> []) /\
       row = summary_of d department pp /\
       (PeriodSummary.pending_discrepancies row + PeriodSummary.resolved_discrepancies row
        <= PeriodSummary.total_discrepancies row)%nat) /\
  (forall i j a b,
     (i < j)%nat ->
     nth_error (periodSummary d now dateRange department) i = Some a ->
     nth_error (periodSummary d now dateRange department) j = Some b ->
     (PeriodSummary.start_date b <= PeriodSummary.start_date a)%Z).
Proof.
  intros Hnd. pose proof (periodSummary_perm d now dateRange department Hnd) as Hperm.
  split; [exact Hperm|]. split; [|split].
  - intros pp Hpp Hwindow Hany.
    apply (Permutation_in _ (Permutation_sym Hperm)).
    apply in_map, filter_In. split; [exact Hpp|].
    unfold has_row. rewrite Hwindow. cbn [andb].
    destruct Hany as [->|Hany]; [reflexivity|].
    destruct (given department); [|reflexivity].
    now destruct (summarised d department pp).
  - intros row Hrow. apply (Permutation_in _ Hperm) in Hrow.
    apply in_map_iff in Hrow. destruct Hrow as (pp & <- & Hpp).
    apply filter_In in Hpp. destruct Hpp as [Hpp Hhas].
    unfold has_row in Hhas. apply andb_true_iff in Hhas. destruct Hhas as [Hwindow Hany].
    exists pp. split; [exact Hpp|]. split; [exact Hwindow|]. split; [|split; [reflexivity|]].
    + destruct (given department); [|now left].
      right. now destruct (summarised d department pp).
    + cbn [summary_of PeriodSummary.pending_discrepancies
             PeriodSummary.resolved_discrepancies PeriodSummary.total_discrepancies].
      apply disjoint_counts. intros rl Hpending.
      apply String.eqb_eq in Hpending. now rewrite Hpending.
  - intros i j a b Hij Ha Hb. apply Z.leb_le.
    change (starts_later a b = true).
    apply (sorted_nth starts_later) with (l := periodSummary d now dateRange department)
                                         (i := i) (j := j); try assumption.
    apply order_by_sorted; [exact starts_later_total | exact starts_later_trans].
Qed.

Lemma period_summary_rows_witness :
  Permutation (periodSummary db_offenders 86400 30 (Some "Sales"))
              (map (summary_of db_offenders (Some "Sales"))
                   (List.filter (has_row db_offenders 86400 30 (Some "Sales"))
                                (payroll_periods db_offenders))).
Proof.
  exact (proj1 (period_summary_rows db_offenders 86400 30 (Some "Sales")
                  (proj2 db_offenders_keys))).
Defined.

(** ** The second dashboard query *)

Lemma same_kind_eq (a b : string * string) : same_kind a b = true <-> a = b.
Proof.
  destruct a as [a1 a2], b as [b1 b2]. unfold same_kind. cbn [fst snd].
  rewrite andb_true_iff, !String.eqb_eq. split; [intros [-> ->]; reflexivity|].
  intros H. injection H as -> ->. now split.
Qed.

Lemma same_kind_neq (a b : string * string) : same_kind a b = false <-> a <> b.
Proof.
  rewrite <- same_kind_eq. destruct (same_kind a b); split; congruence.
Qed.

Lemma distinct_kinds_In (k : string * string) (l : list (string * string)) :
  In k (distinct_kinds l) <-> In k l.
Proof.
  induction l as [|x l IH]; cbn [distinct_kinds In]; [reflexivity|].
  rewrite filter_In, IH, negb_true_iff, same_kind_neq.
  destruct (same_kind x k) eqn:E.
  - apply same_kind_eq in E. tauto.
  - apply same_kind_neq in E. split; [tauto|].
    intros [H|H]; [tauto|]. right. split; [exact H | congruence].
Qed.

Lemma distinct_kinds_NoDup (l : list (string * string)) : List.NoDup (distinct_kinds l).
Proof.
  induction l as [|x l IH]; cbn [distinct_kinds]; [constructor|].
  apply List.NoDup_cons_iff. split.
  - rewrite filter_In, negb_true_iff, same_kind_neq. tauto.
  - now apply List.NoDup_filter.
Qed.

(** With period ids as keys, the join has one row for each record whose
    period starts in the window. *)
Lemma types_joined_records (d : db) (now dateRange : Z) :
  List.NoDup (map Period.id (payroll_periods d)) ->
  map fst (types_joined d now dateRange) = windowed d now dateRange.
Proof.
  intros Hnd. unfold types_joined, inner_join, windowed.
  rewrite filter_flat_map, map_flat_map, <- flat_map_choice.
  apply flat_map_ext. intros rl.
  rewrite filter_pairs, map_map. cbn [fst snd].
  unfold in_period_window. rewrite existsb_filter.
  destruct (filter_key_unique Period.id (payroll_periods d) (Log.payroll_period_id rl) Hnd)
    as [[-> _]|(pp & _ & _ & ->)]; [reflexivity|].
  cbn [List.filter existsb]. rewrite orb_false_r.
  now destruct (in_window now dateRange pp).
Qed.

Lemma types_aggregate_records (d : db) (now dateRange : Z) (k : string * string)
    (group : list (Log.t * Period.t)) :
  map fst group = records_of_kind k (windowed d now dateRange) ->
  group <> [] ->
  types_aggregate group = [type_row d now dateRange k].
Proof.
  intros Hgroup Hne. destruct group as [|[rl pp] group]; [contradiction|].
  unfold types_aggregate, type_row. rewrite <- Hgroup, length_map, map_map.
  assert (Hk : kind_of rl = k).
  { assert (Hin : In rl (records_of_kind k (windowed d now dateRange)))
      by (rewrite <- Hgroup; now left).
    apply filter_In in Hin. now apply same_kind_eq. }
  rewrite <- Hk. reflexivity.
Qed.

Lemma discrepancyTypes_perm (d : db) (now dateRange : Z) :
  List.NoDup (map Period.id (payroll_periods d)) ->
  Permutation (discrepancyTypes d now dateRange)
              (map (type_row d now dateRange)
                   (distinct_kinds (map kind_of (windowed d now dateRange)))).
Proof.
  intros Hnd. unfold discrepancyTypes. rewrite order_by_perm.
  unfold group_by_kind. rewrite flat_map_of_map. cbn [snd].
  rewrite <- (flat_map_single (type_row d now dateRange)).
  replace (map (fun row : Log.t * Period.t => kind_of (fst row))
               (types_joined d now dateRange))
    with (map kind_of (map fst (types_joined d now dateRange)))
    by apply List.map_map.
  rewrite (types_joined_records d now dateRange Hnd).
  erewrite flat_map_agree; [reflexivity|].
  intros k Hk. apply (proj1 (distinct_kinds_In _ _)) in Hk.
  assert (Hgroup : map fst (List.filter (fun row => same_kind (kind_of (fst row)) k)
                                        (types_joined d now dateRange))
                   = records_of_kind k (windowed d now dateRange)).
  { unfold records_of_kind. rewrite <- (types_joined_records d now dateRange Hnd).
    now rewrite filter_of_map. }
  apply types_aggregate_records; [exact Hgroup|].
  intros Hnil. rewrite Hnil in Hgroup. cbn [map] in Hgroup.
  apply in_map_iff in Hk. destruct Hk as (rl & Hkind & Hrl).
  assert (Hin : In rl (records_of_kind k (windowed d now dateRange))).
  { apply filter_In. split; [exact Hrl | now apply same_kind_eq]. }
  rewrite <- Hgroup in Hin. destruct Hin.
Qed.

Lemma counted_more_total (a b : TypeCount.t) :
  counted_more a b = true \/ counted_more b a = true.
Proof. unfold counted_more. rewrite !Nat.leb_le. lia. Qed.

Lemma counted_more_trans (a b c : TypeCount.t) :
  counted_more a b = true -> counted_more b c = true -> counted_more a c = true.
Proof. unfold counted_more. rewrite !Nat.leb_le. lia. Qed.

Lemma list_sum_perm (l l' : list nat) : Permutation l l' -> list_sum l = list_sum l'.
Proof.
  unfold list_sum.
  induction 1 as [|x l l' _ IH|x y l|l l' l'' _ IH1 _ IH2]; cbn [fold_right]; lia.
Qed.

Lemma one_key (k : string * string) (keys : list (string * string)) :
  List.NoDup keys -> In k keys ->
  length (List.filter (fun k' => same_kind k k') keys) = 1%nat.
Proof.
  induction keys as [|x keys IH]; intros Hnd Hin; [destruct Hin|].
  apply List.NoDup_cons_iff in Hnd. destruct Hnd as [Hx Hnd].
  cbn [List.filter]. destruct (same_kind k x) eqn:E.
  - apply same_kind_eq in E. subst x. cbn [length]. f_equal.
    rewrite filter_none; [reflexivity|].
    intros k' Hk'. apply same_kind_neq. intros ->. contradiction.
  - apply same_kind_neq in E. destruct Hin as [->|Hin]; [contradiction|]. now apply IH.
Qed.

(** Grouping by kind splits the records: the sizes of the groups add up to
    the number of records. *)
Lemma kinds_partition (keys : list (string * string)) (records : list Log.t) :
  List.NoDup keys ->
  (forall rl, In rl records -> In (kind_of rl) keys) ->
  list_sum (map (fun k => length (records_of_kind k records)) keys) = length records.
Proof.
  intros Hnd. unfold list_sum. induction records as [|rl records IH]; intros Hkeys.
  - cbn [length]. induction keys as [|k keys IHk]; [reflexivity|].
    cbn [map list_sum fold_right records_of_kind List.filter length]. apply List.NoDup_cons_iff in Hnd.
    apply IHk; [apply Hnd | intros rl []].
  - cbn [length]. rewrite <- IH by (intros rl' Hrl'; apply Hkeys; now right).
    pose proof (one_key (kind_of rl) keys Hnd (Hkeys rl (or_introl eq_refl))) as Hone.
    assert (Hsplit :
      fold_right Nat.add 0%nat
        (map (fun k => length (records_of_kind k (rl :: records))) keys)
      = (length (List.filter (fun k' => same_kind (kind_of rl) k') keys)
         + fold_right Nat.add 0%nat
             (map (fun k => length (records_of_kind k records)) keys))%nat).
    { clear. induction keys as [|k keys IHk]; [reflexivity|].
      cbn [map fold_right List.filter]. unfold records_of_kind at 1. cbn [List.filter].
      fold (records_of_kind k records).
      destruct (same_kind (kind_of rl) k); cbn [length]; rewrite IHk; lia. }
    lia.
Qed.

(** X23. The breakdown by type of the dashboard, when period ids are keys:
    it has one row for each pair of category and kind that occurs among
    the records whose period starts in the window, and no pair twice.  A
    row counts the records of its pair, at least one, and averages their
    absolute variances; the counts add up to the number of records whose
    period starts in the window.  The rows come largest count first. *)
Theorem breakdown_by_type (d : db) (now dateRange : Z) :
  List.NoDup (map Period.id (payroll_periods d)) ->
  Permutation (discrepancyTypes d now dateRange)
              (map (type_row d now dateRange)
                   (distinct_kinds (map kind_of (windowed d now dateRange)))) /\
  List.NoDup (map row_kind (discrepancyTypes d now dateRange)) /\
  (forall row,
     In row (discrepancyTypes d now dateRange) ->
     row = type_row d now dateRange (row_kind row) /\ (1 <= TypeCount.count row)%nat) /\
  list_sum (map TypeCount.count (discrepancyTypes d now dateRange))
  = length (windowed d now dateRange) /\
  (forall i j a b,
     (i < j)%nat ->
     nth_error (discrepancyTypes d now dateRange) i = Some a ->
     nth_error (discrepancyTypes d now dateRange) j = Some b ->
     (TypeCount.count b <= TypeCount.count a)%nat).
Proof.
  intros Hnd. pose proof (discrepancyTypes_perm d now dateRange Hnd) as Hperm.
  set (keys := distinct_kinds (map kind_of (windowed d now dateRange))) in *.
  assert (Hkinds : map row_kind (map (type_row d now dateRange) keys) = keys).
  { rewrite map_map. rewrite <- (map_id keys) at 2. apply List.map_ext.
    intros [t k]. reflexivity. }
  split; [exact Hperm|]. split; [|split; [|split]].
  - apply (Permutation_NoDup (l := map row_kind (map (type_row d now dateRange) keys))).
    + apply Permutation_map, Permutation_sym, Hperm.
    + rewrite Hkinds. apply distinct_kinds_NoDup.
  - intros row Hrow. apply (Permutation_in _ Hperm) in Hrow.
    apply in_map_iff in Hrow. destruct Hrow as ([t k] & <- & Hk).
    split; [reflexivity|].
    apply (proj1 (distinct_kinds_In _ _)) in Hk.
    apply in_map_iff in Hk. destruct Hk as (rl & Hkind & Hrl).
    cbn [type_row TypeCount.count].
    assert (Hin : In rl (records_of_kind (t, k) (windowed d now dateRange))).
    { apply filter_In. split; [exact Hrl | now apply same_kind_eq]. }
    destruct (records_of_kind (t, k) (windowed d now dateRange)); [destruct Hin|].
    cbn [length]. lia.
  - rewrite (list_sum_perm _ _ (Permutation_map TypeCount.count Hperm)), map_map.
    cbn [type_row TypeCount.count].
    apply kinds_partition; [apply distinct_kinds_NoDup|].
    intros rl Hrl. apply distinct_kinds_In. now apply in_map.
  - intros i j a b Hij Ha Hb. apply Nat.leb_le.
    change (counted_more a b = true).
    apply (sorted_nth counted_more) with (l := discrepancyTypes d now dateRange)
                                         (i := i) (j := j); try assumption.
    apply order_by_sorted; [exact counted_more_total | exact counted_more_trans].
Qed.

Lemma breakdown_by_type_witness :
  list_sum (map TypeCount.count (discrepancyTypes db_offenders 86400 30))
  = length (windowed db_offenders 86400 30).
Proof.
  exact (proj1 (proj2 (proj2 (proj2
           (breakdown_by_type db_offenders 86400 30 (proj2 db_offenders_keys)))))).
Defined.
